(** * Issue-report extraction pipeline: a shallow embedding

  This development embeds [program/preparation/5_get_issue_reports.py]
  and states the properties of its specification as theorems about the
  embedding.

  - Text is modelled by [string]; a character is read as a Unicode code
    point in the range U+0000..U+00FF, and the Python built-ins used by
    the program ([str.strip], [str.split], [str.replace],
    [str.isdigit], [int], the regular expression of the label matcher)
    are modelled on that range.
  - A dictionary is a [gmap] from texts to values, a set of IDs a
    [gset Z].
  - The browser session is modelled by what its waits and look-ups give:
    a [page] for an issue, a [sub_page] for a revision page, with [None]
    where the session raises [TimeoutException] or
    [NoSuchElementException]. An exception that leaves a function is the
    result [None] of that function.
  - [json.dumps], [json.loads] and the [csv] writer and reader are
    modelled for the values and the dialect the program uses; the reader
    raises on a field above its limit of 131072 characters.
  - The formatting of dates ([datetime]) and the evaluation of a
    non-empty re-scrape filter ([pandas]) are parameters. *)

From Stdlib Require Import ZArith NArith Ascii String List Bool Lia Sorted.
From stdpp Require Import base option list gmap strings pretty.

#[local] Set Warnings "-register-all,-clear-no-such-hyp".

Import ListNotations.
Local Open Scope string_scope.
Local Open Scope list_scope.

(** ** Python built-ins on text *)

Module Py.

Definition code (c : ascii) : N := N_of_ascii c.

Definition in_range (lo hi : N) (c : ascii) : bool :=
  ((lo <=? code c) && (code c <=? hi))%N.

(** [str.isspace] of a single character: TAB..CR, FS..US, SPACE, NEL
    and NBSP are the white-space code points below U+0100. This is also
    the class [\s] of [re] on [str] patterns and the set removed by
    [str.strip()]. *)
Definition isspace (c : ascii) : bool :=
  in_range 9 13 c || in_range 28 32 c
  || (code c =? 133)%N || (code c =? 160)%N.

(** Decimal digits: the characters [int] accepts. *)
Definition isdecimal (c : ascii) : bool := in_range 48 57 c.

(** [str.isdigit] of a single character also holds of the superscript
    digits U+00B2, U+00B3 and U+00B9. *)
Definition isdigit_char (c : ascii) : bool :=
  isdecimal c || (code c =? 178)%N || (code c =? 179)%N || (code c =? 185)%N.

(** Lower-casing of a code point below U+0100. *)
Definition lower (c : ascii) : ascii :=
  if in_range 65 90 c
     || (in_range 192 222 c && negb (code c =? 215)%N)
  then ascii_of_N (code c + 32) else c.

Definition eqb_nocase (a b : ascii) : bool :=
  Ascii.eqb (lower a) (lower b).

(** [s.lstrip()], [s.rstrip()] and [s.strip()]. *)
Fixpoint lstrip (s : string) : string :=
  match s with
  | String c s' => if isspace c then lstrip s' else s
  | EmptyString => EmptyString
  end.

Fixpoint rstrip (s : string) : string :=
  match s with
  | String c s' =>
      match rstrip s' with
      | EmptyString => if isspace c then EmptyString else String c EmptyString
      | r => String c r
      end
  | EmptyString => EmptyString
  end.

Definition strip (s : string) : string := rstrip (lstrip s).

(** [s.split(sep)] for a one-character separator: every occurrence of
    [sep] cuts; the result is never empty. *)
Fixpoint split (sep : ascii) (s : string) : list string :=
  match s with
  | EmptyString => [EmptyString]
  | String c s' =>
      if Ascii.eqb c sep then EmptyString :: split sep s'
      else match split sep s' with
           | h :: t => String c h :: t
           | [] => [String c EmptyString]
           end
  end.

(** [s.split(sep, 1)]: at most one cut, at the first occurrence. *)
Fixpoint split1 (sep : ascii) (s : string) : list string :=
  match s with
  | EmptyString => [EmptyString]
  | String c s' =>
      if Ascii.eqb c sep then [EmptyString; s']
      else match split1 sep s' with
           | h :: t => String c h :: t
           | [] => [String c EmptyString]
           end
  end.

(** [s.startswith(p)]. *)
Fixpoint startswith (p s : string) : bool :=
  match p, s with
  | EmptyString, _ => true
  | String a p', String b s' => Ascii.eqb a b && startswith p' s'
  | String _ _, EmptyString => false
  end.

(** [sub in s]. *)
Fixpoint contains (sub s : string) : bool :=
  startswith sub s ||
  match s with
  | String _ s' => contains sub s'
  | EmptyString => false
  end.

(** The text after a prefix of the length of [p]. *)
Fixpoint drop_prefix (p s : string) : string :=
  match p, s with
  | String _ p', String _ s' => drop_prefix p' s'
  | _, _ => s
  end.

(** [s.replace(old, new)] for a non-empty [old]: occurrences are
    replaced left to right, without overlap. The recursion is on a
    fuel bounded by the length of [s]. *)
Fixpoint replace_fuel (fuel : nat) (old new s : string) : string :=
  match fuel with
  | O => s
  | S fuel' =>
      match s with
      | EmptyString => EmptyString
      | String c s' =>
          if startswith old s
          then new ++ replace_fuel fuel' old new (drop_prefix old s)
          else String c (replace_fuel fuel' old new s')
      end
  end.

Definition replace (old new s : string) : string :=
  replace_fuel (String.length s) old new s.

(** [s.isdigit()]: non-empty and every character a digit. *)
Fixpoint all_chars (p : ascii -> bool) (s : string) : bool :=
  match s with
  | EmptyString => true
  | String c s' => p c && all_chars p s'
  end.

Definition isdigit (s : string) : bool :=
  negb (String.eqb s EmptyString) && all_chars isdigit_char s.

(** [int(s)] on a text that passed [isdigit]: the decimal value, or a
    [ValueError] ([None]) when a character is not a decimal digit. *)
Fixpoint int_acc (acc : Z) (s : string) : option Z :=
  match s with
  | EmptyString => Some acc
  | String c s' =>
      if isdecimal c
      then int_acc (10 * acc + Z.of_N (code c - 48)) s'
      else None
  end.

Definition int (s : string) : option Z :=
  match s with
  | EmptyString => None
  | _ => int_acc 0 s
  end.

(** [str(n)] of an integer. *)
Definition str_of_int (n : Z) : string := pretty n.

(** [sep.join(l)]. *)
Fixpoint join (sep : string) (l : list string) : string :=
  match l with
  | [] => EmptyString
  | [x] => x
  | x :: l' => x ++ sep ++ join sep l'
  end.

(** [x in l] for a list of texts. *)
Definition mem (x : string) (l : list string) : bool :=
  existsb (String.eqb x) l.

(** [range(n)] and [range(start, stop, step)] for a positive step. *)
Definition range (n : nat) : list nat := seq 0 n.

Fixpoint range_from (fuel start stop step : nat) : list nat :=
  match fuel with
  | O => []
  | S fuel' =>
      if (start <? stop)%nat
      then start :: range_from fuel' (start + step) stop step
      else []
  end.

Definition range_step (start stop step : nat) : list nat :=
  range_from stop start stop step.

(** [l[i:j]]. *)
Definition slice {A} (l : list A) (i j : nat) : list A :=
  take (j - i) (drop i l).

(** [sorted(l)] for a total order given by [leb]: insertion sort. *)
Fixpoint insert_sorted {A} (leb : A -> A -> bool) (x : A) (l : list A) : list A :=
  match l with
  | [] => [x]
  | y :: l' => if leb x y then x :: l else y :: insert_sorted leb x l'
  end.

Definition sorted {A} (leb : A -> A -> bool) (l : list A) : list A :=
  foldr (insert_sorted leb) [] l.

(** The lines a text file yields when it is iterated: a line ends at
    LF, at CR LF or at a lone CR, and keeps its end. With [translate]
    (the default mode of [open]) every line end is read as LF; without
    it line ends are left as they are. *)
Fixpoint file_lines (translate : bool) (s : string) : list string :=
  match s with
  | EmptyString => []
  | String c s' =>
      if Ascii.eqb c "010" then String "010" EmptyString :: file_lines translate s'
      else if Ascii.eqb c "013" then
        match s' with
        | String "010" s'' =>
            (if translate then String "010" EmptyString
             else String "013" (String "010" EmptyString))
              :: file_lines translate s''
        | _ =>
            (if translate then String "010" EmptyString
             else String "013" EmptyString)
              :: file_lines translate s'
        end
      else match file_lines translate s' with
           | l :: ls => String c l :: ls
           | [] => [String c EmptyString]
           end
  end.

(** [s.endswith(suffix)]. *)
Definition endswith (suffix s : string) : bool :=
  (String.length suffix <=? String.length s)%nat
  && String.eqb suffix
       (String.substring (String.length s - String.length suffix)
          (String.length suffix) s).

End Py.


(** ** Record values and their JSON text

    A field of an issue record holds [None], a boolean, a text or a list;
    [json.loads] can also give an integer. *)

Inductive value : Type :=
| VNone
| VBool (b : bool)
| VInt (n : Z)
| VStr (s : string)
| VList (l : list value).

Module Json.

Definition dquote : ascii := "034".
Definition backslash : ascii := "092".

Definition hex_digit (n : N) : ascii :=
if (n <? 10)%N then ascii_of_N (48 + n) else ascii_of_N (87 + n).

(** The replacement of one character inside a JSON string, as
    [json.dumps(..., ensure_ascii=False)] writes it. *)
Definition escape_char (c : ascii) : string :=
if Ascii.eqb c backslash then String backslash (String backslash EmptyString)
else if Ascii.eqb c dquote then String backslash (String dquote EmptyString)
else if Ascii.eqb c "008" then String backslash "b"
else if Ascii.eqb c "012" then String backslash "f"
else if Ascii.eqb c "010" then String backslash "n"
else if Ascii.eqb c "013" then String backslash "r"
else if Ascii.eqb c "009" then String backslash "t"
else if (Py.code c <? 32)%N then
  String backslash
    (String "u" (String "0" (String "0"
      (String (hex_digit (Py.code c / 16))
        (String (hex_digit (Py.code c mod 16)) EmptyString)))))
else String c EmptyString.

Fixpoint escape (s : string) : string :=
match s with
| EmptyString => EmptyString
| String c s' => escape_char c ++ escape s'
end.

Definition dumps_str (s : string) : string :=
String dquote (escape s ++ String dquote EmptyString).

(** [json.dumps(v, ensure_ascii=False)]. *)
Fixpoint dumps (v : value) : string :=
match v with
| VNone => "null"
| VBool true => "true"
| VBool false => "false"
| VInt n => Py.str_of_int n
| VStr s => dumps_str s
| VList l => "[" ++ Py.join ", " (map dumps l) ++ "]"
end.

(** *** Decoding *)

Definition is_ws (c : ascii) : bool :=
Ascii.eqb c " " || Ascii.eqb c "009" || Ascii.eqb c "010" || Ascii.eqb c "013".

Fixpoint skip_ws (s : string) : string :=
match s with
| String c s' => if is_ws c then skip_ws s' else s
| EmptyString => EmptyString
end.

Definition hex_val (c : ascii) : option N :=
if Py.in_range 48 57 c then Some (Py.code c - 48)%N
else if Py.in_range 97 102 c then Some (Py.code c - 87)%N
else if Py.in_range 65 70 c then Some (Py.code c - 55)%N
else None.

(** The four hexadecimal digits of a [\u] escape; a code point above
    U+00FF lies outside the modelled characters and gives [None]. *)
Definition unicode_escape (a b c d : ascii) : option ascii :=
match hex_val a, hex_val b, hex_val c, hex_val d with
| Some 0%N, Some 0%N, Some h, Some l => Some (ascii_of_N (16 * h + l))
| _, _, _, _ => None
end.

(** The body of a string, after its opening quote: the decoded text and
    the input after the closing quote. *)
Fixpoint loads_str (s : string) : option (string * string) :=
match s with
| EmptyString => None
| String c s' =>
    if Ascii.eqb c dquote then Some (EmptyString, s')
    else if Ascii.eqb c backslash then
      match s' with
      | String e s'' =>
          let simple (x : ascii) :=
            match loads_str s'' with
            | Some (t, r) => Some (String x t, r)
            | None => None
            end in
          if Ascii.eqb e dquote then simple dquote
          else if Ascii.eqb e backslash then simple backslash
          else if Ascii.eqb e "/" then simple "/"%char
          else if Ascii.eqb e "b" then simple "008"%char
          else if Ascii.eqb e "f" then simple "012"%char
          else if Ascii.eqb e "n" then simple "010"%char
          else if Ascii.eqb e "r" then simple "013"%char
          else if Ascii.eqb e "t" then simple "009"%char
          else if Ascii.eqb e "u" then
            match s'' with
            | String h1 (String h2 (String h3 (String h4 s4))) =>
                match unicode_escape h1 h2 h3 h4, loads_str s4 with
                | Some x, Some (t, r) => Some (String x t, r)
                | _, _ => None
                end
            | _ => None
            end
          else None
      | EmptyString => None
      end
    else if (Py.code c <? 32)%N then None
    else match loads_str s' with
         | Some (t, r) => Some (String c t, r)
         | None => None
         end
end.

(** The digits at the head of a text and the text after them. *)
Fixpoint span_digits (s : string) : string * string :=
match s with
| String c s' =>
    if Py.isdecimal c
    then let '(d, r) := span_digits s' in (String c d, r)
    else (EmptyString, s)
| EmptyString => (EmptyString, EmptyString)
end.

(** An integer [0] or [[1-9][0-9]*] at the head of a text. A fraction
    or an exponent after it is left in the rest, where the callers
    reject it. *)
Definition loads_nat (s : string) : option (Z * string) :=
match s with
| String "0" s' => Some (0%Z, s')
| String c s' =>
    if Py.isdecimal c then
      let '(d, r) := span_digits s in
      match Py.int_acc 0 d with
      | Some n => Some (n, r)
      | None => None
      end
    else None
| EmptyString => None
end.

(** A value at the head of a text, and the items of an array after its
    opening bracket. [fuel] bounds the nesting and the number of
    items. *)
Fixpoint loads_value (fuel : nat) (s : string) : option (value * string) :=
match fuel with
| O => None
| S fuel' =>
    match s with
    | String "034" s' =>
        match loads_str s' with
        | Some (t, r) => Some (VStr t, r)
        | None => None
        end
    | String "[" s' =>
        match skip_ws s' with
        | String "]" r => Some (VList [], r)
        | s1 => loads_items fuel' s1 []
        end
    | String "n" (String "u" (String "l" (String "l" r))) => Some (VNone, r)
    | String "t" (String "r" (String "u" (String "e" r))) => Some (VBool true, r)
    | String "f" (String "a" (String "l" (String "s" (String "e" r)))) =>
        Some (VBool false, r)
    | String "-" s' =>
        match loads_nat s' with
        | Some (n, r) => Some (VInt (- n), r)
        | None => None
        end
    | _ =>
        match loads_nat s with
        | Some (n, r) => Some (VInt n, r)
        | None => None
        end
    end
end
with loads_items (fuel : nat) (s : string) (acc : list value)
  : option (value * string) :=
match fuel with
| O => None
| S fuel' =>
    match loads_value fuel' s with
    | Some (v, r) =>
        match skip_ws r with
        | String "," r' => loads_items fuel' (skip_ws r') (v :: acc)
        | String "]" r' => Some (VList (rev (v :: acc)), r')
        | _ => None
        end
    | None => None
    end
end.

(** [json.loads(s)]: [None] stands for [JSONDecodeError], and for the
    documents this model leaves out: fractions, exponents, [NaN],
    [Infinity], objects and [\u] escapes above U+00FF. *)
Definition loads (s : string) : option value :=
match loads_value (S (String.length s)) (skip_ws s) with
| Some (v, r) =>
    match skip_ws r with
    | EmptyString => Some v
    | _ => None
    end
| None => None
end.

End Json.

(** ** The [csv] module, dialect [excel]

    Delimiter comma, quote character U+0022 written twice inside a
    quoted field, minimal quoting, line terminator CR LF, no escape
    character, not strict. *)

Module Csv.

Definition comma : ascii := ",".
Definition dquote : ascii := "034".
Definition cr : ascii := "013".
Definition lf : ascii := "010".

(** *** Writer *)

Definition special (c : ascii) : bool :=
  Ascii.eqb c comma || Ascii.eqb c dquote || Ascii.eqb c cr || Ascii.eqb c lf.

Fixpoint has_special (s : string) : bool :=
  match s with
  | EmptyString => false
  | String c s' => special c || has_special s'
  end.

Fixpoint double_quotes (s : string) : string :=
  match s with
  | EmptyString => EmptyString
  | String c s' =>
      if Ascii.eqb c dquote then String dquote (String dquote (double_quotes s'))
      else String c (double_quotes s')
  end.

Definition write_field (f : string) : string :=
  if has_special f
  then String dquote (double_quotes f ++ String dquote EmptyString)
  else f.

(** [writer.writerow(fields)]: a row of one empty field is written as a
    pair of quotes. *)
Definition writerow (fields : list string) : string :=
  match fields with
  | [EmptyString] => String dquote (String dquote EmptyString)
  | _ => Py.join (String comma EmptyString) (map write_field fields)
  end ++ String cr (String lf EmptyString).

Definition writerows (rows : list (list string)) : string :=
  String.concat EmptyString (map writerow rows).

(** *** Reader *)

Inductive state : Type :=
| StartRecord
| StartField
| InField
| InQuotedField
| QuoteInQuotedField
| EatCRNL.

(** The parser of one reader: its state, the characters of the field
    being read (last first) and the fields of the record read so far
    (last first). *)
Record parser : Type := Parser {
  p_state : state;
  p_field : list ascii;
  p_fields : list string;
}.

(** [csv.field_size_limit()]: the most characters a field may hold, as
    the module sets it when nothing changes it. *)
Definition field_limit : N := 131072.

(** [parse_add_char]: a character is added to the field being read;
    [None] is the [csv.Error] raised when the field already holds
    [field_limit] characters. *)
Definition add_char (c : ascii) (p : parser) (st : state) : option parser :=
  if (field_limit <=? N.of_nat (length (p_field p)))%N then None
  else Some (Parser st (c :: p_field p) (p_fields p)).

Definition save_field (p : parser) (st : state) : parser :=
  Parser st [] (string_of_list_ascii (rev (p_field p)) :: p_fields p).

Definition set_state (p : parser) (st : state) : parser :=
  Parser st (p_field p) (p_fields p).

Definition is_newline (c : ascii) : bool := Ascii.eqb c lf || Ascii.eqb c cr.

Definition start_field (c : ascii) (p : parser) : option parser :=
  if is_newline c then Some (save_field p EatCRNL)
  else if Ascii.eqb c dquote then Some (set_state p InQuotedField)
  else if Ascii.eqb c comma then Some (save_field p StartField)
  else add_char c p InField.

(** One character of a line; [None] is [csv.Error]. *)
Definition process_char (p : parser) (c : ascii) : option parser :=
  match p_state p with
  | StartRecord =>
      if is_newline c then Some (set_state p EatCRNL)
      else start_field c p
  | StartField => start_field c p
  | InField =>
      if is_newline c then Some (save_field p EatCRNL)
      else if Ascii.eqb c comma then Some (save_field p StartField)
      else add_char c p InField
  | InQuotedField =>
      if Ascii.eqb c dquote then Some (set_state p QuoteInQuotedField)
      else add_char c p InQuotedField
  | QuoteInQuotedField =>
      if Ascii.eqb c dquote then add_char c p InQuotedField
      else if Ascii.eqb c comma then Some (save_field p StartField)
      else if is_newline c then Some (save_field p EatCRNL)
      else add_char c p InField
  | EatCRNL =>
      if is_newline c then Some p else None
  end.

(** The end of a line. *)
Definition process_eol (p : parser) : parser :=
  match p_state p with
  | StartRecord => p
  | StartField | InField | QuoteInQuotedField => save_field p StartRecord
  | InQuotedField => p
  | EatCRNL => set_state p StartRecord
  end.

Fixpoint process_line (p : parser) (line : string) : option parser :=
  match line with
  | EmptyString => Some (process_eol p)
  | String c line' =>
      match process_char p c with
      | Some p' => process_line p' line'
      | None => None
      end
  end.

Definition fresh : parser := Parser StartRecord [] [].

(** The records of a reader over the lines of a file, and whether the
    reader came to the end of the lines without [csv.Error]. A record
    ends with the line that leaves the parser at the start of a record;
    lines that run out inside a quoted field end the record there. *)
Fixpoint read (p : parser) (lines : list string) : list (list string) * bool :=
  match lines with
  | [] =>
      match p_state p, p_field p with
      | InQuotedField, _ | _, _ :: _ =>
          ([rev (p_fields (save_field p StartRecord))], true)
      | _, [] => ([], true)
      end
  | line :: lines' =>
      match process_line p line with
      | None => ([], false)
      | Some p' =>
          match p_state p' with
          | StartRecord =>
              let '(rows, ok) := read fresh lines' in
              (rev (p_fields p') :: rows, ok)
          | _ => read p' lines'
          end
      end
  end.

Definition reader (lines : list string) : list (list string) * bool :=
  read fresh lines.

End Csv.

(** ** Revision Range Splitter *)

Definition split_revision_range (text : string) : list string :=
  let parts := Py.split ":" text in
  match parts with
  | [p0; p1] =>
      if (10 <? String.length p0)%nat && (10 <? String.length p1)%nat
      then parts else [text]
  | _ => [text]
  end.

(** ** Issue records *)

Abbreviation record := (gmap string value).

Definition VStrs (l : list string) : value := VList (map VStr l).

(** ** Navigation to an issue page *)

(** What the look-up of the throttle banner gives after a time-out:
    the banner is displayed, it is there but not displayed, or there is
    no such element. *)
Inductive throttle_probe : Type :=
| BannerShown
| BannerHidden
| BannerAbsent.

(** The outcome of one navigation followed by the wait for the content
    marker. *)
Inductive load_attempt : Type :=
| ContentLoaded
| WaitTimedOut (probe : throttle_probe).

(** What the loop does to the outside: navigations and sleeps. *)
Inductive effect : Type :=
| Navigate (url : string)
| Sleep (seconds : nat).

Definition max_retries : nat := 5.
Definition throttle_cooldown : nat := 10.

(** The body of [for attempt in range(max_retries)] over the attempts
    still to run; [outcome attempt] is what the navigation of that
    iteration meets. The result is [load_success] and the effects in
    order. *)
Fixpoint load_attempts (outcome : nat -> load_attempt) (url : string)
    (attempts : list nat) : bool * list effect :=
  match attempts with
  | [] => (false, [])
  | attempt :: rest =>
      match outcome attempt with
      | ContentLoaded => (true, [Navigate url])
      | WaitTimedOut BannerShown =>
          let '(ok, tr) := load_attempts outcome url rest in
          (ok, Navigate url :: Sleep throttle_cooldown :: tr)
      | WaitTimedOut _ =>
          let '(ok, tr) := load_attempts outcome url rest in
          (ok, Navigate url :: tr)
      end
  end.

Definition load_issue_page (outcome : nat -> load_attempt) (url : string)
  : bool * list effect :=
  load_attempts outcome url (Py.range max_retries).

Definition initial_url (issue_no : Z) : string :=
  if (issue_no <? 10000000)%Z
  then "https://bugs.chromium.org/p/oss-fuzz/issues/detail?id=" ++ Py.str_of_int issue_no
  else "https://issues.oss-fuzz.com/issues/" ++ Py.str_of_int issue_no.

Definition failed_load_record (issue_no : Z) : record :=
  <["id" := VStr (Py.str_of_int issue_no)]>
  (<["url" := VStr (initial_url issue_no)]>
  (<["error" := VBool true]>
  (<["title" := VStr "Failed to load page"]> ∅))).

(** ** Revision sub-pages *)

Record sub_page : Type := SubPage {
  (** whether the wait after the navigation of an attempt succeeds *)
  sp_navigated : nat -> bool;
  sp_title : string;
  sp_has_table : bool;
  (** the banner of failed revisions: absent, or whether it is displayed *)
  sp_failed_banner : option bool;
  (** the body rows of the revision table, [None] when the table does not
      appear in time; a row gives the texts of its cells, or [None] when
      reading it raises *)
  sp_rows : option (list (option (list string)));
}.

Record revision_data : Type := RevisionData {
  rd_components : list string;
  rd_revisions : list (list string);
  rd_buildtime : option (list string);
}.

Fixpoint sub_page_reached (navigated : nat -> bool) (attempts : list nat) : bool :=
  match attempts with
  | [] => false
  | attempt :: rest => navigated attempt || sub_page_reached navigated rest
  end.

Definition revision_row (row : option (list string))
  : option (string * list string) :=
  match row with
  | Some (c0 :: c1 :: _) =>
      let comp_text := Py.strip c0 in
      let rev_text := Py.strip c1 in
      if negb (String.eqb comp_text "") && negb (String.eqb rev_text "")
      then Some (comp_text, split_revision_range rev_text)
      else None
  | _ => None
  end.

Definition scrape_revision_details (sp : sub_page) (url_to_scrape : string)
  : option revision_data :=
  if negb (sub_page_reached (sp_navigated sp) (Py.range 3)) then None
  else if Py.contains "Error" (sp_title sp) && negb (sp_has_table sp) then None
  else if bool_decide (sp_failed_banner sp = Some true) then None
  else
    let buildtime :=
      if Py.contains "=" url_to_scrape
      then Some (Py.split ":" (List.last (Py.split "=" url_to_scrape) ""))
      else None in
    let pairs :=
      match sp_rows sp with
      | Some rows => omap revision_row rows
      | None => []
      end in
    Some (RevisionData (map fst pairs) (map snd pairs) buildtime).

(** ** Metadata block *)

Definition target_keys_meta : list string :=
  ["Reporter"; "Type"; "Priority"; "Severity"; "Status"; "Assignee";
   "Verifier"; "Collaborators"; "CC"; "Project"; "Disclosure"; "Reported";
   "Code Changes"; "Pending Code Changes"; "Staffing"; "Found In";
   "Targeted To"; "Verified In"].

Definition user_data_keys : list string :=
  ["Reporter"; "Assignee"; "Verifier"; "Collaborators"; "CC"].

Definition date_keys : list string := ["Disclosure"; "Reported"].

(** A labelled container of the metadata block: the text of its label
    ([None] when it has none), the texts of its person hovercards and the
    text of its value element ([None] when it has none). *)
Record meta_field : Type := MetaField {
  mf_label : option string;
  mf_people : list string;
  mf_value : option string;
}.

(** The hovercard texts that remain: stripped, not empty, not [--]. *)
Definition user_values (people : list string) : list string :=
  List.filter (fun t => negb (String.eqb t "") && negb (String.eqb t "--"))
    (map Py.strip people).

Definition user_field_value (label : string) (people : list string) : value :=
  let values := user_values people in
  match values with
  | [] => VNone
  | v0 :: rest =>
      if Py.mem label ["CC"; "Collaborators"] then VStrs values
      else match rest with
           | [] => VStr v0
           | _ => VStrs values
           end
  end.

(** ** Description block *)

(** The labels of the description block, as the source lists them. The
    program iterates over [list(set(...))] of them, whose order is not
    fixed; the order in use is a parameter of the extractor. *)
Definition desc_vocabulary : list string :=
  ["Project"; "Fuzzing Engine"; "Fuzz Target"; "Job Type"; "Platform Id";
   "Crash Type"; "Crash Address"; "Crash State"; "Sanitizer"; "Regressed";
   "Reproducer Testcase"; "Crash Revision"; "Download"; "Fixed"; "Fuzzer";
   "Fuzzer binary"; "Fuzz target binary"; "Minimized Testcase";
   "Recommended Security Severity"; "Unminimized Testcase"; "Build log";
   "Build type"].

Definition url_keys_with_possible_extra_text : list string :=
  ["Regressed"; "Fixed"; "Crash Revision"; "Build log";
   "Reproducer Testcase"; "Minimized Testcase"].

Module Label.

(** The literal part of the pattern: [key] at the head of the line, case
    ignored; the result is the line after it. *)
Fixpoint literal (key line : string) : option string :=
  match key, line with
  | EmptyString, _ => Some line
  | String k key', String c line' =>
      if Py.eqb_nocase k c then literal key' line' else None
  | String _ _, EmptyString => None
  end.

(** [\s*:] at the head of a text. *)
Definition colon (s : string) : bool :=
  match Py.lstrip s with
  | String c _ => Ascii.eqb c ":"
  | EmptyString => false
  end.

(** [.*\)\s*:] at the head of a text: some closing parenthesis, with no
    line feed before it, that white space and a colon follow. *)
Fixpoint annotation_end (s : string) : bool :=
  match s with
  | EmptyString => false
  | String c s' =>
      (Ascii.eqb c ")" && colon s')
      || (negb (Ascii.eqb c "010") && annotation_end s')
  end.

(** [(?:\s*\(.*\))?\s*:] at the head of a text. *)
Definition suffix (s : string) : bool :=
  colon s ||
  match Py.lstrip s with
  | String c s' => Ascii.eqb c "(" && annotation_end s'
  | EmptyString => false
  end.

(** [re.compile(rf'^{re.escape(key)}(?:\s*\(.*\))?\s*:', re.IGNORECASE)
    .match(line)] gives a match. *)
Definition matches (key line : string) : bool :=
  match literal key line with
  | Some rest => suffix rest
  | None => false
  end.

End Label.

(** The value a matched line stores under [key]. *)
Definition label_value (key line_stripped : string) : string :=
  let value := Py.strip (nth 1 (Py.split1 ":" line_stripped) "") in
  if Py.mem key url_keys_with_possible_extra_text && Py.contains "http" value
  then hd "" (Py.split " " value)
  else value.

(** The Field Label Matcher: the first key of [keys] whose pattern
    matches the line without its emphasis marks, with the value to
    store. *)
Definition match_label (keys : list string) (line_stripped : string)
  : option (string * string) :=
  let clean_line_start := Py.replace "**" "" line_stripped in
  match List.find (fun key => Label.matches key clean_line_start) keys with
  | Some key => Some (key, label_value key line_stripped)
  | None => None
  end.

Definition strip_line (line : string) : string :=
  Py.replace "</b>" "" (Py.replace "<b>" "" (Py.strip line)).

(** One line of the description: the record and the current key before
    and after. *)
Definition description_line (keys : list string)
    (st : record * option string) (line : string) : record * option string :=
  let '(issue_infos, current_key) := st in
  let line_stripped := strip_line line in
  if String.eqb line_stripped "" then (issue_infos, None)
  else
    match match_label keys line_stripped with
    | Some (key, v) => (<[key := VStr v]> issue_infos, Some key)
    | None =>
        match current_key with
        | None => (issue_infos, None)
        | Some key =>
            if Py.contains "Issue filed automatically" line_stripped
               || Py.contains "See " line_stripped
            then (issue_infos, None)
            else
              match issue_infos !! key with
              | Some (VStr existing_value) =>
                  if String.eqb existing_value ""
                  then (<[key := VStrs [line_stripped]]> issue_infos, current_key)
                  else (<[key := VStrs [existing_value; line_stripped]]> issue_infos,
                        current_key)
              | Some (VList l) =>
                  (<[key := VList (l ++ [VStr line_stripped])]> issue_infos,
                   current_key)
              | _ => (issue_infos, current_key)
              end
        end
    end.

Definition description_lines (keys : list string) (issue_infos : record)
    (lines : list string) : record * option string :=
  fold_left (description_line keys) lines (issue_infos, None).

Definition parse_description (keys : list string) (issue_infos : record)
    (full_description_text : string) : record :=
  fst (description_lines keys issue_infos (Py.split "010" full_description_text)).

(** ** Issue Field Extractor *)

(** An entry of the event list: the text of its comment section
    ([None] when it has none), the [href] of its link to a revisions page
    ([None] when there is no such link) and the [datetime] attribute of
    its time element ([None] when there is no such element). *)
Record event : Type := Event {
  ev_comment : option string;
  ev_revisions_link : option (option string);
  ev_time : option (option string);
}.

(** What the session shows of one issue. For a wait or a look-up,
    [None] stands for [TimeoutException] or [NoSuchElementException]. *)
Record page : Type := Page {
  pg_loads : nat -> load_attempt;
  pg_url : string;
  pg_title : option string;
  pg_header_title : option string;
  pg_hotlists : option (list string);
  pg_reported : option (option string);
  pg_metadata : option (list meta_field);
  pg_events : option (list event);
  pg_description : option string;
  pg_sub_page : string -> sub_page;
}.

Definition attribute_value (a : option string) : value :=
  match a with
  | Some s => VStr s
  | None => VNone
  end.

Section Extractor.

(** [datetime.fromisoformat(s).strftime("%Y-%m-%d %H:%M")] and
    [datetime.strptime(s, "%Y-%m-%d").strftime("%Y-%m-%d")]; [None] is
    [ValueError]. *)
Variable iso_to_minute : string -> option string.
Variable strptime_ymd : string -> option string.

(** The order in which [target_keys_desc] is iterated. *)
Variable target_keys_desc : list string.

Definition format_utc (utc_time_str : string) : option string :=
  iso_to_minute (Py.replace "Z" "+00:00" utc_time_str).

(** Storing a formatted time under [key] when the attribute is there and
    not empty; [None] when formatting raises. *)
Definition store_time (key : string) (attr : option string)
    (issue_infos : record) : option record :=
  match attr with
  | Some (String c s) =>
      match format_utc (String c s) with
      | Some t => Some (<[key := VStr t]> issue_infos)
      | None => None
      end
  | _ => Some issue_infos
  end.

Definition extract_title (pg : page) (issue_infos : record) : record :=
  match pg_title pg, pg_header_title pg with
  | Some t, _ => <["title" := VStr t]> issue_infos
  | None, Some t => <["title" := VStr t]> issue_infos
  | None, None => <["error" := VBool true]> issue_infos
  end.

Definition extract_hotlists (pg : page) (issue_infos : record) : record :=
  match pg_hotlists pg with
  | Some texts =>
      match List.filter (fun t => negb (String.eqb t "")) texts with
      | [] => issue_infos
      | hotlists => <["hotlists" := VStrs hotlists]> issue_infos
      end
  | None => issue_infos
  end.

Definition extract_reported_time (pg : page) (issue_infos : record)
  : option record :=
  match pg_reported pg with
  | Some attr => store_time "reported_time" attr issue_infos
  | None => Some issue_infos
  end.

Definition other_field_value (label text : string) : value :=
  if String.eqb text "--" || String.eqb text "" then VNone
  else if Py.mem label date_keys then
    match strptime_ymd text with
    | Some d => VStr d
    | None => VStr text
    end
  else VStr text.

Definition metadata_field (issue_infos : record) (field : meta_field) : record :=
  match mf_label field with
  | None => issue_infos
  | Some text =>
      let label := Py.strip text in
      if negb (Py.mem label target_keys_meta) then issue_infos
      else
        let output_key :=
          if String.eqb label "Reported" then "Metadata_Reported_Date" else label in
        if Py.mem label user_data_keys
        then <[output_key := user_field_value label (mf_people field)]> issue_infos
        else
          match mf_value field with
          | None => issue_infos
          | Some v => <[output_key := other_field_value label (Py.strip v)]> issue_infos
          end
  end.

Definition extract_metadata (pg : page) (issue_infos : record) : record :=
  match pg_metadata pg with
  | Some field_containers => fold_left metadata_field field_containers issue_infos
  | None => issue_infos
  end.

(** The first line of a comment that discloses the fix, as a URL. *)
Fixpoint fixed_line (lines : list string) : option string :=
  match lines with
  | [] => None
  | line :: rest =>
      let line_stripped := Py.strip line in
      if Py.startswith "Fixed: http" line_stripped
         && Py.contains "/revisions" line_stripped
      then Some (nth 1 (Py.split1 " " line_stripped) "")
      else fixed_line rest
  end.

(** The events in the order the loop visits them. *)
Fixpoint scan_events (events : list event) (issue_infos : record)
  : option record :=
  match events with
  | [] => Some issue_infos
  | ev :: rest =>
      let found (infos : record) :=
        match ev_time ev with
        | Some attr => store_time "fixed_time" attr infos
        | None => Some infos
        end in
      match ev_comment ev with
      | None => scan_events rest issue_infos
      | Some comment_text =>
          match fixed_line (Py.split "010" comment_text) with
          | Some url => found (<["Fixed" := VStr url]> issue_infos)
          | None =>
              if Py.contains "is verified as fixed in" comment_text then
                match ev_revisions_link ev with
                | Some href =>
                    found (<["Fixed" := attribute_value href]> issue_infos)
                | None => scan_events rest issue_infos
                end
              else scan_events rest issue_infos
          end
      end
  end.

Definition extract_fixed (pg : page) (issue_infos : record) : option record :=
  match pg_events pg with
  | Some events => scan_events (rev events) issue_infos
  | None => Some issue_infos
  end.

Definition extract_description (pg : page) (issue_infos : record) : record :=
  match pg_description pg with
  | Some full_description_text =>
      parse_description target_keys_desc issue_infos full_description_text
  | None => issue_infos
  end.

Definition url_keys_to_scrape : list (string * string) :=
  [("Regressed", "regressed"); ("Fixed", "fixed"); ("Crash Revision", "crash")].

Definition buildtime_value (b : option (list string)) : value :=
  match b with
  | Some l => VStrs l
  | None => VNone
  end.

Definition scrape_key (pg : page) (issue_infos : record)
    (entry : string * string) : record :=
  let '(info_key, prefix) := entry in
  match issue_infos !! info_key with
  | Some (VStr sub_url) =>
      if negb (String.eqb sub_url "") && Py.startswith "http" sub_url then
        match scrape_revision_details (pg_sub_page pg sub_url) sub_url with
        | Some revision_data =>
            <[prefix +:+ "_buildtime" := buildtime_value (rd_buildtime revision_data)]>
            (<[prefix +:+ "_revisions" := VList (map VStrs (rd_revisions revision_data))]>
            (<[prefix +:+ "_components" := VStrs (rd_components revision_data)]>
              issue_infos))
        | None => issue_infos
        end
      else issue_infos
  | _ => issue_infos
  end.

Definition extract_revisions (pg : page) (issue_infos : record) : record :=
  fold_left (scrape_key pg) url_keys_to_scrape issue_infos.

(** [get_issue(issue_no, driver, html_save_dir)]: the record returned, or
    [None] when an exception leaves the function. *)
Definition get_issue (issue_no : Z) (pg : page) : option record :=
  if negb (fst (load_issue_page (pg_loads pg) (initial_url issue_no)))
  then Some (failed_load_record issue_no)
  else
    let current_issue_id := List.last (Py.split "/" (pg_url pg)) "" in
    let issue_infos : record :=
      <["error" := VBool false]>
      (<["url" := VStr (pg_url pg)]>
      (<["id" := VStr current_issue_id]> ∅)) in
    let issue_infos := extract_title pg issue_infos in
    let issue_infos := extract_hotlists pg issue_infos in
    issue_infos ← extract_reported_time pg issue_infos;
    let issue_infos := extract_metadata pg issue_infos in
    issue_infos ← extract_fixed pg issue_infos;
    let issue_infos := extract_description pg issue_infos in
    Some (extract_revisions pg issue_infos).

End Extractor.

(** ** Batch Persister *)

Definition all_keys (data_list : list record) : gset string :=
  ⋃ (dom <$> data_list).

Definition csv_header (data_list : list record) : list string :=
  Py.sorted String.leb (elements (all_keys data_list)).

(** [item.get(key)]. *)
Definition get (item : record) (key : string) : value :=
  default VNone (item !! key).

Definition row_dict (header : list string) (item : record) : list string :=
  map (fun key => Json.dumps (get item key)) header.

(** [save_to_csv(data_list, directory, file_index)]: the text of the
    file written, [None] when the batch is empty and no file is
    written. *)
Definition save_to_csv (data_list : list record) : option string :=
  match data_list with
  | [] => None
  | _ =>
      let header := csv_header data_list in
      Some (Csv.writerows (header :: map (row_dict header) data_list))
  end.

(** *** Reading a batch back *)

(** [dict(zip(fieldnames, row))]: a later field of the same name
    replaces an earlier one. *)
Definition dict_row (fieldnames row : list string) : gmap string string :=
  fold_left (fun d kv => <[kv.1 := kv.2]> d) (zip fieldnames row) ∅.

(** [csv.DictReader] over the lines of a file: the field names (the
    first record, [None] when there is none), the rows after it that are
    not empty, and whether the lines were read without [csv.Error]. *)
Definition dict_reader (lines : list string)
  : option (list string) * list (gmap string string) * bool :=
  match Csv.reader lines with
  | (fieldnames :: rows, ok) =>
      (Some fieldnames,
       map (dict_row fieldnames)
         (List.filter (fun row => negb (bool_decide (row = []))) rows),
       ok)
  | ([], ok) => (None, [], ok)
  end.

(** Every cell of a row decoded with [json.loads]; [None] when a cell
    does not decode. *)
Definition decode_row (row : gmap string string) : option record :=
  if bool_decide (map_Forall (fun _ cell => is_Some (Json.loads cell)) row)
  then Some (omap Json.loads row)
  else None.

(** The records of a batch file: the file opened as
    [load_processed_ids_from_csvs] opens it, read through
    [csv.DictReader], every cell decoded. *)
Definition read_back (file : string) : option (list record) :=
  match dict_reader (Py.file_lines true file) with
  | (Some _, rows, true) => mapM decode_row rows
  | _ => None
  end.

(** ** ID Resolver *)

(** What a decoded [id] cell adds to the processed IDs. *)
Inductive id_cell : Type :=
| AddId (n : Z)
| SkipCell
| RaiseValueError.

(** [if v is not None and str(v).isdigit(): add(int(v))]. The text of a
    boolean is [True] or [False] and that of a list starts with a
    bracket, so neither is made of digits. *)
Definition id_of_value (v : value) : id_cell :=
  match v with
  | VNone => SkipCell
  | VStr s =>
      if Py.isdigit s then
        match Py.int s with
        | Some n => AddId n
        | None => RaiseValueError
        end
      else SkipCell
  | VInt n => if Py.isdigit (Py.str_of_int n) then AddId n else SkipCell
  | VBool _ => SkipCell
  | VList _ => SkipCell
  end.

(** [row.get('id')], decoded when it is not empty. A cell that does not
    decode is skipped ([JSONDecodeError] is caught); so is, in the
    program, a cell that decodes to a fraction or to an object, whose
    text is not made of digits. *)
Definition id_of_row (row : gmap string string) : id_cell :=
  match row !! "id" with
  | Some (String c s) =>
      match Json.loads (String c s) with
      | Some v => id_of_value v
      | None => SkipCell
      end
  | _ => SkipCell
  end.

(** The rows of one file, until one raises. *)
Fixpoint ids_of_rows (rows : list (gmap string string)) (processed_ids : gset Z)
  : gset Z :=
  match rows with
  | [] => processed_ids
  | row :: rows' =>
      match id_of_row row with
      | AddId n => ids_of_rows rows' ({[n]} ∪ processed_ids)
      | SkipCell => ids_of_rows rows' processed_ids
      | RaiseValueError => processed_ids
      end
  end.

Definition ids_of_file (processed_ids : gset Z) (file : string * string) : gset Z :=
  let '(filename, text) := file in
  if Py.endswith ".csv" filename then
    match dict_reader (Py.file_lines true text) with
    | (Some fieldnames, rows, _) =>
        if Py.mem "id" fieldnames then ids_of_rows rows processed_ids
        else processed_ids
    | (None, _, _) => processed_ids
    end
  else processed_ids.

(** [load_processed_ids_from_csvs(base_dir)] over the files under the
    directory, as pairs of a name and a text; [None] when the directory
    does not exist. *)
Definition load_processed_ids_from_csvs (base_dir : option (list (string * string)))
  : gset Z :=
  match base_dir with
  | None => ∅
  | Some files => fold_left ids_of_file files ∅
  end.

(** The target IDs of the lines of the target file; [None] when [int]
    raises. *)
Fixpoint target_ids (lines : list string) (all_target_ids : gset Z)
  : option (gset Z) :=
  match lines with
  | [] => Some all_target_ids
  | line :: lines' =>
      let line_stripped := Py.strip line in
      if Py.isdigit line_stripped then
        match Py.int line_stripped with
        | Some n => target_ids lines' ({[n]} ∪ all_target_ids)
        | None => None
        end
      else target_ids lines' all_target_ids
  end.

(** A condition of the re-scrape filter. *)
Inductive condition : Type :=
| CondBool (b : bool)
| CondStr (s : string).

Section Resolver.

(** The IDs that the evaluation of a non-empty filter over the merged
    table selects (the [pandas] branch of [main]). *)
Variable select_ids : list (string * condition) -> list Z.

Definition rescrape_ids (merged_exists : bool)
    (filter_conditions : list (string * condition)) : list Z :=
  if negb merged_exists then []
  else match filter_conditions with
       | [] => []
       | _ => select_ids filter_conditions
       end.

(** The work list of [main]: [None] when [main] returns before it has
    one (no target file, or an exception while it is read). *)
Definition ids_to_process (target_file : option string)
    (merged_exists : bool) (filter_conditions : list (string * condition))
    (base_dir : option (list (string * string))) : option (list Z) :=
  match target_file with
  | None => None
  | Some text =>
      match target_ids (Py.file_lines true text) ∅ with
      | None => None
      | Some all_target_ids =>
          let id_list := rescrape_ids merged_exists filter_conditions in
          let processed_ids := load_processed_ids_from_csvs base_dir in
          let ids_to_process_set :=
            (all_target_ids ∖ processed_ids) ∪ list_to_set id_list in
          Some (Py.sorted Z.geb (elements ids_to_process_set))
      end
  end.

End Resolver.

(** ** Partitioner *)

Definition num_windows_requested : nat := 8.

(** [math.ceil(n / m)] for a positive [m]. The quotient of the program
    is a float; for the sizes of a list it is close enough to the exact
    quotient for its ceiling to be the exact one. *)
Definition ceil_div (n m : nat) : nat := (n + m - 1) / m.

(** The chunks of [main]; [None] when [main] returns without any. *)
Definition partition (requested : nat) (ids_to_process : list Z)
  : option (list (list Z)) :=
  match ids_to_process with
  | [] => None
  | _ =>
      let n := length ids_to_process in
      let num_windows := if (n <? requested)%nat then n else requested in
      if (num_windows =? 0)%nat then None
      else
        let chunk_size := ceil_div n num_windows in
        Some (map (fun i => Py.slice ids_to_process i (i + chunk_size))
                (Py.range_step 0 n chunk_size))
  end.

(** ** Notions used to state the properties *)

(** How often a character occurs in a text. *)
Fixpoint count_char (c : ascii) (s : string) : nat :=
  match s with
  | EmptyString => 0
  | String a s' => (if Ascii.eqb a c then 1 else 0) + count_char c s'
  end.

(** The part of a text before its first colon, and the part after it. *)
Definition before_colon (t : string) : string := hd "" (Py.split1 ":" t).
Definition after_colon (t : string) : string := nth 1 (Py.split1 ":" t) "".

(** The effects of the attempt of index [k] of the load loop. *)
Definition attempt_effects (outcome : nat -> load_attempt) (url : string)
    (k : nat) : list effect :=
  match outcome k with
  | WaitTimedOut BannerShown => [Navigate url; Sleep throttle_cooldown]
  | _ => [Navigate url]
  end.

Definition timed_out (a : load_attempt) : bool :=
  match a with
  | ContentLoaded => false
  | WaitTimedOut _ => true
  end.

(** The number of attempts the load loop runs: up to and including the
    first one that loads, at most [todo] from index [k] on. *)
Fixpoint attempts_run (outcome : nat -> load_attempt) (k todo : nat) : nat :=
  match todo with
  | O => 0
  | S todo' =>
      if timed_out (outcome k) then S (attempts_run outcome (S k) todo') else 1
  end.

(** A session in which every navigation to the issue page times out
    with the throttle banner displayed. *)
Definition always_throttled : nat -> load_attempt :=
  fun _ => WaitTimedOut BannerShown.

Definition empty_sub_page : sub_page :=
  SubPage (fun _ => false) "" false None None.

Definition throttled_page : page :=
  Page always_throttled "" None None None None None None None
    (fun _ => empty_sub_page).

(** Two texts of the same length whose characters agree when case is
    ignored. *)
Fixpoint same_nocase (a b : string) : bool :=
  match a, b with
  | EmptyString, EmptyString => true
  | String x a', String y b' => Py.eqb_nocase x y && same_nocase a' b'
  | _, _ => false
  end.


(** An issue page that loads at once and has no title element, with a
    reporter, a description of two labelled lines and a revision page
    behind the [Regressed] link. *)
Definition regressed_url : string :=
  "https://oss-fuzz.com/revisions?job=asan&range=202301010000:202301020000".

Definition untitled_page : page :=
  Page (fun _ => ContentLoaded)
    "https://issues.oss-fuzz.com/issues/42535201"
    None None None None
    (Some [MetaField (Some "Reporter") ["--"; "dev@example.org"] None])
    None
    (Some ("Crash Type: Heap-overflow" +:+ String "010" ("Regressed: " +:+ regressed_url)))
    (fun _ =>
       SubPage (fun _ => true) "Revisions" true None
         (Some [Some ["libfoo"; "aaaaaaaaaaaa:bbbbbbbbbbbb"]])).

(** Whether neither title element of a page is found. *)
Definition no_title (pg : page) : bool :=
  match pg_title pg, pg_header_title pg with
  | None, None => true
  | _, _ => false
  end.

(** The current key of the description pass is unset or a label of the
    vocabulary. *)
Definition cursor_ok (cur : option string) : Prop :=
  match cur with
  | Some K => In K desc_vocabulary
  | None => True
  end.


(** A target file of three lines, and a directory with one batch file
    that holds the record of issue 123. *)
Definition target_text : string :=
  "123" +:+ String "010" ("456" +:+ String "010" ("abc" +:+ String "010" "")).

Definition prior_batch : list record :=
  [<["id" := VStr "123"]>
   (<["url" := VStr "https://issues.oss-fuzz.com/issues/123"]>
   (<["error" := VBool false]>
   (<["title" := VStr "Heap-overflow in foo, bar"]> ∅)))].

Definition prior_dir : option (list (string * string)) :=
  Some [("window_0/001.csv", default "" (save_to_csv prior_batch))].

(** A line of the target file that holds the integer [n]: a digit line
    that [int] reads as [n]. *)
Definition digit_line (line : string) (n : Z) : Prop :=
  Py.isdigit (Py.strip line) = true /\ Py.int (Py.strip line) = Some n.

(** What may follow a value: nothing, or a character that is not a
    decimal digit. *)
Definition no_digit_ahead (rest : string) : Prop :=
  match rest with
  | EmptyString => True
  | String c _ => Py.isdecimal c = false
  end.

(** A bound on the fuel that decoding the text of a value needs: one for
    the value and one more for each item of a list. *)
Fixpoint json_size (v : value) : nat :=
  match v with
  | VList l => S (list_sum (map (fun v => S (json_size v)) l))
  | _ => 1
  end.

Definition json_items_size (l : list value) : nat :=
  list_sum (map (fun v => S (json_size v)) l).

(** The text of [v], followed by [rest], decodes to [v] and leaves
    [rest], with any fuel from [json_size v] on. *)
Definition decodes (v : value) : Prop :=
  forall fuel rest, json_size v <= fuel -> no_digit_ahead rest ->
    Json.loads_value fuel (Json.dumps v ++ rest) = Some (v, rest).

(** A character that ends no line. *)
Definition not_newline (c : ascii) : bool := negb (Csv.is_newline c).

(** The text of a row before its line terminator. *)
Definition row_text (fields : list string) : string :=
  match fields with
  | [EmptyString] => String Csv.dquote (String Csv.dquote EmptyString)
  | _ => Py.join (String Csv.comma EmptyString) (map Csv.write_field fields)
  end.

(** The record that comes back for [item]: every key of the header, with
    the value of [item] under it, [None] where [item] has none. *)
Definition read_back_record (header : list string) (item : record) : record :=
  omap Json.loads (dict_row header (row_dict header item)).

(** A record that holds an [id] and whose keys hold no line break. *)
Definition writable (r : record) : Prop :=
  is_Some (r !! "id")
  /\ forall k, is_Some (r !! k) -> Py.all_chars not_newline k = true.

(** A text that the reader accepts as a field: it holds at most
    [Csv.field_limit] characters. *)
Definition field_fits (f : string) : Prop :=
  (N.of_nat (String.length f) <= Csv.field_limit)%N.

Definition field_fits_dec (f : string) : Decision (field_fits f) :=
  N.le_dec (N.of_nat (String.length f)) Csv.field_limit.

#[global] Existing Instance field_fits_dec.

(** A record each of whose keys, and the JSON text of each of whose
    values, is accepted as a field. *)
Definition fits (r : record) : Prop :=
  map_Forall (fun k v => field_fits k /\ field_fits (Json.dumps v)) r.

Definition fits_dec (r : record) : Decision (fits r) :=
  map_Forall_dec (fun k v => field_fits k /\ field_fits (Json.dumps v)) r.

#[global] Existing Instance fits_dec.

(** A batch of two records of the extractor: that of the page without a
    title and that of the page that never loads. *)
Definition sample_pages : list page := [untitled_page; throttled_page].

Definition sample_batch : list record :=
  omap (get_issue (fun s => Some s) (fun s => Some s) desc_vocabulary 42535201)
    sample_pages.

(** A property of characters that does not depend on their case. *)
Definition lower_invariant (p : ascii -> bool) : Prop :=
  forall c, p (Py.lower c) = p c.

(** The end of a line that carries a size annotation. *)
Local Abbreviation annotated_tail := " (1.2 Kb): value".

(** What the rows of a batch add to the processed IDs, read off the
    records themselves. *)
Fixpoint ids_of_items (items : list record) (processed_ids : gset Z) : gset Z :=
  match items with
  | [] => processed_ids
  | item :: items' =>
      match id_of_value (get item "id") with
      | AddId n => ids_of_items items' ({[n]} ∪ processed_ids)
      | SkipCell => ids_of_items items' processed_ids
      | RaiseValueError => processed_ids
      end
  end.

(** ** Worker *)

Fixpoint zeros (n : nat) : string :=
  match n with
  | O => EmptyString
  | S n' => String "0" (zeros n')
  end.

(** A record whose title is a text of [n] zeros, and the one whose title
    holds as many characters as the reader allows in a field; the JSON
    text of that title is two characters longer. *)
Definition long_record_of (n : nat) : record :=
  <["id" := VStr "1"]> (<["title" := VStr (zeros n)]> ∅).

Definition long_record : record := long_record_of (N.to_nat Csv.field_limit).

(** [f"{file_index:03d}"]: the decimal text of the index, padded with
    zeros on the left to three characters. *)
Definition format_03d (file_index : nat) : string :=
  let s := pretty file_index in
  zeros (3 - String.length s) +:+ s.

(** The name of the file that [save_to_csv] writes in its directory. *)
Definition batch_file_name (file_index : nat) : string :=
  format_03d file_index +:+ ".csv".

(** The state of the loop of [run_scraper_instance]: the batch being
    collected, the index of the next file, the calls of [save_to_csv]
    made so far (the batch and the file index of each, in order) and how
    often the session was started anew. *)
Record worker : Type := Worker {
  results_batch : list record;
  file_counter : nat;
  saved : list (list record * nat);
  restarts : nat;
}.

(** [save_to_csv(results_batch, output_dir, file_counter);
     results_batch = []; file_counter += 1]. *)
Definition save_batch (w : worker) : worker :=
  Worker [] (S (file_counter w))
    (saved w ++ [(results_batch w, file_counter w)]) (restarts w).

(** One iteration of the loop; [report] is what [get_issue] gives for
    the issue, [None] when it raises. A report is collected when it is
    not the empty dictionary. After an exception the batch is saved when
    it is not empty and the session is started anew, which is taken to
    succeed; the pause at the end of an iteration has no part in what is
    saved and is left out. *)
Definition worker_step (save_interval : nat) (w : worker)
    (report : option record) : worker :=
  let w :=
    match report with
    | Some report =>
        if bool_decide (report = ∅) then w
        else Worker (results_batch w ++ [report]) (file_counter w)
               (saved w) (restarts w)
    | None =>
        let w := match results_batch w with
                 | [] => w
                 | _ => save_batch w
                 end in
        Worker (results_batch w) (file_counter w) (saved w) (S (restarts w))
    end in
  if (save_interval <=? length (results_batch w))%nat then save_batch w else w.

(** The calls of [save_to_csv] of a whole run of the loop, the one after
    the loop included. *)
Definition worker_loop (save_interval : nat) (reports : list (option record))
  : list (list record * nat) :=
  let w := fold_left (worker_step save_interval) reports (Worker [] 1 [] 0) in
  match results_batch w with
  | [] => saved w
  | _ => saved w ++ [(results_batch w, file_counter w)]
  end.

(** The files that the calls leave in the directory of the worker, as
    pairs of a name and a text: a call with an empty batch writes none.
    Writing a file is taken to succeed (the program reports an
    [IOError] and goes on). *)
Definition written_files (calls : list (list record * nat))
  : list (string * string) :=
  omap (fun call => (fun text => (batch_file_name call.2, text))
                      <$> save_to_csv call.1) calls.

Section Worker.

Variable iso_to_minute : string -> option string.
Variable strptime_ymd : string -> option string.
Variable target_keys_desc : list string.

(** [run_scraper_instance(issue_numbers, window_index, base_output_dir,
    base_html_dir, save_interval)]: the files it writes; [session i] is
    what the session shows during the iteration of index [i]. *)
Definition run_scraper_instance (issue_numbers : list Z)
    (session : nat -> page) (save_interval : nat) : list (string * string) :=
  written_files
    (worker_loop save_interval
       (imap (fun i issue_no =>
                get_issue iso_to_minute strptime_ymd target_keys_desc
                  issue_no (session i))
          issue_numbers)).

End Worker.

(** The default of [save_interval]. *)
Definition save_interval_default : nat := 50.

(** The reports that a run collects: those returned that are not the
    empty dictionary. *)
Definition collected (reports : list (option record)) : list record :=
  List.filter (fun r : record => negb (bool_decide (r = ∅))) (omap id reports).

(** The invariant of the loop of the worker for a positive interval: the
    batch is below the interval, the file index is one more than the
    number of calls made, the calls carry the indices from 1 on, and
    every call holds a batch that is neither empty nor above the
    interval. *)
Definition worker_ok (save_interval : nat) (w : worker) : Prop :=
  length (results_batch w) < save_interval
  /\ file_counter w = S (length (saved w))
  /\ map snd (saved w) = seq 1 (length (saved w))
  /\ List.Forall (fun call => call.1 <> [] /\ length call.1 <= save_interval)
       (saved w).

(** The key under which the metadata block stores the value of a
    label. *)
Definition meta_output_key (label : string) : string :=
  if String.eqb label "Reported" then "Metadata_Reported_Date" else label.

(** The keys that hold what a revision page gave, for a prefix. *)
Definition derived_keys (prefix : string) : list string :=
  [prefix +:+ "_components"; prefix +:+ "_revisions"; prefix +:+ "_buildtime"].

(** The keys that the extractor may write after the [id] and the [url]
    of a page that loaded, and with these two the keys that a record may
    hold. *)
Definition written_keys : list string :=
  ["error"; "title"; "hotlists"; "reported_time"; "fixed_time"]
  ++ map meta_output_key target_keys_meta
  ++ desc_vocabulary
  ++ flat_map (fun entry : string * string => derived_keys entry.2)
       url_keys_to_scrape.

Definition record_keys : list string := "id" :: "url" :: written_keys.

(** The record with which the extraction of a loaded page starts. *)
Definition loaded_record (pg : page) : record :=
  <["error" := VBool false]>
  (<["url" := VStr (pg_url pg)]>
  (<["id" := VStr (List.last (Py.split "/" (pg_url pg)) "")]> ∅)).

(** What the revision page behind the value of [info_key] gives, read
    off a record: the result of the scrape of the page behind the text
    under [info_key] when that text starts with [http], and nothing
    otherwise. *)
Definition revision_page_of (pg : page) (r : record) (info_key : string)
  : option revision_data :=
  match r !! info_key with
  | Some (VStr sub_url) =>
      if Py.startswith "http" sub_url
      then scrape_revision_details (pg_sub_page pg sub_url) sub_url
      else None
  | _ => None
  end.

(** The three keys of a prefix hold what a revision page gave, or are
    all absent when there is none. *)
Definition holds_revision_page (r : record) (prefix : string)
    (page_data : option revision_data) : Prop :=
  match page_data with
  | Some rd =>
      r !! (prefix +:+ "_components") = Some (VStrs (rd_components rd))
      /\ r !! (prefix +:+ "_revisions")
         = Some (VList (map VStrs (rd_revisions rd)))
      /\ r !! (prefix +:+ "_buildtime")
         = Some (buildtime_value (rd_buildtime rd))
  | None =>
      r !! (prefix +:+ "_components") = None
      /\ r !! (prefix +:+ "_revisions") = None
      /\ r !! (prefix +:+ "_buildtime") = None
  end.

(** A line of the description that ends the field being read: a line
    that is empty once stripped, or a line without a label that holds
    one of the two sentinel phrases. *)
Definition ends_field (keys : list string) (line : string) : bool :=
  let line_stripped := strip_line line in
  String.eqb line_stripped ""
  || (bool_decide (match_label keys line_stripped = None)
      && (Py.contains "Issue filed automatically" line_stripped
          || Py.contains "See " line_stripped)).

(** A line of the description without a label. *)
Definition unlabelled (keys : list string) (line : string) : bool :=
  bool_decide (match_label keys (strip_line line) = None).


(** A text that the metadata block stores: stripped, not empty and not
    the placeholder. *)
Definition clean_text (t : string) : Prop :=
  t <> "" /\ t <> "--" /\ Py.strip t = t.

(** A value that the metadata block stores for a field: nothing, a
    clean text, or a list of clean texts that is not empty. *)
Definition clean_value (v : value) : Prop :=
  match v with
  | VNone => True
  | VStr t => clean_text t
  | VList l => l <> [] /\ List.Forall (fun x => exists t, x = VStr t /\ clean_text t) l
  | _ => False
  end.




(** * Properties *)

(** ** Revision Range Splitter *)

Lemma split_nonempty sep s : Py.split sep s <> [].
Proof.
  destruct s as [|c s]; simpl; [discriminate|].
  destruct (Ascii.eqb c sep); [discriminate|].
  destruct (Py.split sep s); discriminate.
Qed.

Lemma split_length sep s : length (Py.split sep s) = S (count_char sep s).
Proof.
  induction s as [|c s IH]; simpl; [reflexivity|].
  destruct (Ascii.eqb c sep); simpl.
  - rewrite IH. reflexivity.
  - destruct (Py.split sep s) eqn:E; simpl in *; lia.
Qed.

Lemma split_no_sep sep s : count_char sep s = 0 -> Py.split sep s = [s].
Proof.
  induction s as [|c s IH]; simpl; [reflexivity|].
  destruct (Ascii.eqb c sep); [discriminate|].
  intros H. rewrite IH by exact H. reflexivity.
Qed.

Lemma split_one_sep sep s :
  count_char sep s = 1 -> Py.split sep s = Py.split1 sep s.
Proof.
  induction s as [|c s IH]; simpl; [discriminate|].
  destruct (Ascii.eqb c sep); simpl; intros H.
  - rewrite split_no_sep by lia. reflexivity.
  - rewrite IH by exact H. reflexivity.
Qed.

Lemma split1_length sep s :
  Py.split1 sep s = [s] /\ count_char sep s = 0
  \/ exists a b, Py.split1 sep s = [a; b] /\ 0 < count_char sep s.
Proof.
  induction s as [|c s IH]; simpl; [left; split; reflexivity|].
  destruct (Ascii.eqb c sep); simpl.
  - right. eexists _, _. split; [reflexivity|lia].
  - destruct IH as [[-> ->]|(a & b & -> & ?)].
    + left. split; reflexivity.
    + right. eexists _, _. split; [reflexivity|assumption].
Qed.

Lemma split1_parts sep t :
  count_char sep t = 0 /\ Py.split1 sep t = [t]
  \/ exists a b, Py.split1 sep t = [a; b]
                 /\ t = (a +:+ String sep b) /\ count_char sep a = 0.
Proof.
  induction t as [|c t IH]; simpl; [left; split; reflexivity|].
  destruct (Ascii.eqb_spec c sep) as [->|Hne].
  - right. exists EmptyString, t. repeat split; reflexivity.
  - destruct IH as [[H0 ->]|(a & b & -> & Ht & Ha)].
    + left. split; [exact H0|reflexivity].
    + right. exists (String c a), b. split; [reflexivity|].
      split; [rewrite Ht at 1; reflexivity|].
      simpl. destruct (Ascii.eqb_spec c sep); [contradiction|exact Ha].
Qed.

(** C1, as the code has it: the text is cut in two exactly when it holds
    one colon and both sides are longer than 10 characters; the two parts
    are then the text before the colon and the text after it; in every
    other case the result is the text alone. The part before the first
    colon holds no colon, and with the colon and the part after it makes
    up the text. *)
Theorem split_revision_range_one_colon (t : string) :
  split_revision_range t =
    (if (count_char ":" t =? 1)%nat
        && (10 <? String.length (before_colon t))%nat
        && (10 <? String.length (after_colon t))%nat
     then [before_colon t; after_colon t]
     else [t])
  /\ (count_char ":" t = 0 /\ before_colon t = t
      \/ t = (before_colon t +:+ ":" +:+ after_colon t)
         /\ count_char ":" (before_colon t) = 0).
Proof.
  split.
  - unfold split_revision_range, before_colon, after_colon.
    destruct (Nat.eqb_spec (count_char ":" t) 1) as [H1|H1].
    + rewrite (split_one_sep _ _ H1).
      destruct (split1_length ":" t) as [[_ H0]|(a & b & -> & _)]; [lia|].
      simpl. destruct (_ && _); reflexivity.
    + pose proof (split_length ":" t) as Hl.
      destruct (Py.split ":" t) as [|p0 [|p1 [|p2 ps]]]; simpl in *;
        try reflexivity.
      lia.
  - unfold before_colon, after_colon.
    destruct (split1_parts ":" t) as [[H0 ->]|(a & b & -> & Ht & Ha)].
    + left. split; [exact H0|reflexivity].
    + right. split; [exact Ht|exact Ha].
Qed.

(** C1, as the claim words it, fails on a text with two colons: the
    text holds a colon, the part before the first colon and the part
    after it are both longer than 10 characters, and the result is not a
    pair. *)
Lemma split_revision_range_two_colons :
  let t := "aaaaaaaaaaa:bbbbbbbbbbb:c" in
  ~ (length (split_revision_range t) = 2
     <-> Py.contains ":" t = true
         /\ 10 < String.length (before_colon t)
         /\ 10 < String.length (after_colon t)).
Proof.
  intros t [_ H].
  assert (Hlen : length (split_revision_range t) = 2).
  { apply H. vm_compute. repeat split; lia. }
  vm_compute in Hlen. discriminate.
Qed.

(** ** Navigation to an issue page *)

Lemma load_attempts_spec outcome url todo k :
  load_attempts outcome url (seq k todo) =
    (negb (forallb (fun i => timed_out (outcome i)) (seq k todo)),
     flat_map (attempt_effects outcome url) (seq k (attempts_run outcome k todo))).
Proof.
  revert k. induction todo as [|todo IH]; intros k; [reflexivity|].
  cbn [seq load_attempts forallb attempts_run].
  rewrite IH.
  destruct (outcome k) as [|[]] eqn:E; cbn [timed_out negb andb seq flat_map];
    unfold attempt_effects; rewrite ?E; reflexivity.
Qed.

Lemma attempts_run_le outcome k todo : attempts_run outcome k todo <= todo.
Proof.
  revert k. induction todo as [|todo IH]; intros k; simpl; [lia|].
  destruct (timed_out (outcome k)); [specialize (IH (S k))|]; lia.
Qed.

(** C2, as the code has it: every attempt that times out uses up one of
    the five iterations of the loop, whether the throttle banner is
    displayed or not; the banner only adds a sleep of ten seconds before
    the next attempt. The loop navigates at most five times, it succeeds
    exactly when one of the first five attempts loads, and when all five
    time out the extractor returns the record of a failed load. *)
Theorem load_issue_page_counts_every_timeout
    (iso_to_minute strptime_ymd : string -> option string)
    (target_keys_desc : list string) (issue_no : Z) (pg : page) :
  let outcome := pg_loads pg in
  let url := initial_url issue_no in
  let n := attempts_run outcome 0 max_retries in
  n <= max_retries
  /\ snd (load_issue_page outcome url)
     = flat_map (attempt_effects outcome url) (seq 0 n)
  /\ fst (load_issue_page outcome url)
     = negb (forallb (fun k => timed_out (outcome k)) (seq 0 max_retries))
  /\ (if forallb (fun k => timed_out (outcome k)) (seq 0 max_retries)
      then get_issue iso_to_minute strptime_ymd target_keys_desc issue_no pg
           = Some (failed_load_record issue_no)
      else fst (load_issue_page outcome url) = true).
Proof.
  intros outcome url n.
  assert (E : load_issue_page outcome url =
    (negb (forallb (fun i => timed_out (outcome i)) (seq 0 max_retries)),
     flat_map (attempt_effects outcome url) (seq 0 n)))
    by apply load_attempts_spec.
  split; [apply attempts_run_le|].
  rewrite E. cbn [fst snd].
  split; [reflexivity|]. split; [reflexivity|].
  unfold get_issue. fold outcome url. rewrite E. cbn [fst].
  destruct (forallb _ _); reflexivity.
Qed.

(** C2, as the claim words it, fails: when every attempt times out with
    the throttle banner displayed, the loop sleeps after each of the five
    navigations and gives up, and the extractor returns a record with
    [error] set. *)
Lemma throttling_exhausts_retries :
  let url := initial_url 42 in
  (forall k, pg_loads throttled_page k = WaitTimedOut BannerShown)
  /\ load_issue_page (pg_loads throttled_page) url
     = (false,
        [Navigate url; Sleep 10; Navigate url; Sleep 10; Navigate url;
         Sleep 10; Navigate url; Sleep 10; Navigate url; Sleep 10])
  /\ (get_issue (fun _ => None) (fun _ => None) desc_vocabulary 42
        throttled_page)
     ≫= (fun r => r !! "error") = Some (VBool true).
Proof.
  split; [reflexivity|]. split; [reflexivity|].
  vm_compute. reflexivity.
Qed.

(** ** Partitioner *)

Lemma ceil_div_le_iff n m k : 0 < m -> ceil_div n m <= k <-> n <= k * m.
Proof.
  intros Hm. unfold ceil_div.
  pose proof (Nat.div_mod_eq (n + m - 1) m) as E.
  pose proof (Nat.mod_upper_bound (n + m - 1) m ltac:(lia)) as B.
  split; intros H; nia.
Qed.

Lemma ceil_div_0 m : 0 < m -> ceil_div 0 m = 0.
Proof.
  intros Hm. pose proof (proj2 (ceil_div_le_iff 0 m 0 Hm)). lia.
Qed.

Lemma ceil_div_step d m : 0 < m -> 0 < d -> ceil_div d m = S (ceil_div (d - m) m).
Proof.
  intros Hm Hd. unfold ceil_div.
  destruct (Nat.le_gt_cases m d) as [Hle|Hlt].
  - replace (d + m - 1) with ((d - m + m - 1) + 1 * m) by lia.
    rewrite Nat.div_add by lia. lia.
  - replace (d - m) with 0 by lia. simpl.
    rewrite (Nat.div_small (m - 1) m) by lia.
    pose proof (Nat.div_mod_eq (d + m - 1) m) as E.
    pose proof (Nat.mod_upper_bound (d + m - 1) m ltac:(lia)) as B.
    nia.
Qed.

Lemma chunks_from_spec (ids : list Z) (cs : nat) :
  0 < cs -> forall fuel start, length ids - start <= fuel ->
  let chunks := map (fun i => Py.slice ids i (i + cs))
                  (Py.range_from fuel start (length ids) cs) in
  concat chunks = drop start ids
  /\ length chunks = ceil_div (length ids - start) cs
  /\ (forall i c, chunks !! i = Some c ->
        0 < length c <= cs /\ (S i < length chunks -> length c = cs)).
Proof.
  intros Hcs. induction fuel as [|fuel IH]; intros start Hfuel; cbn zeta.
  - simpl. replace (length ids - start) with 0 by lia.
    rewrite ceil_div_0 by lia. rewrite drop_ge by lia.
    split; [reflexivity|]. split; [reflexivity|]. intros i c H; discriminate.
  - simpl. destruct (Nat.ltb_spec start (length ids)) as [Hlt|Hge].
    + specialize (IH (start + cs) ltac:(lia)). cbn zeta in IH.
      destruct IH as (IHc & IHl & IHf).
      cbn [map concat length]. rewrite IHc, IHl.
      unfold Py.slice at 1. replace (start + cs - start) with cs by lia.
      split; [|split].
      * rewrite <- (take_drop cs (drop start ids)) at 2.
        rewrite drop_drop. reflexivity.
      * rewrite (ceil_div_step (length ids - start) cs) by lia.
        f_equal. f_equal. lia.
      * intros [|i] c Hi; simpl in Hi.
        -- injection Hi as <-. unfold Py.slice.
           replace (start + cs - start) with cs by lia.
           rewrite length_take, length_drop.
           split; [lia|]. intros Hmore.
           assert (0 < ceil_div (length ids - (start + cs)) cs) by lia.
           destruct (Nat.le_gt_cases (length ids) (start + cs)) as [Hs|Hs].
           ++ replace (length ids - (start + cs)) with 0 in H by lia.
              rewrite ceil_div_0 in H by lia. lia.
           ++ lia.
        -- destruct (IHf i c Hi) as [Hb Hfull]. split; [exact Hb|].
           intros Hmore. apply Hfull. lia.
    + simpl. replace (length ids - start) with 0 by lia.
      rewrite ceil_div_0 by lia. rewrite drop_ge by lia.
      split; [reflexivity|]. split; [reflexivity|]. intros i c H; discriminate.
Qed.

(** C3, as the code has it: the work list is cut into consecutive chunks
    of [ceil(n / min(n, w))] IDs, the last one shorter when the size does
    not divide [n] and never empty. Their number is [ceil(n / size)]: at
    most [w], and [n] when [n < w]; it is not [w] whenever [n >= w]. *)
Theorem partition_chunks (w : nat) (ids_to_process : list Z) :
  0 < w -> ids_to_process <> [] ->
  let n := length ids_to_process in
  let chunk_size := ceil_div n (Nat.min n w) in
  exists chunks,
    partition w ids_to_process = Some chunks
    /\ concat chunks = ids_to_process
    /\ length chunks = ceil_div n chunk_size
    /\ length chunks <= w
    /\ (n < w -> length chunks = n)
    /\ (forall i c, chunks !! i = Some c ->
          0 < length c <= chunk_size
          /\ (S i < length chunks -> length c = chunk_size)).
Proof.
  intros Hw Hne n chunk_size.
  assert (Hn : 0 < n) by (subst n; destruct ids_to_process; simpl; [congruence|lia]).
  assert (Hcs : 0 < chunk_size).
  { subst chunk_size. destruct (ceil_div n (Nat.min n w)) eqn:E; [|lia].
    assert (H : ceil_div n (Nat.min n w) <= 0) by lia.
    apply ceil_div_le_iff in H; lia. }
  assert (Hpart : partition w ids_to_process =
    Some (map (fun i => Py.slice ids_to_process i (i + chunk_size))
            (Py.range_step 0 n chunk_size))).
  { unfold partition. destruct ids_to_process as [|x l]; [congruence|].
    fold n. subst chunk_size.
    destruct (Nat.ltb_spec n w) as [Hlt|Hge].
    - replace (Nat.min n w) with n by lia.
      destruct (Nat.eqb_spec n 0); [lia|reflexivity].
    - replace (Nat.min n w) with w by lia.
      destruct (Nat.eqb_spec w 0); [lia|reflexivity]. }
  destruct (chunks_from_spec ids_to_process chunk_size Hcs n 0 ltac:(lia))
    as (Hc & Hl & Hf).
  fold n in Hc, Hl, Hf. rewrite Nat.sub_0_r in Hl. rewrite drop_0 in Hc.
  eexists. split; [exact Hpart|]. unfold Py.range_step.
  split; [exact Hc|]. split; [exact Hl|].
  assert (Hbound : n <= Nat.min n w * chunk_size).
  { subst chunk_size. rewrite Nat.mul_comm.
    apply (ceil_div_le_iff n (Nat.min n w) _ ltac:(lia)). lia. }
  split; [|split].
  - rewrite Hl. apply ceil_div_le_iff; [exact Hcs|]. nia.
  - intros Hlt. rewrite Hl.
    assert (E : chunk_size = 1).
    { assert (Hmin : Nat.min n w = n) by lia.
      subst chunk_size. rewrite Hmin in *.
      assert (H : ceil_div n n <= 1) by (apply ceil_div_le_iff; lia). lia. }
    rewrite E. unfold ceil_div. replace (n + 1 - 1) with n by lia.
    apply Nat.div_1_r.
  - exact Hf.
Qed.

Lemma partition_chunks_witness :
  exists chunks,
    partition 8 [9; 8; 7; 6; 5; 4; 3; 2; 1]%Z = Some chunks
    /\ length chunks = 5.
Proof.
  destruct (partition_chunks 8 [9; 8; 7; 6; 5; 4; 3; 2; 1]%Z)
    as (chunks & Hp & _ & Hl & _); [lia|discriminate|].
  exists chunks. split; [exact Hp|exact Hl].
Defined.

(** C3, as the claim words it, fails: nine IDs and eight workers give
    five chunks, not eight. *)
Lemma partition_nine_ids_eight_workers :
  let ids := [9; 8; 7; 6; 5; 4; 3; 2; 1]%Z in
  num_windows_requested <= length ids
  /\ partition num_windows_requested ids
     = Some [[9; 8]; [7; 6]; [5; 4]; [3; 2]; [1]]%Z
  /\ ~ (exists chunks, partition num_windows_requested ids = Some chunks
                      /\ length chunks = num_windows_requested).
Proof.
  split; [vm_compute; lia|]. split; [reflexivity|].
  intros (chunks & H & Hl). vm_compute in H. injection H as <-.
  vm_compute in Hl. discriminate.
Qed.

(** ** Metadata block *)

Lemma user_values_clean people :
  Forall (fun t => t <> "--" /\ t <> "") (user_values people).
Proof.
  unfold user_values. apply List.Forall_forall. intros t Ht.
  apply List.filter_In in Ht as [_ Ht].
  apply andb_true_iff in Ht as [H1 H2].
  apply negb_true_iff in H1, H2.
  apply String.eqb_neq in H1, H2. split; assumption.
Qed.

(** C7, as the code has it: for the five user-valued fields the
    placeholders and the empty texts are dropped; nothing left is stored
    as [None]; for [Reporter], [Assignee] and [Verifier] one value left
    is stored as a text and several as a list; for [CC] and
    [Collaborators] whatever is left is stored as a list, also when it is
    one value. *)
Theorem user_field_stored (strptime_ymd : string -> option string)
    (issue_infos : record) (label : string) (people : list string)
    (value_text : option string) :
  In label user_data_keys ->
  metadata_field strptime_ymd issue_infos
    (MetaField (Some label) people value_text) !! label
  = Some (match user_values people with
          | [] => VNone
          | [v] => if Py.mem label ["CC"; "Collaborators"]
                   then VList [VStr v] else VStr v
          | values => VList (map VStr values)
          end)
  /\ Forall (fun t => t <> "--" /\ t <> "") (user_values people).
Proof.
  intros Hin. split; [|apply user_values_clean].
  unfold metadata_field; cbn [mf_label mf_people mf_value].
  assert (Hs : Py.strip label = label
               /\ Py.mem label target_keys_meta = true
               /\ Py.mem label user_data_keys = true
               /\ String.eqb label "Reported" = false).
  { simpl in Hin.
    destruct Hin as [<-|[<-|[<-|[<-|[<-|[]]]]]]; vm_compute; auto. }
  destruct Hs as (-> & -> & -> & ->). cbn [negb].
  rewrite lookup_insert_eq. f_equal.
  unfold user_field_value, VStrs.
  destruct (user_values people) as [|v0 [|v1 rest]]; try reflexivity;
    destruct (Py.mem label _); reflexivity.
Qed.

Lemma user_field_stored_witness :
  metadata_field (fun _ => None) ∅
    (MetaField (Some "Reporter") ["--"; " dev@example.org "] None) !! "Reporter"
  = Some (VStr "dev@example.org").
Proof.
  apply (user_field_stored (fun _ => None) ∅ "Reporter"
           ["--"; " dev@example.org "] None).
  simpl. tauto.
Defined.

(** C7, as the claim words it, fails for [CC]: one value left after the
    placeholder is dropped is stored as a list of one text, not as a
    text. *)
Lemma cc_single_value_stored_as_list :
  let people := ["--"; "dev@example.org"] in
  user_values people = ["dev@example.org"]
  /\ metadata_field (fun _ => None) ∅ (MetaField (Some "CC") people None) !! "CC"
     = Some (VList [VStr "dev@example.org"])
  /\ metadata_field (fun _ => None) ∅ (MetaField (Some "CC") people None) !! "CC"
     <> Some (VStr "dev@example.org").
Proof.
  split; [reflexivity|].
  assert (E : metadata_field (fun _ => None) ∅
                (MetaField (Some "CC") ["--"; "dev@example.org"] None) !! "CC"
              = Some (VList [VStr "dev@example.org"])) by (vm_compute; reflexivity).
  split; [exact E|]. cbv zeta. rewrite E. discriminate.
Qed.

(** ** Text lemmas *)

Local Open Scope string_scope.

Lemma append_nil_l (s : string) : "" ++ s = s.
Proof. reflexivity. Qed.

Lemma append_cons (c : ascii) (a b : string) : String c a ++ b = String c (a ++ b).
Proof. reflexivity. Qed.

Ltac push_append := rewrite ?append_cons, ?append_nil_l.

Lemma length_append (a b : string) :
  String.length (a ++ b) = String.length a + String.length b.
Proof.
  induction a as [|c a IH]; push_append; simpl; [reflexivity|].
  rewrite IH. reflexivity.
Qed.

Lemma append_assoc (a b c : string) : (a ++ b) ++ c = a ++ (b ++ c).
Proof.
  induction a as [|x a IH]; push_append; [reflexivity|].
  rewrite IH. reflexivity.
Qed.

(** A text none of whose characters starts [old] is copied by [replace]. *)
Lemma replace_fuel_app (c0 : ascii) (old' new head s : string) (f : nat) :
  Py.all_chars (fun c => negb (Ascii.eqb c0 c)) head = true ->
  Py.replace_fuel (String.length head + f) (String c0 old') new (head ++ s)
  = head ++ Py.replace_fuel f (String c0 old') new s.
Proof.
  induction head as [|h head IH]; push_append; simpl; [reflexivity|].
  intros H. apply andb_true_iff in H as [Hh Hrest].
  apply negb_true_iff in Hh. rewrite Hh. simpl.
  rewrite IH by exact Hrest. reflexivity.
Qed.

Lemma split1_app (sep : ascii) (head s : string) :
  Py.all_chars (fun c => negb (Ascii.eqb c sep)) head = true ->
  Py.split1 sep (head ++ s) =
    match Py.split1 sep s with
    | h :: t => (head ++ h) :: t
    | [] => [head]
    end.
Proof.
  induction head as [|c head IH]; push_append; simpl.
  - intros _. destruct (Py.split1 sep s) eqn:E; [|reflexivity].
    destruct s as [|x s]; simpl in E; [discriminate|].
    destruct (Ascii.eqb x sep); [discriminate|].
    destruct (Py.split1 sep s); discriminate.
  - intros H. apply andb_true_iff in H as [Hc Hrest].
    apply negb_true_iff in Hc. rewrite Hc.
    rewrite IH by exact Hrest.
    destruct (Py.split1 sep s); reflexivity.
Qed.

(** ** Characters and case *)

Lemma eqb_nocase_pred p a b :
  lower_invariant p -> Py.eqb_nocase a b = true -> p a = p b.
Proof.
  intros Hp H. apply Ascii.eqb_eq in H.
  rewrite <- (Hp a), <- (Hp b), H. reflexivity.
Qed.

Ltac by_cases_on_char c :=
  destruct c as [[] [] [] [] [] [] [] []]; vm_compute; reflexivity.

Lemma isspace_lower : lower_invariant Py.isspace.
Proof. intros c. by_cases_on_char c. Qed.

Lemma eqb_colon_lower : lower_invariant (fun c => Ascii.eqb c ":").
Proof. intros c. by_cases_on_char c. Qed.

Lemma eqb_open_lower : lower_invariant (fun c => Ascii.eqb c "(").
Proof. intros c. by_cases_on_char c. Qed.

Lemma eqb_close_lower : lower_invariant (fun c => Ascii.eqb c ")").
Proof. intros c. by_cases_on_char c. Qed.

Lemma eqb_lf_lower : lower_invariant (fun c => Ascii.eqb c "010").
Proof. intros c. by_cases_on_char c. Qed.

Lemma eqb_star_lower : lower_invariant (fun c => Ascii.eqb "*" c).
Proof. intros c. by_cases_on_char c. Qed.

Lemma eqb_nocase_refl c : Py.eqb_nocase c c = true.
Proof. apply Ascii.eqb_refl. Qed.

Lemma eqb_nocase_trans_l k a b :
  Py.eqb_nocase a b = true -> Py.eqb_nocase k a = Py.eqb_nocase k b.
Proof.
  unfold Py.eqb_nocase. intros H. apply Ascii.eqb_eq in H. rewrite H. reflexivity.
Qed.

Lemma same_nocase_refl s : same_nocase s s = true.
Proof. induction s as [|c s IH]; simpl; [reflexivity|]. rewrite eqb_nocase_refl. exact IH. Qed.

Lemma same_nocase_app a a' b b' :
  same_nocase a a' = true -> same_nocase b b' = true ->
  same_nocase (a ++ b) (a' ++ b') = true.
Proof.
  revert a'. induction a as [|x a IH]; intros [|y a']; push_append; simpl;
    try discriminate.
  - intros _ H. exact H.
  - intros H Hb. apply andb_true_iff in H as [Hx Ha].
    rewrite Hx. simpl. apply IH; assumption.
Qed.

Lemma same_nocase_all_chars p a b :
  lower_invariant p -> same_nocase a b = true ->
  Py.all_chars p a = Py.all_chars p b.
Proof.
  intros Hp. revert b. induction a as [|x a IH]; intros [|y b]; simpl;
    try discriminate; [reflexivity|].
  intros H. apply andb_true_iff in H as [Hx Ha].
  rewrite (eqb_nocase_pred p x y Hp Hx), (IH b Ha). reflexivity.
Qed.

(** ** The pattern of a label ignores case *)

Lemma lstrip_nocase a b :
  same_nocase a b = true -> same_nocase (Py.lstrip a) (Py.lstrip b) = true.
Proof.
  revert b. induction a as [|x a IH]; intros [|y b]; simpl; try discriminate;
    [reflexivity|].
  intros H. pose proof H as H'. apply andb_true_iff in H as [Hx Ha].
  rewrite (eqb_nocase_pred _ x y isspace_lower Hx).
  destruct (Py.isspace y); [apply IH; exact Ha|].
  simpl. exact H'.
Qed.

Lemma colon_nocase a b :
  same_nocase a b = true -> Label.colon a = Label.colon b.
Proof.
  intros H. apply lstrip_nocase in H. unfold Label.colon.
  destruct (Py.lstrip a) as [|x a'], (Py.lstrip b) as [|y b']; simpl in H;
    try discriminate; [reflexivity|].
  apply andb_true_iff in H as [Hx _].
  exact (eqb_nocase_pred _ x y eqb_colon_lower Hx).
Qed.

Lemma annotation_end_nocase a b :
  same_nocase a b = true -> Label.annotation_end a = Label.annotation_end b.
Proof.
  revert b. induction a as [|x a IH]; intros [|y b]; simpl; try discriminate;
    [reflexivity|].
  intros H. apply andb_true_iff in H as [Hx Ha].
  rewrite (eqb_nocase_pred _ x y eqb_close_lower Hx).
  rewrite (eqb_nocase_pred _ x y eqb_lf_lower Hx).
  rewrite (colon_nocase a b Ha), (IH b Ha). reflexivity.
Qed.

Lemma suffix_nocase a b :
  same_nocase a b = true -> Label.suffix a = Label.suffix b.
Proof.
  intros H. unfold Label.suffix. rewrite (colon_nocase a b H).
  apply lstrip_nocase in H.
  destruct (Py.lstrip a) as [|x a'], (Py.lstrip b) as [|y b']; simpl in H;
    try discriminate; [reflexivity|].
  apply andb_true_iff in H as [Hx Ha].
  rewrite (eqb_nocase_pred _ x y eqb_open_lower Hx).
  rewrite (annotation_end_nocase a' b' Ha). reflexivity.
Qed.

Lemma matches_nocase key a b :
  same_nocase a b = true -> Label.matches key a = Label.matches key b.
Proof.
  unfold Label.matches. revert a b.
  induction key as [|k key IH]; intros a b H; simpl.
  - apply suffix_nocase. exact H.
  - destruct a as [|x a], b as [|y b]; simpl in H; try discriminate;
      [reflexivity|].
    apply andb_true_iff in H as [Hx Ha].
    rewrite (eqb_nocase_trans_l k x y Hx).
    destruct (Py.eqb_nocase k y); [apply IH; exact Ha|reflexivity].
Qed.

Lemma literal_self key rest : Label.literal key (key ++ rest) = Some rest.
Proof.
  induction key as [|k key IH]; push_append; simpl; [reflexivity|].
  rewrite eqb_nocase_refl. exact IH.
Qed.

(** ** The first match of a list without a second match *)

Lemma find_unique {A} (p : A -> bool) (l : list A) (x : A) :
  In x l -> p x = true -> (forall y, In y l -> p y = true -> y = x) ->
  List.find p l = Some x.
Proof.
  induction l as [|a l IH]; simpl; [tauto|].
  intros Hin Hp Hu. destruct (p a) eqn:E.
  - f_equal. apply Hu; [left; reflexivity|exact E].
  - destruct Hin as [->|Hin]; [congruence|].
    apply IH; [exact Hin|exact Hp|]. intros y Hy. apply Hu. right. exact Hy.
Qed.

Lemma find_none {A} (p : A -> bool) (l : list A) :
  (forall y, In y l -> p y = false) -> List.find p l = None.
Proof.
  induction l as [|a l IH]; simpl; [reflexivity|].
  intros H. rewrite (H a) by (left; reflexivity).
  apply IH. intros y Hy. apply H. right. exact Hy.
Qed.

Lemma all_chars_app p a b :
  Py.all_chars p (a ++ b) = Py.all_chars p a && Py.all_chars p b.
Proof.
  induction a as [|c a IH]; push_append; simpl; [reflexivity|].
  rewrite IH. apply andb_assoc.
Qed.

(** ** Field Label Matcher *)

Lemma vocabulary_no_star L :
  In L desc_vocabulary ->
  Py.all_chars (fun c => negb (Ascii.eqb "*" c)) L = true.
Proof.
  intros H.
  assert (E : forallb (Py.all_chars (fun c => negb (Ascii.eqb "*" c)))
                desc_vocabulary = true) by (vm_compute; reflexivity).
  rewrite forallb_forall in E. apply E. exact H.
Qed.

Lemma vocabulary_no_colon L :
  In L desc_vocabulary ->
  Py.all_chars (fun c => negb (Ascii.eqb c ":")) L = true.
Proof.
  intros H.
  assert (E : forallb (Py.all_chars (fun c => negb (Ascii.eqb c ":")))
                desc_vocabulary = true) by (vm_compute; reflexivity).
  rewrite forallb_forall in E. apply E. exact H.
Qed.

Lemma vocabulary_annotated L K :
  In L desc_vocabulary -> In K desc_vocabulary ->
  Label.matches K (L ++ annotated_tail) = String.eqb K L.
Proof.
  intros HL HK.
  assert (E : forallb (fun L => forallb (fun K =>
                Bool.eqb (Label.matches K (L ++ annotated_tail)) (String.eqb K L))
                desc_vocabulary) desc_vocabulary = true) by (vm_compute; reflexivity).
  rewrite forallb_forall in E. specialize (E L HL).
  rewrite forallb_forall in E. specialize (E K HK).
  apply Bool.eqb_prop in E. exact E.
Qed.

Lemma eqb_colon_lower' : lower_invariant (fun c => negb (Ascii.eqb c ":")).
Proof. intros c. by_cases_on_char c. Qed.

Lemma eqb_star_lower' : lower_invariant (fun c => negb (Ascii.eqb "*" c)).
Proof. intros c. by_cases_on_char c. Qed.

Section Matcher.

Variable keys : list string.
Hypothesis keys_order : Permutation keys desc_vocabulary.

Lemma in_keys K : In K keys <-> In K desc_vocabulary.
Proof.
  split; intros H.
  - apply (Permutation_in _ keys_order H).
  - apply (Permutation_in _ (Permutation_sym keys_order) H).
Qed.

Lemma find_annotated L head :
  In L desc_vocabulary -> same_nocase head L = true ->
  List.find (fun key => Label.matches key (head ++ annotated_tail)) keys = Some L.
Proof.
  intros HL Hhead.
  assert (Hsame : forall K, Label.matches K (head ++ annotated_tail)
                            = Label.matches K (L ++ annotated_tail)).
  { intros K. apply matches_nocase, same_nocase_app;
      [exact Hhead|apply same_nocase_refl]. }
  apply find_unique.
  - apply in_keys. exact HL.
  - rewrite Hsame, vocabulary_annotated by exact HL. apply String.eqb_refl.
  - intros K HK HmK. apply in_keys in HK.
    rewrite Hsame, vocabulary_annotated in HmK by assumption.
    apply String.eqb_eq. exact HmK.
Qed.

Lemma label_value_annotated L prefix head tail before :
  Py.all_chars (fun c => negb (Ascii.eqb c ":")) prefix = true ->
  Py.all_chars (fun c => negb (Ascii.eqb c ":")) head = true ->
  Py.split1 ":" tail = [before; " value"] ->
  label_value L (prefix ++ head ++ tail) = "value".
Proof.
  intros Hp Hh Ht. unfold label_value.
  rewrite (split1_app ":" prefix) by exact Hp.
  rewrite (split1_app ":" head) by exact Hh.
  rewrite Ht. cbn [nth].
  change (Py.strip " value") with "value".
  change (Py.contains "http" "value") with false.
  rewrite andb_false_r. reflexivity.
Qed.

Lemma clean_plain head :
  Py.all_chars (fun c => negb (Ascii.eqb "*" c)) head = true ->
  Py.replace "**" "" (head ++ annotated_tail) = head ++ annotated_tail.
Proof.
  intros H. unfold Py.replace. rewrite length_append.
  rewrite replace_fuel_app by exact H. reflexivity.
Qed.

Lemma replace_fuel_hit f old new c s :
  Py.startswith old (String c s) = true ->
  Py.replace_fuel (S f) old new (String c s)
  = new ++ Py.replace_fuel f old new (Py.drop_prefix old (String c s)).
Proof.
  intros H. change (Py.replace_fuel (S f) old new (String c s)) with
    (if Py.startswith old (String c s)
     then new ++ Py.replace_fuel f old new (Py.drop_prefix old (String c s))
     else String c (Py.replace_fuel f old new s)).
  rewrite H. reflexivity.
Qed.

Lemma clean_starred head :
  Py.all_chars (fun c => negb (Ascii.eqb "*" c)) head = true ->
  Py.replace "**" "" ("**" ++ head ++ "** (1.2 Kb): value")
  = head ++ annotated_tail.
Proof.
  intros H. unfold Py.replace. push_append.
  cbn [String.length]. rewrite length_append.
  rewrite replace_fuel_hit by reflexivity.
  cbn [Py.drop_prefix]. push_append. rewrite <- Nat.add_succ_r.
  rewrite replace_fuel_app by exact H. reflexivity.
Qed.

Lemma matches_other_head L x rest :
  Py.isspace x = false -> x <> "("%char -> x <> ":"%char ->
  Label.matches L (L ++ String x rest) = false.
Proof.
  intros Hs Ho Hc. unfold Label.matches. rewrite literal_self.
  unfold Label.suffix, Label.colon. cbn [Py.lstrip]. rewrite Hs.
  apply Ascii.eqb_neq in Ho, Hc. rewrite Ho, Hc. reflexivity.
Qed.

Lemma rstrip_app a b :
  Py.rstrip b <> "" -> Py.rstrip (a ++ b) = a ++ Py.rstrip b.
Proof.
  intros Hb. induction a as [|c a IH]; push_append; [reflexivity|].
  cbn [Py.rstrip]. rewrite IH.
  destruct (a ++ Py.rstrip b) eqn:E; [|reflexivity].
  destruct a; [|discriminate]. rewrite append_nil_l in E. contradiction.
Qed.

Lemma strip_line_bold head :
  Py.all_chars (fun c => negb (Ascii.eqb "<" c)) head = true ->
  strip_line ("<b>" ++ head ++ "</b> (1.2 Kb): value")
  = head ++ " (1.2 Kb): value".
Proof.
  intros H. unfold strip_line, Py.strip.
  change (Py.lstrip ("<b>" ++ head ++ "</b> (1.2 Kb): value"))
    with ("<b>" ++ head ++ "</b> (1.2 Kb): value").
  rewrite <- !append_assoc, rstrip_app by (vm_compute; discriminate).
  change (Py.rstrip "</b> (1.2 Kb): value") with "</b> (1.2 Kb): value".
  rewrite append_assoc.
  assert (E1 : Py.replace "<b>" "" ("<b>" ++ head ++ "</b> (1.2 Kb): value")
               = head ++ "</b> (1.2 Kb): value").
  { unfold Py.replace. push_append. cbn [String.length].
    rewrite length_append, replace_fuel_hit by reflexivity.
    cbn [Py.drop_prefix]. push_append. rewrite <- !Nat.add_succ_r.
    rewrite replace_fuel_app by exact H. reflexivity. }
  rewrite E1. unfold Py.replace. rewrite length_append.
  rewrite replace_fuel_app by exact H. reflexivity.
Qed.

Lemma eqb_angle_lower' : lower_invariant (fun c => negb (Ascii.eqb "<" c)).
Proof. intros c. by_cases_on_char c. Qed.

Lemma vocabulary_no_angle L :
  In L desc_vocabulary ->
  Py.all_chars (fun c => negb (Ascii.eqb "<" c)) L = true.
Proof.
  intros H.
  assert (E : forallb (Py.all_chars (fun c => negb (Ascii.eqb "<" c)))
                desc_vocabulary = true) by (vm_compute; reflexivity).
  rewrite forallb_forall in E. apply E. exact H.
Qed.

Lemma clean_bold_label head :
  Py.all_chars (fun c => negb (Ascii.eqb "*" c)) head = true ->
  Py.replace "**" "" ("**" ++ head ++ " (1.2 Kb):** value")
  = head ++ annotated_tail.
Proof.
  intros H. unfold Py.replace. push_append.
  cbn [String.length]. rewrite length_append.
  rewrite replace_fuel_hit by reflexivity.
  cbn [Py.drop_prefix]. push_append. rewrite <- Nat.add_succ_r.
  rewrite replace_fuel_app by exact H. reflexivity.
Qed.

Lemma label_value_bold_label L head :
  Py.all_chars (fun c => negb (Ascii.eqb c ":")) head = true ->
  label_value L ("**" ++ head ++ " (1.2 Kb):** value") = "** value".
Proof.
  intros Hh. unfold label_value.
  rewrite (split1_app ":" "**") by reflexivity.
  rewrite (split1_app ":" head) by exact Hh.
  change (Py.split1 ":" " (1.2 Kb):** value")
    with [" (1.2 Kb)"; "** value"].
  cbn [nth].
  change (Py.strip "** value") with "** value".
  change (Py.contains "http" "** value") with false.
  rewrite andb_false_r. reflexivity.
Qed.

(** C5, as the code has it: under every order of the vocabulary, a line
    that starts with a label in any mix of cases, followed by a
    parenthesised annotation and a colon, is matched to that label as
    the vocabulary spells it, with the text after the colon, stripped,
    as its value; the same holds when the label is wrapped in emphasis
    marks that close before the colon. The marks [**] are removed for
    the match only: the value is cut from the line that still holds
    them, so that marks that close after the colon stay at the head of
    the value. A line in which the label is followed by another
    character than white space, an opening parenthesis, a colon or an
    emphasis mark is not matched to that label. *)
Theorem field_label_matcher (L head : string) :
  In L desc_vocabulary -> same_nocase head L = true ->
  match_label keys (head ++ " (1.2 Kb): value") = Some (L, "value")
  /\ match_label keys ("**" ++ head ++ "** (1.2 Kb): value") = Some (L, "value")
  /\ match_label keys (strip_line ("<b>" ++ head ++ "</b> (1.2 Kb): value"))
     = Some (L, "value")
  /\ match_label keys ("**" ++ head ++ " (1.2 Kb):** value")
     = Some (L, "** value")
  /\ (forall (x : ascii) (rest v : string),
        Py.isspace x = false -> x <> "("%char -> x <> ":"%char -> x <> "*"%char ->
        match_label keys (L ++ String x rest) <> Some (L, v)).
Proof.
  intros HL Hhead.
  assert (Hstar : Py.all_chars (fun c => negb (Ascii.eqb "*" c)) head = true).
  { rewrite (same_nocase_all_chars _ head L eqb_star_lower' Hhead).
    apply vocabulary_no_star, HL. }
  assert (Hcolon : Py.all_chars (fun c => negb (Ascii.eqb c ":")) head = true).
  { rewrite (same_nocase_all_chars _ head L eqb_colon_lower' Hhead).
    apply vocabulary_no_colon, HL. }
  assert (Hplain : match_label keys (head ++ " (1.2 Kb): value")
                   = Some (L, "value")).
  { unfold match_label. rewrite (clean_plain head Hstar).
    rewrite (find_annotated L head HL Hhead).
    pose proof (label_value_annotated L "" head " (1.2 Kb): value" " (1.2 Kb)"
                  eq_refl Hcolon eq_refl) as Hv.
    rewrite append_nil_l in Hv. rewrite Hv. reflexivity. }
  split; [exact Hplain|]. split; [|split; [|split]].
  - unfold match_label. rewrite (clean_starred head Hstar).
    rewrite (find_annotated L head HL Hhead).
    rewrite (label_value_annotated L "**" head "** (1.2 Kb): value"
               "** (1.2 Kb)" eq_refl Hcolon eq_refl).
    reflexivity.
  - rewrite strip_line_bold; [exact Hplain|].
    rewrite (same_nocase_all_chars _ head L eqb_angle_lower' Hhead).
    apply vocabulary_no_angle, HL.
  - unfold match_label. rewrite (clean_bold_label head Hstar).
    rewrite (find_annotated L head HL Hhead).
    rewrite (label_value_bold_label L head Hcolon). reflexivity.
  - intros x rest v Hs Ho Hc Ht Hm. unfold match_label in Hm.
    destruct (List.find _ keys) as [K|] eqn:Hfind; [|discriminate].
    injection Hm as -> _. apply List.find_some in Hfind as [_ Hfind].
    assert (Hclean : exists rest',
      Py.replace "**" "" (L ++ String x rest) = L ++ String x rest').
    { exists (Py.replace_fuel (String.length rest) "**" "" rest).
      unfold Py.replace.
      change (L ++ String x rest) with (L ++ (String x "" ++ rest)).
      rewrite <- (append_assoc L (String x "") rest).
      rewrite length_append, replace_fuel_app.
      - rewrite append_assoc. reflexivity.
      - rewrite all_chars_app, (vocabulary_no_star L HL).
        cbn [Py.all_chars andb].
        assert (E : Ascii.eqb "*" x = false)
          by (apply Ascii.eqb_neq; congruence).
        rewrite E. reflexivity. }
    destruct Hclean as (rest' & Hclean). rewrite Hclean in Hfind.
    rewrite (matches_other_head L x rest' Hs Ho Hc) in Hfind. discriminate.
Qed.

(** ** Continuation lines *)

Lemma match_crash_type :
  match_label keys "Crash Type: Heap-overflow"
  = Some ("Crash Type", "Heap-overflow").
Proof.
  unfold match_label.
  change (Py.replace "**" "" "Crash Type: Heap-overflow")
    with "Crash Type: Heap-overflow".
  assert (E : forallb (fun K =>
                Bool.eqb (Label.matches K "Crash Type: Heap-overflow")
                  (String.eqb K "Crash Type")) desc_vocabulary = true)
    by (vm_compute; reflexivity).
  rewrite forallb_forall in E.
  rewrite (find_unique _ keys "Crash Type").
  - reflexivity.
  - apply in_keys. vm_compute. tauto.
  - reflexivity.
  - intros K HK HmK. apply in_keys in HK. specialize (E K HK).
    apply Bool.eqb_prop in E. rewrite HmK in E.
    apply String.eqb_eq. symmetry. exact E.
Qed.

Lemma match_extra_detail : match_label keys "extra detail" = None.
Proof.
  unfold match_label.
  change (Py.replace "**" "" "extra detail") with "extra detail".
  assert (E : forallb (fun K => negb (Label.matches K "extra detail"))
                desc_vocabulary = true) by (vm_compute; reflexivity).
  rewrite forallb_forall in E.
  rewrite find_none; [reflexivity|].
  intros K HK. apply in_keys in HK. specialize (E K HK).
  apply negb_true_iff. exact E.
Qed.

Lemma description_line_keeps_list (st : record * option string)
    (line key : string) (l : list value) :
  st.1 !! key = Some (VList l) ->
  (forall v, match_label keys (strip_line line) <> Some (key, v)) ->
  exists l', (description_line keys st line).1 !! key = Some (VList (l ++ l')).
Proof.
  destruct st as [infos cur]. cbn [fst]. intros Hl Hm.
  unfold description_line.
  destruct (String.eqb (strip_line line) "").
  { exists []. rewrite app_nil_r. exact Hl. }
  destruct (match_label keys (strip_line line)) as [[k v]|].
  { exists []. rewrite app_nil_r. cbn [fst].
    rewrite lookup_insert_ne; [exact Hl|]. intros ->. exact (Hm v eq_refl). }
  destruct cur as [k|]; [|exists []; rewrite app_nil_r; exact Hl].
  destruct (_ || _); [exists []; rewrite app_nil_r; exact Hl|].
  destruct (infos !! k) as [[| | |e|l0]|] eqn:Hk;
    try (exists []; rewrite app_nil_r; exact Hl).
  - assert (k <> key) by (intros ->; congruence).
    exists []. rewrite app_nil_r.
    destruct (String.eqb e ""); cbn [fst];
      (rewrite lookup_insert_ne; [exact Hl|assumption]).
  - cbn [fst]. destruct (decide (k = key)) as [->|Hne].
    + rewrite lookup_insert_eq. rewrite Hl in Hk. injection Hk as ->.
      eexists. reflexivity.
    + exists []. rewrite app_nil_r, lookup_insert_ne; [exact Hl|exact Hne].
Qed.

(** C4, as the code has it: under every order of the vocabulary, the two
    lines give the list of the two texts and the first line alone gives
    the text; a list stored under a key is kept, and at most extended at
    its end, by every line that is not matched to the label of that very
    key. (A line matched to that label stores its own text in place of
    the list.) *)
Theorem continuation_accumulation (issue_infos : record) :
  (description_lines keys issue_infos
     ["Crash Type: Heap-overflow"; "extra detail"]).1 !! "Crash Type"
  = Some (VList [VStr "Heap-overflow"; VStr "extra detail"])
  /\ (description_lines keys issue_infos ["Crash Type: Heap-overflow"]).1
       !! "Crash Type"
     = Some (VStr "Heap-overflow")
  /\ (forall (st : record * option string) (line key : string) (l : list value),
        st.1 !! key = Some (VList l) ->
        (forall v, match_label keys (strip_line line) <> Some (key, v)) ->
        exists l',
          (description_line keys st line).1 !! key = Some (VList (l ++ l'))).
Proof.
  assert (E1 : description_line keys (issue_infos, None) "Crash Type: Heap-overflow"
               = (<["Crash Type" := VStr "Heap-overflow"]> issue_infos,
                  Some "Crash Type")).
  { unfold description_line.
    change (strip_line "Crash Type: Heap-overflow") with "Crash Type: Heap-overflow".
    rewrite match_crash_type. reflexivity. }
  split; [|split].
  - unfold description_lines. cbn [fold_left]. rewrite E1.
    unfold description_line.
    change (strip_line "extra detail") with "extra detail".
    rewrite match_extra_detail, lookup_insert_eq.
    change (String.eqb "extra detail" "") with false.
    change (String.eqb "Heap-overflow" "") with false.
    change (Py.contains "Issue filed automatically" "extra detail") with false.
    change (Py.contains "See " "extra detail") with false.
    cbn [orb fst]. rewrite lookup_insert_eq. reflexivity.
  - unfold description_lines. cbn [fold_left]. rewrite E1. cbn [fst].
    apply lookup_insert_eq.
  - intros st line key l. apply description_line_keeps_list.
Qed.

End Matcher.

Lemma continuation_accumulation_witness :
  (description_lines desc_vocabulary ∅
     ["Crash Type: Heap-overflow"; "extra detail"]).1 !! "Crash Type"
  = Some (VList [VStr "Heap-overflow"; VStr "extra detail"]).
Proof.
  exact (proj1 (continuation_accumulation desc_vocabulary (Permutation_refl _) ∅)).
Defined.

(** C4, as the claim words it, fails: a label that comes back after its
    value has grown into a list puts a text in place of the list. *)
Lemma repeated_label_replaces_list :
  let lines := ["Crash Type: A"; "extra"; "Crash Type: B"] in
  (description_lines desc_vocabulary ∅ (take 2 lines)).1 !! "Crash Type"
  = Some (VList [VStr "A"; VStr "extra"])
  /\ (description_lines desc_vocabulary ∅ lines).1 !! "Crash Type"
     = Some (VStr "B").
Proof. split; vm_compute; reflexivity. Qed.

(** C5, as the claim words it, fails for a line whose emphasis marks
    close after the colon: without its marks the line is
    [Crash Type (1.2 Kb): value], it is matched to [Crash Type], and the
    value stored is [** value], not [value]. *)
Lemma bold_label_keeps_marks :
  let line := "**Crash Type (1.2 Kb):** value" in
  Py.replace "**" "" line = "Crash Type (1.2 Kb): value"
  /\ strip_line line = line
  /\ match_label desc_vocabulary line = Some ("Crash Type", "** value")
  /\ match_label desc_vocabulary line <> Some ("Crash Type", "value").
Proof.
  intros line.
  assert (H : match_label desc_vocabulary line
              = Some ("Crash Type", "** value")) by (vm_compute; reflexivity).
  split; [vm_compute; reflexivity|]. split; [vm_compute; reflexivity|].
  split; [exact H|]. rewrite H. intros E. discriminate E.
Qed.

Lemma field_label_matcher_witness :
  match_label desc_vocabulary "MINIMIZED testcase (1.2 Kb): value"
  = Some ("Minimized Testcase", "value").
Proof.
  apply (field_label_matcher desc_vocabulary (Permutation_refl _)
           "Minimized Testcase" "MINIMIZED testcase").
  - simpl. tauto.
  - reflexivity.
Defined.

(** ** Batch Persister: absent keys *)

Lemma get_insert_none (item : record) (key k : string) :
  item !! key = None -> get (<[key := VNone]> item) k = get item k.
Proof.
  intros H. unfold get. destruct (decide (key = k)) as [<-|Hne].
  - rewrite lookup_insert_eq, H. reflexivity.
  - rewrite lookup_insert_ne by exact Hne. reflexivity.
Qed.

Lemma all_keys_app (l1 l2 : list record) :
  all_keys (l1 ++ l2) = all_keys l1 ∪ all_keys l2.
Proof.
  unfold all_keys. rewrite fmap_app, union_list_app_L. reflexivity.
Qed.

Lemma all_keys_cons (item : record) (l : list record) :
  all_keys (item :: l) = dom item ∪ all_keys l.
Proof. reflexivity. Qed.

Lemma save_to_csv_nonempty (data_list : list record) :
  data_list <> [] ->
  save_to_csv data_list
  = Some (Csv.writerows
            (csv_header data_list
               :: map (row_dict (csv_header data_list)) data_list)).
Proof. destruct data_list; [congruence|reflexivity]. Qed.

(** ** The order of the vocabulary does not matter *)

Lemma literal_split key line rest :
  Label.literal key line = Some rest ->
  exists p, line = p ++ rest /\ same_nocase p key = true.
Proof.
  revert line. induction key as [|k key IH]; intros line; simpl.
  - intros [= <-]. exists "". split; reflexivity.
  - destruct line as [|c line]; [discriminate|].
    destruct (Py.eqb_nocase k c) eqn:E; [|discriminate].
    intros H. destruct (IH line H) as (p & -> & Hp).
    exists (String c p). split; [reflexivity|].
    simpl. unfold Py.eqb_nocase in *. rewrite Ascii.eqb_sym, E. exact Hp.
Qed.

Lemma vocabulary_no_second_match K1 K2 rest :
  In K1 desc_vocabulary -> In K2 desc_vocabulary -> K1 <> K2 ->
  String.length K1 <= String.length K2 ->
  Label.matches K1 (K2 ++ rest) = false.
Proof.
  intros H1 H2. unfold desc_vocabulary in H1, H2. simpl in H1, H2.
  repeat (destruct H1 as [<-|H1]); try contradiction;
    repeat (destruct H2 as [<-|H2]); try contradiction;
    intros Hne Hlen;
    first [ reflexivity | contradiction | (exfalso; simpl in Hlen; lia) ].
Qed.

Lemma vocabulary_one_match K1 K2 line :
  In K1 desc_vocabulary -> In K2 desc_vocabulary ->
  Label.matches K1 line = true -> Label.matches K2 line = true -> K1 = K2.
Proof.
  assert (W : forall K1 K2, In K1 desc_vocabulary -> In K2 desc_vocabulary ->
                String.length K1 <= String.length K2 ->
                Label.matches K1 line = true -> Label.matches K2 line = true ->
                K1 = K2).
  { clear. intros K1 K2 H1 H2 Hlen M1 M2.
    destruct (decide (K1 = K2)) as [|Hne]; [assumption|exfalso].
    unfold Label.matches in M2.
    destruct (Label.literal K2 line) as [rest|] eqn:E; [|discriminate].
    destruct (literal_split _ _ _ E) as (p & -> & Hp).
    rewrite (matches_nocase K1 (p ++ rest) (K2 ++ rest)) in M1
      by (apply same_nocase_app; [exact Hp|apply same_nocase_refl]).
    rewrite (vocabulary_no_second_match K1 K2 rest H1 H2 Hne Hlen) in M1.
    discriminate. }
  intros H1 H2 M1 M2.
  destruct (Nat.le_ge_cases (String.length K1) (String.length K2)).
  - apply W; assumption.
  - symmetry. apply W; assumption.
Qed.

Lemma find_permutation (p : string -> bool) (l1 l2 : list string) :
  Permutation l1 l2 ->
  (forall x y, In x l2 -> In y l2 -> p x = true -> p y = true -> x = y) ->
  List.find p l1 = List.find p l2.
Proof.
  intros Hperm Hone.
  destruct (List.find p l2) as [x|] eqn:E2.
  - apply List.find_some in E2 as [Hin Hp].
    apply find_unique; [|exact Hp|].
    + apply (Permutation_in _ (Permutation_sym Hperm) Hin).
    + intros y Hy Hpy. apply Hone; [|exact Hin|exact Hpy|exact Hp].
      apply (Permutation_in _ Hperm Hy).
  - apply find_none. intros y Hy.
    destruct (p y) eqn:Hpy; [|reflexivity].
    pose proof (List.find_none _ _ E2 y (Permutation_in _ Hperm Hy)). congruence.
Qed.

Section Order.

Variable keys : list string.
Hypothesis keys_order : Permutation keys desc_vocabulary.

Lemma match_label_order line :
  match_label keys line = match_label desc_vocabulary line.
Proof.
  unfold match_label.
  rewrite (find_permutation _ keys desc_vocabulary keys_order); [reflexivity|].
  intros x y Hx Hy. apply vocabulary_one_match; assumption.
Qed.

Lemma description_line_order st line :
  description_line keys st line = description_line desc_vocabulary st line.
Proof.
  unfold description_line. rewrite match_label_order. reflexivity.
Qed.

Lemma parse_description_order (r : record) text :
  parse_description keys r text = parse_description desc_vocabulary r text.
Proof.
  unfold parse_description, description_lines. f_equal.
  generalize (r, @None string). induction (Py.split "010" text) as [|l ls IH];
    intros st; [reflexivity|].
  cbn [fold_left]. rewrite description_line_order. apply IH.
Qed.

Lemma get_issue_order iso ymd issue_no pg :
  get_issue iso ymd keys issue_no pg
  = get_issue iso ymd desc_vocabulary issue_no pg.
Proof.
  unfold get_issue, extract_description.
  destruct (negb _); [reflexivity|].
  destruct (extract_reported_time _ _ _) as [r1|]; [|reflexivity].
  cbn [mbind option_bind].
  destruct (extract_fixed _ _ _) as [r2|]; [|reflexivity].
  cbn [mbind option_bind].
  destruct (pg_description pg); [|reflexivity].
  rewrite parse_description_order. reflexivity.
Qed.

End Order.


(** ** The error flag of a record *)

Section ErrorFlag.

Variable iso_to_minute : string -> option string.
Variable strptime_ymd : string -> option string.
Variable keys : list string.
Hypothesis keys_order : Permutation keys desc_vocabulary.

Lemma vocabulary_not_error K : In K desc_vocabulary -> K <> "error".
Proof.
  intros H ->. revert H. vm_compute. intuition discriminate.
Qed.

Lemma store_time_error key attr (r r' : record) :
  key <> "error" ->
  store_time iso_to_minute key attr r = Some r' ->
  r' !! "error" = r !! "error".
Proof.
  intros Hk. unfold store_time.
  destruct attr as [[|c s]|]; try (intros [= <-]; reflexivity).
  destruct (format_utc _ _); [|discriminate].
  intros [= <-]. apply lookup_insert_ne. exact Hk.
Qed.

Lemma extract_hotlists_error pg (r : record) :
  extract_hotlists pg r !! "error" = r !! "error".
Proof.
  unfold extract_hotlists. destruct (pg_hotlists pg); [|reflexivity].
  destruct (List.filter _ _); [reflexivity|].
  apply lookup_insert_ne. discriminate.
Qed.

Lemma metadata_field_error (r : record) field :
  metadata_field strptime_ymd r field !! "error" = r !! "error".
Proof.
  unfold metadata_field. destruct (mf_label field) as [text|]; [|reflexivity].
  destruct (Py.mem (Py.strip text) target_keys_meta) eqn:Hmem; [|reflexivity].
  cbn [negb].
  assert (Hkey : (if String.eqb (Py.strip text) "Reported"
                  then "Metadata_Reported_Date" else Py.strip text) <> "error").
  { destruct (String.eqb _ "Reported"); [discriminate|].
    intros E. rewrite E in Hmem. vm_compute in Hmem. discriminate. }
  destruct (Py.mem _ user_data_keys).
  - apply lookup_insert_ne. exact Hkey.
  - destruct (mf_value field); [|reflexivity].
    apply lookup_insert_ne. exact Hkey.
Qed.

Lemma extract_metadata_error pg (r : record) :
  extract_metadata strptime_ymd pg r !! "error" = r !! "error".
Proof.
  unfold extract_metadata. destruct (pg_metadata pg) as [fields|]; [|reflexivity].
  revert r. induction fields as [|f fields IH]; intros r; [reflexivity|].
  cbn [fold_left]. rewrite IH. apply metadata_field_error.
Qed.

Lemma scan_events_error events (r r' : record) :
  scan_events iso_to_minute events r = Some r' ->
  r' !! "error" = r !! "error".
Proof.
  induction events as [|ev events IH]; cbn [scan_events].
  - intros [= <-]. reflexivity.
  - assert (Hfound : forall infos : record,
      infos !! "error" = r !! "error" ->
      match ev_time ev with
      | Some attr => store_time iso_to_minute "fixed_time" attr infos
      | None => Some infos
      end = Some r' -> r' !! "error" = r !! "error").
    { intros infos Hi. destruct (ev_time ev).
      - intros H. rewrite <- Hi.
        apply (store_time_error "fixed_time" _ _ _ ltac:(discriminate) H).
      - intros [= <-]. exact Hi. }
    destruct (ev_comment ev) as [text|]; [|exact IH].
    destruct (fixed_line _).
    + apply Hfound. apply lookup_insert_ne. discriminate.
    + destruct (Py.contains _ text); [|exact IH].
      destruct (ev_revisions_link ev); [|exact IH].
      apply Hfound. apply lookup_insert_ne. discriminate.
Qed.

Lemma match_label_in line K v :
  match_label keys line = Some (K, v) -> In K desc_vocabulary.
Proof.
  unfold match_label. destruct (List.find _ keys) as [k|] eqn:E; [|discriminate].
  intros [= <- _]. apply List.find_some in E as [E _].
  apply (Permutation_in _ keys_order E).
Qed.

Lemma description_line_error (st : record * option string) line :
  cursor_ok st.2 ->
  (description_line keys st line).1 !! "error" = st.1 !! "error"
  /\ cursor_ok (description_line keys st line).2.
Proof.
  destruct st as [r cur]. cbn [fst snd]. intros Hcur.
  unfold description_line.
  destruct (String.eqb (strip_line line) ""); [split; [reflexivity|exact I]|].
  destruct (match_label keys (strip_line line)) as [[K v]|] eqn:Hm.
  { apply match_label_in in Hm. split; [|exact Hm].
    apply lookup_insert_ne, vocabulary_not_error, Hm. }
  destruct cur as [K|]; [|split; [reflexivity|exact I]].
  destruct (_ || _); [split; [reflexivity|exact I]|].
  pose proof (vocabulary_not_error K Hcur) as HK.
  destruct (r !! K) as [[| | |e|l]|]; try (split; [reflexivity|exact Hcur]).
  - destruct (String.eqb e ""); (split; [|exact Hcur]);
      apply lookup_insert_ne; exact HK.
  - split; [|exact Hcur]. apply lookup_insert_ne; exact HK.
Qed.

Lemma extract_description_error pg (r : record) :
  extract_description keys pg r !! "error" = r !! "error".
Proof.
  unfold extract_description. destruct (pg_description pg) as [text|]; [|reflexivity].
  unfold parse_description, description_lines.
  assert (H : forall lines st, cursor_ok st.2 ->
            (fold_left (description_line keys) lines st).1 !! "error"
            = st.1 !! "error").
  { induction lines as [|line lines IH]; intros st Hst; [reflexivity|].
    cbn [fold_left]. destruct (description_line_error st line Hst) as [He Hc].
    rewrite IH by exact Hc. exact He. }
  rewrite H by exact I. reflexivity.
Qed.

Lemma scrape_key_error pg (r : record) entry :
  In entry url_keys_to_scrape ->
  scrape_key pg r entry !! "error" = r !! "error".
Proof.
  intros Hin. unfold scrape_key. destruct entry as [info_key prefix].
  destruct (r !! info_key) as [[| | |sub_url|]|]; try reflexivity.
  destruct (_ && _); [|reflexivity].
  destruct (scrape_revision_details _ _); [|reflexivity].
  simpl in Hin.
  destruct Hin as [[= <- <-]|[[= <- <-]|[[= <- <-]|[]]]];
    rewrite !lookup_insert_ne by (vm_compute; discriminate); reflexivity.
Qed.

Lemma extract_revisions_error pg (r : record) :
  extract_revisions pg r !! "error" = r !! "error".
Proof.
  unfold extract_revisions.
  assert (H : forall entries r0,
            (forall e, In e entries -> In e url_keys_to_scrape) ->
            fold_left (scrape_key pg) entries r0 !! "error" = r0 !! "error").
  { induction entries as [|e entries IH]; intros r0 Hsub; [reflexivity|].
    cbn [fold_left]. rewrite IH by (intros; apply Hsub; right; assumption).
    apply scrape_key_error, Hsub. left. reflexivity. }
  apply H. auto.
Qed.

Lemma extract_title_error pg (r : record) :
  r !! "error" = Some (VBool false) ->
  extract_title pg r !! "error" = Some (VBool (no_title pg)).
Proof.
  intros H. unfold extract_title, no_title.
  destruct (pg_title pg), (pg_header_title pg);
    rewrite ?lookup_insert_eq, ?lookup_insert_ne by discriminate;
    try exact H; reflexivity.
Qed.

Lemma untitled_page_record :
  exists r,
    get_issue iso_to_minute strptime_ymd keys 42535201 untitled_page = Some r
    /\ r !! "error" = Some (VBool true)
    /\ r !! "title" = None
    /\ r !! "Reporter" = Some (VStr "dev@example.org")
    /\ r !! "Crash Type" = Some (VStr "Heap-overflow")
    /\ r !! "regressed_components" = Some (VList [VStr "libfoo"])
    /\ r !! "regressed_revisions"
       = Some (VList [VList [VStr "aaaaaaaaaaaa"; VStr "bbbbbbbbbbbb"]]).
Proof.
  rewrite (get_issue_order keys keys_order).
  eexists. split; [reflexivity|].
  split; [vm_compute; reflexivity|].
  split; [vm_compute; reflexivity|].
  split; [vm_compute; reflexivity|].
  split; [vm_compute; reflexivity|].
  split; vm_compute; reflexivity.
Qed.

(** C10: the record of a page that never loads holds [error] set and
    nothing but [id], [url], [error] and [title]; on a page that loads,
    the record returned holds [error] set exactly when neither title
    element is found, and the extraction goes on after the title: it
    returns a record whenever the time formats are accepted, and for a
    page without a title that record holds, next to [error], the
    reporter, the crash type and the components and revisions of the
    regressed range. *)
Theorem error_flag_of_record (issue_no : Z) (pg : page) :
  let loaded := fst (load_issue_page (pg_loads pg) (initial_url issue_no)) in
  (if loaded
   then forall r,
          get_issue iso_to_minute strptime_ymd keys issue_no pg = Some r ->
          r !! "error" = Some (VBool (no_title pg))
   else get_issue iso_to_minute strptime_ymd keys issue_no pg
        = Some (failed_load_record issue_no)
        /\ failed_load_record issue_no !! "error" = Some (VBool true)
        /\ dom (failed_load_record issue_no)
           = ({["id"; "url"; "error"; "title"]} : gset string))
  /\ ((forall s, is_Some (iso_to_minute s)) ->
      is_Some (get_issue iso_to_minute strptime_ymd keys issue_no pg))
  /\ (exists r,
        get_issue iso_to_minute strptime_ymd keys 42535201 untitled_page = Some r
        /\ r !! "error" = Some (VBool true)
        /\ r !! "title" = None
        /\ r !! "Reporter" = Some (VStr "dev@example.org")
        /\ r !! "Crash Type" = Some (VStr "Heap-overflow")
        /\ r !! "regressed_components" = Some (VList [VStr "libfoo"])
        /\ r !! "regressed_revisions"
           = Some (VList [VList [VStr "aaaaaaaaaaaa"; VStr "bbbbbbbbbbbb"]])).
Proof.
  intros loaded. split; [|split]; [| |apply untitled_page_record].
  all: unfold get_issue; fold loaded.
  - destruct loaded; cbn [negb].
    + intros r.
      set (r0 := extract_hotlists pg (extract_title pg _)).
      assert (H0 : r0 !! "error" = Some (VBool (no_title pg))).
      { subst r0. rewrite extract_hotlists_error.
        apply extract_title_error. apply lookup_insert_eq. }
      destruct (extract_reported_time iso_to_minute pg r0) as [r1|] eqn:E1;
        [|discriminate].
      cbn [mbind option_bind].
      destruct (extract_fixed iso_to_minute pg
                  (extract_metadata strptime_ymd pg r1)) as [r2|] eqn:E2;
        [|discriminate].
      cbn [mbind option_bind]. intros [= <-].
      rewrite extract_revisions_error, extract_description_error.
      assert (H2 : r2 !! "error" = r1 !! "error").
      { unfold extract_fixed in E2. destruct (pg_events pg).
        - rewrite (scan_events_error _ _ _ E2). apply extract_metadata_error.
        - injection E2 as <-. apply extract_metadata_error. }
      assert (H1 : r1 !! "error" = r0 !! "error").
      { unfold extract_reported_time in E1. destruct (pg_reported pg).
        - apply (store_time_error "reported_time" _ _ _ ltac:(discriminate) E1).
        - injection E1 as <-. reflexivity. }
      rewrite H2, H1. exact H0.
    + split; [reflexivity|]. split; [reflexivity|].
      unfold failed_load_record. rewrite !dom_insert_L, dom_empty_L.
      set_solver.
  - intros Hiso.
    assert (Hstore : forall key attr (r : record),
              is_Some (store_time iso_to_minute key attr r)).
    { intros key attr r. unfold store_time, format_utc.
      destruct attr as [[|c s]|]; try (eexists; reflexivity).
      destruct (Hiso (Py.replace "Z" "+00:00" (String c s))) as [t ->].
      eexists; reflexivity. }
    assert (Hscan : forall events (r : record),
              is_Some (scan_events iso_to_minute events r)).
    { induction events as [|ev events IH]; intros r; cbn [scan_events];
        [eexists; reflexivity|].
      destruct (ev_comment ev); [|apply IH].
      destruct (fixed_line _).
      - destruct (ev_time ev); [apply Hstore|eexists; reflexivity].
      - destruct (Py.contains _ _); [|apply IH].
        destruct (ev_revisions_link ev); [|apply IH].
        destruct (ev_time ev); [apply Hstore|eexists; reflexivity]. }
    destruct (negb loaded); [eexists; reflexivity|].
    set (r0 := extract_hotlists pg (extract_title pg _)).
    assert (H1 : is_Some (extract_reported_time iso_to_minute pg r0)).
    { unfold extract_reported_time. destruct (pg_reported pg);
        [apply Hstore|eexists; reflexivity]. }
    destruct H1 as [r1 ->]. cbn [mbind option_bind].
    assert (H2 : is_Some (extract_fixed iso_to_minute pg
                            (extract_metadata strptime_ymd pg r1))).
    { unfold extract_fixed. destruct (pg_events pg);
        [apply Hscan|eexists; reflexivity]. }
    destruct H2 as [r2 ->]. cbn [mbind option_bind]. eexists; reflexivity.
Qed.

End ErrorFlag.

Lemma error_flag_of_record_witness :
  exists r,
    get_issue (fun s => Some s) (fun s => Some s) desc_vocabulary 42535201
      untitled_page = Some r
    /\ r !! "error" = Some (VBool true).
Proof.
  destruct (error_flag_of_record (fun s => Some s) (fun s => Some s)
              desc_vocabulary (Permutation_refl _) 42535201 untitled_page)
    as (_ & _ & r & Hr & He & _).
  exists r. split; [exact Hr|exact He].
Defined.

(** ** Sorting *)

Lemma insert_sorted_perm {A} (leb : A -> A -> bool) x l :
  Permutation (Py.insert_sorted leb x l) (x :: l).
Proof.
  induction l as [|y l IH]; simpl; [reflexivity|].
  destruct (leb x y); [reflexivity|].
  rewrite IH. apply perm_swap.
Qed.

Lemma sorted_perm {A} (leb : A -> A -> bool) l :
  Permutation (Py.sorted leb l) l.
Proof.
  induction l as [|x l IH]; simpl; [reflexivity|].
  rewrite insert_sorted_perm, IH. reflexivity.
Qed.

Lemma insert_sorted_sorted {A} (leb : A -> A -> bool) x l :
  (forall a b, leb a b = false -> leb b a = true) ->
  Sorted (fun a b => leb a b = true) l ->
  Sorted (fun a b => leb a b = true) (Py.insert_sorted leb x l).
Proof.
  intros Htot. induction l as [|y l IH]; simpl; intros Hs.
  - repeat constructor.
  - destruct (leb x y) eqn:E.
    + constructor; [exact Hs|]. constructor. exact E.
    + apply Sorted_inv in Hs as [Hs Hhd]. constructor; [apply IH, Hs|].
      destruct l as [|z l]; simpl.
      * constructor. apply Htot, E.
      * destruct (leb x z); constructor; [apply Htot, E|].
        apply HdRel_inv in Hhd. exact Hhd.
Qed.

Lemma sorted_sorted {A} (leb : A -> A -> bool) l :
  (forall a b, leb a b = false -> leb b a = true) ->
  Sorted (fun a b => leb a b = true) (Py.sorted leb l).
Proof.
  intros Htot. induction l as [|x l IH]; simpl; [constructor|].
  apply insert_sorted_sorted; assumption.
Qed.

(** ** ID Resolver *)

Lemma target_ids_spec lines (acc : gset Z) :
  (forall line, In line lines -> Py.isdigit (Py.strip line) = true ->
                is_Some (Py.int (Py.strip line))) ->
  exists ids : gset Z,
    target_ids lines acc = Some ids
    /\ forall n, n ∈ ids <-> n ∈ acc \/ exists line, In line lines /\ digit_line line n.
Proof.
  revert acc. induction lines as [|line lines IH]; intros acc Hok; cbn [target_ids].
  - exists acc. split; [reflexivity|]. intros n. split; [auto|].
    intros [H|(l & [] & _)]. exact H.
  - destruct (Py.isdigit (Py.strip line)) eqn:Hd.
    + destruct (Hok line (or_introl eq_refl) Hd) as [m Hm]. rewrite Hm.
      destruct (IH ({[m]} ∪ acc)) as (ids & Hids & Hin).
      { intros l Hl. apply Hok. right. exact Hl. }
      exists ids. split; [exact Hids|]. intros n. rewrite Hin.
      rewrite elem_of_union, elem_of_singleton. split.
      * intros [[->|H]|(l & Hl & Hdl)].
        -- right. exists line. split; [left; reflexivity|split; assumption].
        -- left. exact H.
        -- right. exists l. split; [right; exact Hl|exact Hdl].
      * intros [H|(l & [<-|Hl] & Hdl)].
        -- left. right. exact H.
        -- left. left. destruct Hdl as [_ Hdl]. congruence.
        -- right. exists l. split; assumption.
    + destruct (IH acc) as (ids & Hids & Hin).
      { intros l Hl. apply Hok. right. exact Hl. }
      exists ids. split; [exact Hids|]. intros n. rewrite Hin. split.
      * intros [H|(l & Hl & Hdl)]; [left; exact H|].
        right. exists l. split; [right; exact Hl|exact Hdl].
      * intros [H|(l & [<-|Hl] & Hdl)]; [left; exact H| |].
        -- destruct Hdl as [Hdl _]. congruence.
        -- right. exists l. split; assumption.
Qed.

Section WorkSet.

Variable select_ids : list (string * condition) -> list Z.


End WorkSet.


(** A digit line that [int] rejects: the superscript two is a digit for
    [str.isdigit] and not a decimal digit; [main] then returns without a
    work list. *)
Lemma superscript_digit_line :
  let text := String "178" "" in
  Py.isdigit (Py.strip text) = true
  /\ Py.int (Py.strip text) = None
  /\ ids_to_process (fun _ => []) (Some text) true [] prior_dir = None.
Proof. repeat split; vm_compute; reflexivity. Qed.


(** ** JSON: decoding what was encoded *)

Lemma value_list_ind (P : value -> Prop) :
  P VNone -> (forall b, P (VBool b)) -> (forall n, P (VInt n)) ->
  (forall s, P (VStr s)) ->
  (forall l, List.Forall P l -> P (VList l)) ->
  forall v, P v.
Proof.
  intros Hn Hb Hi Hs Hl. fix IH 1. intros [| b | n | s | l].
  - exact Hn.
  - apply Hb.
  - apply Hi.
  - apply Hs.
  - apply Hl. induction l as [|v l IHl]; constructor; [apply IH|exact IHl].
Qed.

(** *** Texts *)

Lemma loads_str_escape_char c tail :
  Json.loads_str (Json.escape_char c ++ tail) =
    match Json.loads_str tail with
    | Some (t, r) => Some (String c t, r)
    | None => None
    end.
Proof. destruct c as [[] [] [] [] [] [] [] []]; reflexivity. Qed.

Lemma loads_str_escape s rest :
  Json.loads_str (Json.escape s ++ String Json.dquote rest) = Some (s, rest).
Proof.
  induction s as [|c s IH]; [reflexivity|].
  cbn [Json.escape]. rewrite append_assoc, loads_str_escape_char, IH.
  reflexivity.
Qed.

(** *** Integers *)

Lemma pretty_N_go_app x s : pretty_N_go x s = pretty_N_go x "" ++ s.
Proof.
  revert s. induction (N.lt_wf_0 x) as [x _ IH]; intros s.
  destruct (decide (x = 0)%N) as [->|Hx]; [reflexivity|].
  rewrite (pretty_N_go_step x s), (pretty_N_go_step x "") by lia.
  rewrite (IH (x `div` 10)%N) by (apply N.div_lt; lia).
  rewrite (IH (x `div` 10)%N ltac:(apply N.div_lt; lia) (String _ "")).
  rewrite append_assoc. reflexivity.
Qed.

Lemma pretty_N_go_snoc x :
  (0 < x)%N ->
  pretty_N_go x "" =
    pretty_N_go (x `div` 10) "" ++ String (pretty_N_char (x `mod` 10)) "".
Proof.
  intros Hx. rewrite pretty_N_go_step by exact Hx. apply pretty_N_go_app.
Qed.

Lemma pretty_N_char_decimal d :
  (d < 10)%N ->
  Py.isdecimal (pretty_N_char d) = true
  /\ Z.of_N (Py.code (pretty_N_char d) - 48) = Z.of_N d.
Proof.
  intros Hd.
  assert (H : (d = 0 \/ d = 1 \/ d = 2 \/ d = 3 \/ d = 4 \/ d = 5 \/ d = 6
               \/ d = 7 \/ d = 8 \/ d = 9)%N) by lia.
  repeat destruct H as [->|H]; try subst d; split; reflexivity.
Qed.

Lemma int_acc_snoc acc a c :
  Py.int_acc acc (a ++ String c "") =
    match Py.int_acc acc a with
    | Some v =>
        if Py.isdecimal c then Some (10 * v + Z.of_N (Py.code c - 48))%Z else None
    | None => None
    end.
Proof.
  revert acc. induction a as [|x a IH]; intros acc; push_append;
    cbn [Py.int_acc].
  - destruct (Py.isdecimal c); reflexivity.
  - destruct (Py.isdecimal x); [apply IH|reflexivity].
Qed.

Lemma int_acc_pretty x : Py.int_acc 0 (pretty_N_go x "") = Some (Z.of_N x).
Proof.
  induction (N.lt_wf_0 x) as [x _ IH].
  destruct (decide (x = 0)%N) as [->|Hx]; [reflexivity|].
  rewrite pretty_N_go_snoc by lia. rewrite int_acc_snoc.
  rewrite IH by (apply N.div_lt; lia).
  destruct (pretty_N_char_decimal (x `mod` 10)) as [-> ->];
    [apply N.mod_lt; lia|].
  f_equal. pose proof (N.div_mod x 10 ltac:(lia)). lia.
Qed.

Lemma all_decimal_pretty x : Py.all_chars Py.isdecimal (pretty_N_go x "") = true.
Proof.
  induction (N.lt_wf_0 x) as [x _ IH].
  destruct (decide (x = 0)%N) as [->|Hx]; [reflexivity|].
  rewrite pretty_N_go_snoc by lia. rewrite all_chars_app.
  rewrite IH by (apply N.div_lt; lia). cbn [Py.all_chars andb].
  destruct (pretty_N_char_decimal (x `mod` 10)) as [-> _];
    [apply N.mod_lt; lia|reflexivity].
Qed.

(** The text of a positive number starts with a digit other than
    zero. *)
Lemma pretty_head x :
  (0 < x)%N ->
  exists c s, pretty_N_go x "" = String c s
              /\ Py.isdecimal c = true /\ c <> "0"%char.
Proof.
  induction (N.lt_wf_0 x) as [x _ IH]. intros Hx.
  rewrite pretty_N_go_snoc by exact Hx.
  destruct (decide (x `div` 10 = 0)%N) as [E|E].
  - rewrite E. change (pretty_N_go 0 "") with "". rewrite append_nil_l.
    assert (Hlt : (x < 10)%N) by (apply N.div_small_iff in E; lia).
    rewrite (N.mod_small x 10 Hlt).
    assert (H : (x = 1 \/ x = 2 \/ x = 3 \/ x = 4 \/ x = 5 \/ x = 6
                 \/ x = 7 \/ x = 8 \/ x = 9)%N) by lia.
    repeat destruct H as [->|H]; try subst x;
      eexists _, _; (split; [reflexivity|split; [reflexivity|discriminate]]).
  - destruct (IH (x `div` 10)%N) as (c & s & Hs & Hc & Hz);
      [apply N.div_lt; lia|apply N.neq_0_lt_0; exact E|].
    rewrite Hs. push_append. eexists _, _. split; [reflexivity|].
    split; assumption.
Qed.

Lemma span_digits_app d rest :
  Py.all_chars Py.isdecimal d = true -> no_digit_ahead rest ->
  Json.span_digits (d ++ rest) = (d, rest).
Proof.
  intros Hd Hr. induction d as [|c d IH]; push_append.
  - destruct rest as [|c rest]; [reflexivity|]. simpl in Hr.
    cbn [Json.span_digits]. rewrite Hr. reflexivity.
  - cbn [Py.all_chars] in Hd. apply andb_true_iff in Hd as [Hc Hd].
    cbn [Json.span_digits]. rewrite Hc, (IH Hd). reflexivity.
Qed.

Lemma loads_nat_pretty (x : N) rest :
  no_digit_ahead rest ->
  Json.loads_nat (pretty x ++ rest) = Some (Z.of_N x, rest).
Proof.
  intros Hr. unfold pretty, pretty_N.
  destruct (decide (x = 0)%N) as [->|Hx]; [reflexivity|].
  destruct (pretty_head x ltac:(lia)) as (c & s & Hs & Hc & Hz).
  assert (E : Json.loads_nat (pretty_N_go x "" ++ rest) =
              let '(d, r) := Json.span_digits (pretty_N_go x "" ++ rest) in
              match Py.int_acc 0 d with
              | Some n => Some (n, r)
              | None => None
              end).
  { rewrite Hs. push_append. unfold Json.loads_nat.
    destruct c as [[] [] [] [] [] [] [] []]; try discriminate;
      try reflexivity; contradiction. }
  rewrite E, span_digits_app by (apply all_decimal_pretty || exact Hr).
  rewrite int_acc_pretty. reflexivity.
Qed.

(** *** Values *)

Lemma append_nil_r (s : string) : s ++ "" = s.
Proof. induction s as [|c s IH]; push_append; [reflexivity|]. rewrite IH. reflexivity. Qed.

Lemma loads_value_digit f c s :
  Py.isdecimal c = true ->
  Json.loads_value (S f) (String c s) =
    match Json.loads_nat (String c s) with
    | Some (n, r) => Some (VInt n, r)
    | None => None
    end.
Proof.
  intros H. destruct c as [[] [] [] [] [] [] [] []]; try discriminate;
    reflexivity.
Qed.

Lemma loads_value_list f c s :
  Json.is_ws c = false -> c <> "]"%char ->
  Json.loads_value (S f) (String "[" (String c s))
  = Json.loads_items f (String c s) [].
Proof.
  intros Hw Hb. destruct c as [[] [] [] [] [] [] [] []]; try discriminate;
    try reflexivity; contradiction.
Qed.

(** The text of a value starts with a character that is neither white
    space nor a closing bracket. *)
Lemma dumps_head v :
  exists c s, Json.dumps v = String c s
              /\ Json.is_ws c = false /\ c <> "]"%char.
Proof.
  destruct v as [| [] | [|p|p] | s | l]; cbn [Json.dumps];
    try (eexists _, _; split; [reflexivity|split; [reflexivity|discriminate]]).
  unfold Py.str_of_int, pretty, pretty_Z, pretty, pretty_positive.
  unfold pretty, pretty_N. destruct (decide (N.pos p = 0)%N); [discriminate|].
  destruct (pretty_head (N.pos p) ltac:(lia)) as (c & s & -> & Hc & _).
  exists c, s. split; [reflexivity|].
  destruct c as [[] [] [] [] [] [] [] []]; try discriminate;
    (split; [reflexivity|discriminate]).
Qed.

Lemma skip_ws_head c s : Json.is_ws c = false -> Json.skip_ws (String c s) = String c s.
Proof. intros H. cbn [Json.skip_ws]. rewrite H. reflexivity. Qed.

Lemma skip_ws_dumps v rest : Json.skip_ws (Json.dumps v ++ rest) = Json.dumps v ++ rest.
Proof.
  destruct (dumps_head v) as (c & s & -> & Hw & _). push_append.
  apply skip_ws_head, Hw.
Qed.

Lemma loads_items_dumps l :
  List.Forall decodes l ->
  forall v acc fuel rest,
    decodes v ->
    json_items_size (v :: l) <= fuel ->
    Json.loads_items fuel
      (Py.join ", " (map Json.dumps (v :: l)) ++ String "]" rest) acc
    = Some (VList (rev acc ++ v :: l), rest).
Proof.
  induction 1 as [|v' l Hv' Hl IH]; intros v acc fuel rest Hv Hfuel.
  - cbn [map Py.join].
    unfold json_items_size in Hfuel. simpl in Hfuel.
    destruct fuel as [|fuel]; [lia|]. cbn [Json.loads_items].
    rewrite (Hv fuel (String "]" rest)) by (try lia; reflexivity).
    cbn [Json.skip_ws]. change (Json.is_ws "]") with false. cbv iota.
    cbn [rev]. reflexivity.
  - change (map Json.dumps (v :: v' :: l))
      with (Json.dumps v :: map Json.dumps (v' :: l)).
    change (Py.join ", " (Json.dumps v :: map Json.dumps (v' :: l)))
      with (Json.dumps v ++ ", " ++ Py.join ", " (map Json.dumps (v' :: l))).
    rewrite !append_assoc.
    change (json_items_size (v :: v' :: l))
      with (S (json_size v) + json_items_size (v' :: l)) in Hfuel.
    destruct fuel as [|fuel]; [lia|]. cbn [Json.loads_items].
    rewrite (Hv fuel) by (try lia; reflexivity).
    push_append.
    change (Json.skip_ws (String "," ?x)) with (String "," x).
    cbv iota.
    set (next := Py.join ", " (map Json.dumps (v' :: l)) ++ String "]" rest).
    assert (Hnext : Json.skip_ws (String " " next) = next).
    { subst next. cbn [map Py.join].
      destruct (dumps_head v') as (c & s & Hs & Hw & _).
      cbn [Json.skip_ws]. change (Json.is_ws " ") with true. cbv iota.
      destruct l; cbn [map Py.join]; rewrite ?append_assoc, Hs; push_append;
        apply skip_ws_head, Hw. }
    cbn [Json.skip_ws] in Hnext |- *. change (Json.is_ws ",") with false.
    cbv iota.
    change (Json.is_ws " ") with true in Hnext |- *. cbv iota in Hnext |- *.
    rewrite Hnext. subst next.
    rewrite (IH v' (v :: acc) fuel rest Hv') by lia.
    cbn [rev]. rewrite <- app_assoc. reflexivity.
Qed.

Lemma dumps_decodes v : decodes v.
Proof.
  induction v as [| b | n | s | l Hl] using value_list_ind;
    intros fuel rest Hfuel Hrest;
    (destruct fuel as [|fuel]; [cbn [json_size] in Hfuel; lia|]).
  - reflexivity.
  - destruct b; reflexivity.
  - cbn [Json.dumps]. unfold Py.str_of_int, pretty, pretty_Z.
    destruct n as [|p|p].
    + reflexivity.
    + change (pretty p) with (pretty (N.pos p)).
      destruct (dumps_head (VInt (Z.pos p))) as (c & s & Hs & _).
      assert (Hc : Py.isdecimal c = true).
      { cbn [Json.dumps] in Hs. unfold Py.str_of_int, pretty, pretty_Z in Hs.
        change (pretty p) with (pretty (N.pos p)) in Hs.
        unfold pretty, pretty_N in Hs.
        destruct (decide (N.pos p = 0)%N); [discriminate|].
        destruct (pretty_head (N.pos p) ltac:(lia)) as (c' & s' & Hs' & Hc' & _).
        congruence. }
      cbn [Json.dumps] in Hs. unfold Py.str_of_int, pretty, pretty_Z in Hs.
      change (pretty p) with (pretty (N.pos p)) in Hs.
      pose proof (loads_nat_pretty (N.pos p) rest Hrest) as Hn.
      rewrite Hs in Hn |- *. push_append. rewrite append_cons in Hn.
      rewrite loads_value_digit by exact Hc. rewrite Hn. reflexivity.
    + change (pretty p) with (pretty (N.pos p)).
      change ("-" +:+ pretty (N.pos p)) with (String "-" (pretty (N.pos p))).
      push_append. cbn [Json.loads_value].
      rewrite (loads_nat_pretty (N.pos p) rest Hrest). reflexivity.
  - cbn [Json.dumps]. unfold Json.dumps_str. push_append.
    rewrite append_assoc. push_append.
    change (Json.loads_value (S fuel) (String Json.dquote ?x))
      with (match Json.loads_str x with
            | Some (t, r) => Some (VStr t, r)
            | None => None
            end).
    rewrite loads_str_escape. reflexivity.
  - cbn [Json.dumps]. push_append. rewrite append_assoc. push_append.
    destruct l as [|v l].
    + reflexivity.
    + destruct (dumps_head v) as (c & s & Hs & Hw & Hb).
      assert (Hhead : exists s', Py.join ", " (map Json.dumps (v :: l))
                                   ++ String "]" rest = String c s').
      { destruct l; cbn [map Py.join]; rewrite ?append_assoc, Hs; push_append;
          eexists; reflexivity. }
      destruct Hhead as (s' & Hhead). rewrite Hhead.
      rewrite loads_value_list by assumption. rewrite <- Hhead.
      inversion Hl as [|? ? Hv Hl']; subst.
      rewrite (loads_items_dumps l Hl' v [] fuel rest Hv).
      * reflexivity.
      * change (json_size (VList (v :: l))) with (S (json_items_size (v :: l)))
          in Hfuel. lia.
Qed.

Lemma length_join_dumps l :
  List.Forall (fun v => json_size v <= String.length (Json.dumps v)) l ->
  json_items_size l <= S (String.length (Py.join ", " (map Json.dumps l))).
Proof.
  induction 1 as [|v l Hv Hl IH]; [unfold json_items_size; simpl; lia|].
  cbv beta in Hv.
  change (json_items_size (v :: l)) with (S (json_size v) + json_items_size l).
  destruct l as [|v' l].
  - cbn [map Py.join]. unfold json_items_size. simpl. lia.
  - change (map Json.dumps (v :: v' :: l))
      with (Json.dumps v :: map Json.dumps (v' :: l)).
    change (Py.join ", " (Json.dumps v :: map Json.dumps (v' :: l)))
      with (Json.dumps v ++ ", " ++ Py.join ", " (map Json.dumps (v' :: l))).
    rewrite !length_append. cbn [String.length]. lia.
Qed.

Lemma json_size_le_length v : json_size v <= String.length (Json.dumps v).
Proof.
  induction v as [| b | n | s | l Hl] using value_list_ind.
  - simpl. lia.
  - destruct b; simpl; lia.
  - destruct (dumps_head (VInt n)) as (c & s & -> & _). simpl. lia.
  - cbn [Json.dumps json_size]. unfold Json.dumps_str. simpl. lia.
  - change (json_size (VList l)) with (S (json_items_size l)).
    cbn [Json.dumps]. push_append. cbn [String.length].
    rewrite length_append. cbn [String.length].
    pose proof (length_join_dumps l Hl). lia.
Qed.

Theorem loads_dumps v : Json.loads (Json.dumps v) = Some v.
Proof.
  unfold Json.loads.
  rewrite <- (append_nil_r (Json.dumps v)) at 2.
  rewrite skip_ws_dumps.
  rewrite (dumps_decodes v _ "") by (try exact I; pose proof (json_size_le_length v); lia).
  reflexivity.
Qed.



Lemma join_cons sep x y l :
  Py.join sep (x :: y :: l) = x ++ sep ++ Py.join sep (y :: l).
Proof. reflexivity. Qed.

(** ** CSV: reading what was written *)

Lemma writerow_text fields :
  Csv.writerow fields = row_text fields ++ String Csv.cr (String Csv.lf "").
Proof. reflexivity. Qed.

Lemma writerows_cons row rows :
  Csv.writerows (row :: rows) = Csv.writerow row ++ Csv.writerows rows.
Proof.
  unfold Csv.writerows. destruct rows as [|r rows]; cbn [map String.concat].
  - rewrite append_nil_r. reflexivity.
  - reflexivity.
Qed.

Lemma file_lines_row a rest :
  Py.all_chars not_newline a = true ->
  Py.file_lines true (a ++ String Csv.cr (String Csv.lf rest))
  = (a ++ String Csv.lf "") :: Py.file_lines true rest.
Proof.
  induction a as [|c a IH]; push_append; [reflexivity|].
  cbn [Py.all_chars]. intros H. apply andb_true_iff in H as [Hc Ha].
  unfold not_newline, Csv.is_newline in Hc.
  apply negb_true_iff, orb_false_iff in Hc as [Hlf Hcr].
  cbn [Py.file_lines]. unfold Csv.lf, Csv.cr in Hlf, Hcr.
  rewrite Hlf, Hcr, (IH Ha). reflexivity.
Qed.

Lemma double_quotes_no_newline s :
  Py.all_chars not_newline s = true ->
  Py.all_chars not_newline (Csv.double_quotes s) = true.
Proof.
  induction s as [|c s IH]; [reflexivity|].
  cbn [Py.all_chars Csv.double_quotes]. intros H.
  apply andb_true_iff in H as [Hc Hs].
  destruct (Ascii.eqb_spec c Csv.dquote) as [->|_]; cbn [Py.all_chars];
    rewrite ?Hc, (IH Hs); reflexivity.
Qed.

Lemma write_field_no_newline f :
  Py.all_chars not_newline f = true ->
  Py.all_chars not_newline (Csv.write_field f) = true.
Proof.
  intros H. unfold Csv.write_field. destruct (Csv.has_special f); [|exact H].
  cbn [Py.all_chars]. rewrite all_chars_app, double_quotes_no_newline by exact H.
  reflexivity.
Qed.

Lemma row_text_no_newline fields :
  List.Forall (fun f => Py.all_chars not_newline f = true) fields ->
  Py.all_chars not_newline (row_text fields) = true.
Proof.
  intros H.
  assert (Hj : Py.all_chars not_newline
                 (Py.join (String Csv.comma "") (map Csv.write_field fields)) = true).
  { induction H as [|f fields Hf Hfs IH]; [reflexivity|].
    destruct fields as [|g fields].
    - apply write_field_no_newline, Hf.
    - cbn [map] in IH |- *. rewrite join_cons.
      rewrite !all_chars_app, write_field_no_newline by exact Hf.
      rewrite IH. reflexivity. }
  unfold row_text. destruct fields as [|[|c f] [|g fields]]; exact Hj.
Qed.

Lemma file_lines_rows rows :
  List.Forall (List.Forall (fun f => Py.all_chars not_newline f = true)) rows ->
  Py.file_lines true (Csv.writerows rows)
  = map (fun row => row_text row ++ String Csv.lf "") rows.
Proof.
  induction 1 as [|row rows Hrow Hrows IH]; [reflexivity|].
  rewrite writerows_cons, writerow_text, append_assoc. push_append.
  rewrite file_lines_row by (apply row_text_no_newline, Hrow).
  rewrite IH. reflexivity.
Qed.

(** *** One field *)

Lemma special_false c :
  Csv.special c = false ->
  Ascii.eqb c Csv.comma = false /\ Ascii.eqb c Csv.dquote = false
  /\ Csv.is_newline c = false.
Proof.
  unfold Csv.special, Csv.is_newline. intros H.
  repeat (apply orb_false_iff in H as [H ?]).
  repeat split; try assumption. apply orb_false_iff. split; assumption.
Qed.

Lemma add_char_fits c p st :
  (N.of_nat (length (Csv.p_field p)) < Csv.field_limit)%N ->
  Csv.add_char c p st
  = Some (Csv.Parser st (c :: Csv.p_field p) (Csv.p_fields p)).
Proof.
  intros H. unfold Csv.add_char.
  destruct (N.leb_spec Csv.field_limit (N.of_nat (length (Csv.p_field p))));
    [lia|reflexivity].
Qed.

Lemma process_in_field s tail acc fs :
  Csv.has_special s = false ->
  (N.of_nat (length acc + String.length s) <= Csv.field_limit)%N ->
  Csv.process_line (Csv.Parser Csv.InField acc fs) (s ++ tail)
  = Csv.process_line
      (Csv.Parser Csv.InField (rev (list_ascii_of_string s) ++ acc) fs) tail.
Proof.
  revert acc. induction s as [|c s IH]; intros acc; push_append;
    [reflexivity|].
  cbn [Csv.has_special String.length]. intros H Hlen.
  apply orb_false_iff in H as [Hc Hs].
  destruct (special_false c Hc) as (Hcomma & Hquote & Hnl).
  cbn [Csv.process_line]. unfold Csv.process_char. cbn [Csv.p_state].
  rewrite Hnl, Hcomma, add_char_fits by (cbn [Csv.p_field]; lia).
  cbn [Csv.p_field Csv.p_fields].
  rewrite (IH _ Hs) by (cbn [length]; lia).
  cbn [list_ascii_of_string rev]. rewrite <- app_assoc.
  reflexivity.
Qed.

Lemma process_in_quoted s tail acc fs :
  (N.of_nat (length acc + String.length s) <= Csv.field_limit)%N ->
  Csv.process_line (Csv.Parser Csv.InQuotedField acc fs)
    (Csv.double_quotes s ++ tail)
  = Csv.process_line
      (Csv.Parser Csv.InQuotedField (rev (list_ascii_of_string s) ++ acc) fs)
      tail.
Proof.
  revert acc. induction s as [|c s IH]; intros acc Hlen; [reflexivity|].
  cbn [String.length] in Hlen.
  cbn [Csv.double_quotes list_ascii_of_string rev]. rewrite <- app_assoc.
  destruct (Ascii.eqb c Csv.dquote) eqn:E; push_append.
  - apply Ascii.eqb_eq in E as ->.
    cbn [Csv.process_line]. unfold Csv.process_char at 1. cbn [Csv.p_state].
    rewrite Ascii.eqb_refl. unfold Csv.set_state.
    cbn [Csv.p_field Csv.p_fields Csv.process_line].
    unfold Csv.process_char at 1. cbn [Csv.p_state]. rewrite Ascii.eqb_refl.
    rewrite add_char_fits by (cbn [Csv.p_field]; lia).
    cbn [Csv.p_field Csv.p_fields]. apply IH. cbn [length app]. lia.
  - cbn [Csv.process_line]. unfold Csv.process_char at 1. cbn [Csv.p_state].
    rewrite E, add_char_fits by (cbn [Csv.p_field]; lia).
    cbn [Csv.p_field Csv.p_fields]. apply IH. cbn [length app]. lia.
Qed.

Lemma string_of_rev_rev s :
  string_of_list_ascii (rev (rev (list_ascii_of_string s) ++ [])) = s.
Proof.
  rewrite app_nil_r, rev_involutive. apply string_of_list_ascii_of_string.
Qed.

(** A field at the start of a record or of a field, followed by a comma
    or a line feed. A record of one empty field is written with quotes,
    so an empty text at the start of a record is followed by a comma. *)
Lemma process_field st f d tail fs :
  st = Csv.StartRecord \/ st = Csv.StartField ->
  d = Csv.comma \/ d = Csv.lf ->
  ~ (st = Csv.StartRecord /\ f = "" /\ d = Csv.lf) ->
  field_fits f ->
  Csv.process_line (Csv.Parser st [] fs) (Csv.write_field f ++ String d tail)
  = Csv.process_line
      (Csv.Parser (if Ascii.eqb d Csv.comma then Csv.StartField else Csv.EatCRNL)
         [] (f :: fs))
      tail.
Proof.
  intros Hst Hd Hbad Hfit. unfold field_fits in Hfit. unfold Csv.write_field.
  destruct (Csv.has_special f) eqn:Hsp.
  - push_append.
    assert (E : Csv.process_char (Csv.Parser st [] fs) Csv.dquote
                = Some (Csv.Parser Csv.InQuotedField [] fs))
      by (destruct Hst as [-> | ->]; reflexivity).
    cbn [Csv.process_line].
    rewrite E, append_assoc, process_in_quoted by (cbn [length]; lia).
    push_append. cbn [Csv.process_line].
    assert (Eq : forall acc,
              Csv.process_char (Csv.Parser Csv.InQuotedField acc fs) Csv.dquote
              = Some (Csv.Parser Csv.QuoteInQuotedField acc fs))
      by reflexivity.
    rewrite Eq.
    change (Csv.process_line ?p (String ?c tail))
      with (match Csv.process_char p c with
            | Some p' => Csv.process_line p' tail
            | None => None
            end).
    assert (Ed : Csv.process_char
                   (Csv.Parser Csv.QuoteInQuotedField
                      (rev (list_ascii_of_string f) ++ []) fs) d
                 = Some (Csv.Parser
                           (if Ascii.eqb d Csv.comma
                            then Csv.StartField else Csv.EatCRNL)
                           [] (f :: fs))).
    { unfold Csv.process_char, Csv.save_field.
      cbn [Csv.p_state Csv.p_field Csv.p_fields].
      rewrite string_of_rev_rev. destruct Hd as [-> | ->]; reflexivity. }
    rewrite Ed. reflexivity.
  - destruct f as [|c f]; push_append.
    + cbn [Csv.process_line].
      destruct Hst as [-> | ->], Hd as [-> | ->]; try reflexivity.
      exfalso. apply Hbad. repeat split.
    + cbn [Csv.has_special] in Hsp. apply orb_false_iff in Hsp as [Hc Hf].
      cbn [String.length] in Hfit.
      destruct (special_false c Hc) as (Hcomma & Hquote & Hnl).
      assert (E : Csv.process_char (Csv.Parser st [] fs) c
                  = Some (Csv.Parser Csv.InField [c] fs)).
      { destruct Hst as [-> | ->]; unfold Csv.process_char, Csv.start_field;
          cbn [Csv.p_state]; rewrite Hnl, ?Hquote, ?Hcomma;
          rewrite add_char_fits by (cbn [Csv.p_field length]; lia);
          reflexivity. }
      cbn [Csv.process_line].
      rewrite E, (process_in_field f _ _ _ Hf) by (cbn [length]; lia).
      assert (Hs : string_of_list_ascii
                     (rev (rev (list_ascii_of_string f) ++ [c])) = String c f).
      { rewrite rev_app_distr, rev_involutive. cbn [rev app].
        cbn [string_of_list_ascii]. rewrite string_of_list_ascii_of_string.
        reflexivity. }
      change (Csv.process_line ?p (String ?x tail))
        with (match Csv.process_char p x with
              | Some p' => Csv.process_line p' tail
              | None => None
              end).
      assert (Ed : Csv.process_char
                     (Csv.Parser Csv.InField
                        (rev (list_ascii_of_string f) ++ [c]) fs) d
                   = Some (Csv.Parser
                             (if Ascii.eqb d Csv.comma
                              then Csv.StartField else Csv.EatCRNL)
                             [] (String c f :: fs))).
      { unfold Csv.process_char, Csv.save_field.
        cbn [Csv.p_state Csv.p_field Csv.p_fields].
        rewrite Hs. destruct Hd as [-> | ->]; reflexivity. }
      rewrite Ed. reflexivity.
Qed.

(** *** One record *)

Lemma process_fields fields :
  forall f st acc,
    st = Csv.StartRecord \/ st = Csv.StartField ->
    ~ (st = Csv.StartRecord /\ f = "" /\ fields = []) ->
    List.Forall field_fits (f :: fields) ->
    Csv.process_line (Csv.Parser st [] acc)
      (Py.join (String Csv.comma "") (map Csv.write_field (f :: fields))
       ++ String Csv.lf "")
    = Some (Csv.Parser Csv.StartRecord [] (rev (f :: fields) ++ acc)).
Proof.
  induction fields as [|g fields IH]; intros f st acc Hst Hbad Hfit;
    apply List.Forall_cons_iff in Hfit as [Hf Hfs].
  - cbn [map Py.join].
    rewrite (process_field st f Csv.lf "" acc Hst (or_intror eq_refl)).
    + reflexivity.
    + intros (H1 & H2 & _). apply Hbad. repeat split; assumption.
    + exact Hf.
  - cbn [map]. rewrite join_cons, !append_assoc. push_append.
    rewrite (process_field st f Csv.comma _ acc Hst (or_introl eq_refl)).
    + change (Ascii.eqb Csv.comma Csv.comma) with true. cbv iota.
      change (Csv.write_field g :: map Csv.write_field fields)
        with (map Csv.write_field (g :: fields)).
      rewrite (IH g Csv.StartField (f :: acc) (or_intror eq_refl)).
      * cbn [rev]. rewrite <- !app_assoc. reflexivity.
      * intros (H & _). discriminate.
      * exact Hfs.
    + intros (_ & _ & H). discriminate.
    + exact Hf.
Qed.

Lemma process_row row :
  List.Forall field_fits row ->
  Csv.process_line Csv.fresh (row_text row ++ String Csv.lf "")
  = Some (Csv.Parser Csv.StartRecord [] (rev row)).
Proof.
  intros Hfit. destruct row as [|f fields]; [reflexivity|].
  destruct (decide (f = "" /\ fields = [])) as [[-> ->]|Hne]; [reflexivity|].
  assert (E : row_text (f :: fields)
              = Py.join (String Csv.comma "") (map Csv.write_field (f :: fields))).
  { unfold row_text. destruct f as [|c f]; [|reflexivity].
    destruct fields; [|reflexivity]. exfalso. apply Hne. split; reflexivity. }
  rewrite E. unfold Csv.fresh.
  rewrite (process_fields fields f Csv.StartRecord [] (or_introl eq_refl)).
  - rewrite app_nil_r. reflexivity.
  - intros (_ & H1 & H2). apply Hne. split; assumption.
  - exact Hfit.
Qed.

Lemma read_rows rows :
  List.Forall (List.Forall field_fits) rows ->
  Csv.read Csv.fresh (map (fun row => row_text row ++ String Csv.lf "") rows)
  = (rows, true).
Proof.
  induction 1 as [|row rows Hrow _ IH]; [reflexivity|].
  cbn [map Csv.read]. rewrite (process_row row Hrow).
  cbn [Csv.p_state Csv.p_fields].
  rewrite IH, rev_involutive. reflexivity.
Qed.

(** The reader gives back the rows that the writer wrote, when no field
    holds a line break and every field is within the limit of the
    reader. *)
Theorem reader_writerows rows :
  List.Forall (List.Forall (fun f => Py.all_chars not_newline f = true)) rows ->
  List.Forall (List.Forall field_fits) rows ->
  Csv.reader (Py.file_lines true (Csv.writerows rows)) = (rows, true).
Proof.
  intros H Hfit. unfold Csv.reader. rewrite (file_lines_rows rows H).
  apply read_rows, Hfit.
Qed.


(** ** The cells of a batch hold no line break *)

Lemma all_chars_impl (p q : ascii -> bool) s :
  (forall c, p c = true -> q c = true) ->
  Py.all_chars p s = true -> Py.all_chars q s = true.
Proof.
  intros Hpq. induction s as [|c s IH]; [reflexivity|].
  cbn [Py.all_chars]. intros H. apply andb_true_iff in H as [Hc Hs].
  rewrite (Hpq c Hc), (IH Hs). reflexivity.
Qed.

Lemma decimal_not_newline c : Py.isdecimal c = true -> not_newline c = true.
Proof. destruct c as [[] [] [] [] [] [] [] []]; intros H; try discriminate; reflexivity. Qed.

Lemma escape_char_no_newline c :
  Py.all_chars not_newline (Json.escape_char c) = true.
Proof. destruct c as [[] [] [] [] [] [] [] []]; reflexivity. Qed.

Lemma escape_no_newline s : Py.all_chars not_newline (Json.escape s) = true.
Proof.
  induction s as [|c s IH]; [reflexivity|].
  cbn [Json.escape]. rewrite all_chars_app, escape_char_no_newline, IH.
  reflexivity.
Qed.

Lemma pretty_N_no_newline (x : N) : Py.all_chars not_newline (pretty x) = true.
Proof.
  unfold pretty, pretty_N. destruct (decide (x = 0)%N); [reflexivity|].
  apply (all_chars_impl Py.isdecimal); [apply decimal_not_newline|].
  apply all_decimal_pretty.
Qed.

Lemma dumps_no_newline v : Py.all_chars not_newline (Json.dumps v) = true.
Proof.
  induction v as [| b | n | s | l Hl] using value_list_ind.
  - reflexivity.
  - destruct b; reflexivity.
  - cbn [Json.dumps]. unfold Py.str_of_int, pretty, pretty_Z.
    destruct n as [|p|p]; [reflexivity|apply (pretty_N_no_newline (N.pos p))|].
    change ("-" +:+ pretty p) with (String "-" (pretty (N.pos p))).
    cbn [Py.all_chars]. rewrite (pretty_N_no_newline (N.pos p)). reflexivity.
  - cbn [Json.dumps]. unfold Json.dumps_str. cbn [Py.all_chars].
    rewrite all_chars_app, escape_no_newline. reflexivity.
  - cbn [Json.dumps]. push_append. cbn [Py.all_chars].
    rewrite all_chars_app. cbn [Py.all_chars].
    assert (Hj : Py.all_chars not_newline (Py.join ", " (map Json.dumps l)) = true).
    { induction Hl as [|v l Hv Hl IH]; [reflexivity|].
      destruct l as [|v' l]; [exact Hv|].
      cbn [map] in IH |- *. rewrite join_cons, !all_chars_app, Hv, IH.
      reflexivity. }
    rewrite Hj. reflexivity.
Qed.

(** ** The records of the extractor can be written and read back *)

Lemma writable_insert (r : record) k v :
  Py.all_chars not_newline k = true -> writable r -> writable (<[k := v]> r).
Proof.
  intros Hk [Hid Hkeys]. split.
  - apply lookup_insert_is_Some'. right. exact Hid.
  - intros k' H. apply lookup_insert_is_Some' in H as [<-|H]; [exact Hk|].
    apply Hkeys, H.
Qed.

Lemma writable_inserts (r : record) :
  is_Some (r !! "id") ->
  (forall k, is_Some (r !! k) -> Py.all_chars not_newline k = true) ->
  writable r.
Proof. intros H1 H2. split; assumption. Qed.

Lemma keys_ok_empty k :
  is_Some ((∅ : record) !! k) -> Py.all_chars not_newline k = true.
Proof. rewrite lookup_empty. intros [? ?]; discriminate. Qed.

Lemma keys_ok_insert (r : record) k0 v :
  Py.all_chars not_newline k0 = true ->
  (forall k, is_Some (r !! k) -> Py.all_chars not_newline k = true) ->
  forall k, is_Some (<[k0 := v]> r !! k) -> Py.all_chars not_newline k = true.
Proof.
  intros H0 Hr k H. apply lookup_insert_is_Some' in H as [<-|H]; [exact H0|].
  apply Hr, H.
Qed.

Lemma mem_In x l : Py.mem x l = true -> In x l.
Proof.
  unfold Py.mem. intros H. apply existsb_exists in H as (y & Hy & E).
  apply String.eqb_eq in E. subst y. exact Hy.
Qed.

Lemma meta_key_ok label :
  Py.mem label target_keys_meta = true ->
  Py.all_chars not_newline label = true.
Proof.
  intros H. apply mem_In in H.
  assert (E : forallb (Py.all_chars not_newline) target_keys_meta = true)
    by (vm_compute; reflexivity).
  rewrite forallb_forall in E. apply E, H.
Qed.

Lemma vocabulary_key_ok K :
  In K desc_vocabulary -> Py.all_chars not_newline K = true.
Proof.
  intros H.
  assert (E : forallb (Py.all_chars not_newline) desc_vocabulary = true)
    by (vm_compute; reflexivity).
  rewrite forallb_forall in E. apply E, H.
Qed.

Section Writable.

Variable iso_to_minute : string -> option string.
Variable strptime_ymd : string -> option string.
Variable keys : list string.
Hypothesis keys_order : Permutation keys desc_vocabulary.

Lemma store_time_writable key attr (r r' : record) :
  Py.all_chars not_newline key = true ->
  store_time iso_to_minute key attr r = Some r' ->
  writable r -> writable r'.
Proof.
  intros Hk. unfold store_time.
  destruct attr as [[|c s]|]; try (intros [= <-]; exact id).
  destruct (format_utc _ _); [|discriminate].
  intros [= <-]. apply writable_insert, Hk.
Qed.

Lemma metadata_field_writable (r : record) field :
  writable r -> writable (metadata_field strptime_ymd r field).
Proof.
  intros Hr. unfold metadata_field.
  destruct (mf_label field) as [text|]; [|exact Hr].
  destruct (Py.mem (Py.strip text) target_keys_meta) eqn:Hmem; [|exact Hr].
  cbn [negb].
  assert (Hkey : Py.all_chars not_newline
                   (if String.eqb (Py.strip text) "Reported"
                    then "Metadata_Reported_Date" else Py.strip text) = true).
  { destruct (String.eqb _ "Reported"); [reflexivity|].
    apply meta_key_ok, Hmem. }
  destruct (Py.mem _ user_data_keys).
  - apply writable_insert; assumption.
  - destruct (mf_value field); [|exact Hr].
    apply writable_insert; assumption.
Qed.

Lemma scan_events_writable events (r r' : record) :
  scan_events iso_to_minute events r = Some r' -> writable r -> writable r'.
Proof.
  induction events as [|ev events IH]; cbn [scan_events].
  - intros [= <-]. exact id.
  - assert (Hfound : forall infos : record,
      match ev_time ev with
      | Some attr => store_time iso_to_minute "fixed_time" attr infos
      | None => Some infos
      end = Some r' -> writable infos -> writable r').
    { intros infos. destruct (ev_time ev).
      - apply store_time_writable. reflexivity.
      - intros [= <-]. exact id. }
    destruct (ev_comment ev) as [text|]; [|exact IH].
    destruct (fixed_line _).
    + intros H Hr. apply (Hfound _ H). apply writable_insert; [reflexivity|exact Hr].
    + destruct (Py.contains _ text); [|exact IH].
      destruct (ev_revisions_link ev); [|exact IH].
      intros H Hr. apply (Hfound _ H). apply writable_insert; [reflexivity|exact Hr].
Qed.

Lemma description_line_writable (st : record * option string) line :
  cursor_ok st.2 -> writable st.1 ->
  writable (description_line keys st line).1
  /\ cursor_ok (description_line keys st line).2.
Proof.
  destruct st as [r cur]. cbn [fst snd]. intros Hcur Hr.
  unfold description_line.
  destruct (String.eqb (strip_line line) ""); [split; [exact Hr|exact I]|].
  destruct (match_label keys (strip_line line)) as [[K v]|] eqn:Hm.
  { apply (match_label_in keys keys_order) in Hm. split; [|exact Hm].
    apply writable_insert; [apply vocabulary_key_ok, Hm|exact Hr]. }
  destruct cur as [K|]; [|split; [exact Hr|exact I]].
  destruct (_ || _); [split; [exact Hr|exact I]|].
  pose proof (vocabulary_key_ok K Hcur) as HK.
  destruct (r !! K) as [[| | |e|l]|]; try (split; [exact Hr|exact Hcur]).
  - destruct (String.eqb e ""); (split; [|exact Hcur]);
      apply writable_insert; assumption.
  - split; [|exact Hcur]. apply writable_insert; assumption.
Qed.

Lemma extract_description_writable pg (r : record) :
  writable r -> writable (extract_description keys pg r).
Proof.
  intros Hr. unfold extract_description.
  destruct (pg_description pg) as [text|]; [|exact Hr].
  unfold parse_description, description_lines.
  assert (H : forall lines st, cursor_ok st.2 -> writable st.1 ->
            writable (fold_left (description_line keys) lines st).1).
  { induction lines as [|line lines IH]; intros st Hc Hst; [exact Hst|].
    cbn [fold_left].
    destruct (description_line_writable st line Hc Hst) as [Hw Hc'].
    apply IH; assumption. }
  apply H; [exact I|exact Hr].
Qed.

Lemma scrape_key_writable pg (r : record) entry :
  In entry url_keys_to_scrape ->
  writable r -> writable (scrape_key pg r entry).
Proof.
  intros Hin Hr. unfold scrape_key. destruct entry as [info_key prefix].
  destruct (r !! info_key) as [[| | |sub_url|]|]; try exact Hr.
  destruct (_ && _); [|exact Hr].
  destruct (scrape_revision_details _ _); [|exact Hr].
  simpl in Hin.
  destruct Hin as [[= <- <-]|[[= <- <-]|[[= <- <-]|[]]]];
    repeat (apply writable_insert; [reflexivity|]); exact Hr.
Qed.

Lemma extract_revisions_writable pg (r : record) :
  writable r -> writable (extract_revisions pg r).
Proof.
  unfold extract_revisions.
  assert (H : forall entries r0,
            (forall e, In e entries -> In e url_keys_to_scrape) ->
            writable r0 -> writable (fold_left (scrape_key pg) entries r0)).
  { induction entries as [|e entries IH]; intros r0 Hsub Hr0; [exact Hr0|].
    cbn [fold_left]. apply IH; [intros; apply Hsub; right; assumption|].
    apply scrape_key_writable; [apply Hsub; left; reflexivity|exact Hr0]. }
  apply H. auto.
Qed.

(** Every record that the extractor returns holds an [id], and none of
    its keys holds a line break. *)
Lemma get_issue_writable issue_no pg r :
  get_issue iso_to_minute strptime_ymd keys issue_no pg = Some r ->
  writable r.
Proof.
  unfold get_issue. destruct (negb _).
  - intros [= <-]. unfold failed_load_record. apply writable_inserts.
    + rewrite lookup_insert_eq. eexists; reflexivity.
    + repeat (apply keys_ok_insert; [reflexivity|]). apply keys_ok_empty.
  - set (r0 := extract_hotlists pg (extract_title pg _)).
    assert (H0 : writable r0).
    { subst r0. unfold extract_hotlists, extract_title.
      assert (Hbase : writable
                (<["error" := VBool false]>
                   (<["url" := VStr (pg_url pg)]>
                      (<["id" := VStr (List.last (Py.split "/" (pg_url pg)) "")]>
                         (∅ : record))))).
      { apply writable_inserts.
        - rewrite !lookup_insert_ne, lookup_insert_eq by discriminate.
          eexists; reflexivity.
        - repeat (apply keys_ok_insert; [reflexivity|]). apply keys_ok_empty. }
      assert (Ht : writable (extract_title pg
                (<["error" := VBool false]>
                   (<["url" := VStr (pg_url pg)]>
                      (<["id" := VStr (List.last (Py.split "/" (pg_url pg)) "")]>
                         (∅ : record)))))).
      { unfold extract_title.
        destruct (pg_title pg), (pg_header_title pg);
          apply writable_insert; (reflexivity || exact Hbase). }
      unfold extract_title in Ht.
      destruct (pg_hotlists pg); [|exact Ht].
      destruct (List.filter _ _); [exact Ht|].
      apply writable_insert; [reflexivity|exact Ht]. }
    destruct (extract_reported_time iso_to_minute pg r0) as [r1|] eqn:E1;
      [|discriminate].
    cbn [mbind option_bind].
    destruct (extract_fixed iso_to_minute pg
                (extract_metadata strptime_ymd pg r1)) as [r2|] eqn:E2;
      [|discriminate].
    cbn [mbind option_bind]. intros [= <-].
    apply extract_revisions_writable, extract_description_writable.
    assert (H1 : writable r1).
    { unfold extract_reported_time in E1. destruct (pg_reported pg).
      - apply (store_time_writable "reported_time" _ _ _ eq_refl E1 H0).
      - injection E1 as <-. exact H0. }
    assert (Hm : writable (extract_metadata strptime_ymd pg r1)).
    { unfold extract_metadata. destruct (pg_metadata pg) as [fields|]; [|exact H1].
      revert H1. generalize r1. induction fields as [|f fields IH];
        intros r' Hr'; [exact Hr'|].
      cbn [fold_left]. apply IH, metadata_field_writable, Hr'. }
    unfold extract_fixed in E2. destruct (pg_events pg).
    + apply (scan_events_writable _ _ _ E2 Hm).
    + injection E2 as <-. exact Hm.
Qed.

End Writable.

(** ** Reading a batch back *)

Lemma dict_row_fold (f : string -> string) header (d : gmap string string) k :
  fold_left (fun d kv => <[kv.1 := kv.2]> d) (zip header (map f header)) d !! k
  = if bool_decide (k ∈ header) then Some (f k) else d !! k.
Proof.
  revert d. induction header as [|x header IH]; intros d; [reflexivity|].
  cbn [map zip zip_with fold_left fst snd]. rewrite IH.
  destruct (decide (k = x)) as [->|Hne].
  - rewrite lookup_insert_eq.
    rewrite (bool_decide_eq_true_2 (x ∈ x :: header)) by (left).
    destruct (bool_decide (x ∈ header)); reflexivity.
  - rewrite lookup_insert_ne by congruence.
    destruct (bool_decide (k ∈ header)) eqn:E.
    + apply bool_decide_eq_true_1 in E.
      rewrite bool_decide_eq_true_2 by (right; exact E). reflexivity.
    + apply bool_decide_eq_false_1 in E.
      rewrite bool_decide_eq_false_2; [reflexivity|].
      intros H. apply elem_of_cons in H as [?|?]; [congruence|contradiction].
Qed.

Lemma dict_row_lookup header (item : record) k :
  dict_row header (row_dict header item) !! k
  = if bool_decide (k ∈ header) then Some (Json.dumps (get item k)) else None.
Proof.
  unfold dict_row, row_dict.
  rewrite (dict_row_fold (fun key => Json.dumps (get item key))).
  rewrite lookup_empty. reflexivity.
Qed.

Lemma decode_row_dumps header (item : record) :
  exists r, decode_row (dict_row header (row_dict header item)) = Some r
            /\ forall k, r !! k = if bool_decide (k ∈ header)
                                  then Some (get item k) else None.
Proof.
  unfold decode_row. rewrite bool_decide_eq_true_2.
  - eexists. split; [reflexivity|]. intros k.
    rewrite lookup_omap, dict_row_lookup.
    destruct (bool_decide (k ∈ header)); [|reflexivity].
    cbn [mbind option_bind]. apply loads_dumps.
  - intros k cell Hk. rewrite dict_row_lookup in Hk.
    destruct (bool_decide (k ∈ header)); [|discriminate].
    injection Hk as <-. rewrite loads_dumps. eexists; reflexivity.
Qed.

Lemma csv_header_elem data_list k :
  k ∈ csv_header data_list <-> k ∈ all_keys data_list.
Proof.
  unfold csv_header. rewrite sorted_perm. apply elem_of_elements.
Qed.

Lemma all_keys_elem data_list k :
  k ∈ all_keys data_list <->
  exists item : record, item ∈ data_list /\ is_Some (item !! k).
Proof.
  unfold all_keys. rewrite elem_of_union_list. split.
  - intros (X & HX & Hk). apply list_elem_of_fmap in HX as (item & -> & Hitem).
    exists item. split; [exact Hitem|]. apply elem_of_dom. exact Hk.
  - intros (item & Hitem & Hk). exists (dom item). split.
    + apply list_elem_of_fmap. exists item. split; [reflexivity|exact Hitem].
    + apply elem_of_dom. exact Hk.
Qed.

(** ** The cell of an absent key *)

Lemma row_dict_lookup header (item : record) i key :
  header !! i = Some key ->
  row_dict header item !! i = Some (Json.dumps (get item key)).
Proof.
  unfold row_dict. revert i. induction header as [|k header IH]; intros [|i];
    cbn [map]; try discriminate.
  - intros [= ->]. reflexivity.
  - apply IH.
Qed.

(** C9: a header key that a record lacks is written as the JSON text
    [null]: the row of the record in the batch file holds the cell
    [null] at every position of the key in the header, and the key has
    such a position; read through [csv.DictReader] that row holds
    [null] under the key, which [json.loads] decodes to [None]. It is
    the text written for a key that holds [None]: the row and the batch
    file are the same whether the record lacks the key or holds [None]
    under it. *)
Theorem absent_key_written_as_null (before after : list record)
    (item : record) (key : string) :
  item !! key = None ->
  key ∈ all_keys (before ++ item :: after) ->
  let header := csv_header (before ++ item :: after) in
  Json.dumps (get item key) = "null"
  /\ (exists i, header !! i = Some key)
  /\ (forall i, header !! i = Some key ->
        row_dict header item !! i = Some "null")
  /\ save_to_csv (before ++ item :: after)
     = Some (Csv.writerows
               (header :: map (row_dict header) before
                          ++ row_dict header item
                             :: map (row_dict header) after))
  /\ dict_row header (row_dict header item) !! key = Some "null"
  /\ Json.loads "null" = Some VNone
  /\ row_dict header item = row_dict header (<[key := VNone]> item)
  /\ save_to_csv (before ++ item :: after)
     = save_to_csv (before ++ <[key := VNone]> item :: after).
Proof.
  intros Hnone Hin header.
  assert (Hnull : Json.dumps (get item key) = "null").
  { unfold get. rewrite Hnone. reflexivity. }
  assert (Hrow : forall header,
            row_dict header item = row_dict header (<[key := VNone]> item)).
  { intros h. unfold row_dict. apply map_ext. intros k.
    rewrite get_insert_none by exact Hnone. reflexivity. }
  assert (Hkeys : all_keys (before ++ <[key := VNone]> item :: after)
                  = all_keys (before ++ item :: after)).
  { rewrite all_keys_app, all_keys_cons in Hin.
    rewrite !all_keys_app, !all_keys_cons, dom_insert_L. set_solver. }
  assert (Hhead : key ∈ header) by (apply csv_header_elem, Hin).
  split; [exact Hnull|].
  split; [apply list_elem_of_lookup_1, Hhead|].
  split.
  { intros i Hi. rewrite (row_dict_lookup _ _ _ _ Hi), Hnull. reflexivity. }
  split.
  { rewrite save_to_csv_nonempty by (destruct before; discriminate).
    fold header. rewrite List.map_app. reflexivity. }
  split.
  { rewrite dict_row_lookup, bool_decide_eq_true_2 by exact Hhead.
    rewrite Hnull. reflexivity. }
  split; [reflexivity|].
  split; [apply Hrow|].
  rewrite !save_to_csv_nonempty by (destruct before; discriminate).
  unfold csv_header. rewrite Hkeys, !List.map_app. cbn [map].
  rewrite (Hrow (Py.sorted String.leb (elements (all_keys (before ++ item :: after))))).
  reflexivity.
Qed.

Lemma absent_key_written_as_null_witness :
  let full : record := <["id" := VStr "1"]> (<["title" := VStr "t"]> ∅) in
  let partial : record := <["id" := VStr "2"]> ∅ in
  row_dict (csv_header ([full] ++ partial :: [])) partial !! 1 = Some "null"
  /\ save_to_csv ([full] ++ partial :: [])
     = save_to_csv ([full] ++ <["title" := VNone]> partial :: []).
Proof.
  intros full partial.
  destruct (absent_key_written_as_null [full] [] partial "title")
    as (_ & _ & Hcell & _ & _ & _ & _ & Hfile).
  - reflexivity.
  - vm_compute. reflexivity.
  - split; [|exact Hfile]. apply Hcell. vm_compute. reflexivity.
Defined.

Lemma mapM_map_Some {A B C} (f : B -> option C) (g : A -> B) (h : A -> C) l :
  (forall x, x ∈ l -> f (g x) = Some (h x)) ->
  mapM f (map g l) = Some (map h l).
Proof.
  induction l as [|x l IH]; intros H; [reflexivity|].
  cbn [map mapM]. rewrite H by left. cbn [mbind option_bind].
  rewrite IH by (intros y Hy; apply H; right; exact Hy). reflexivity.
Qed.

Lemma filter_all {A} (p : A -> bool) l :
  (forall x, In x l -> p x = true) -> List.filter p l = l.
Proof.
  induction l as [|x l IH]; intros H; [reflexivity|].
  cbn [List.filter]. rewrite (H x) by (left; reflexivity).
  rewrite IH by (intros y Hy; apply H; right; exact Hy). reflexivity.
Qed.

Lemma field_fits_null : field_fits "null".
Proof. unfold field_fits, Csv.field_limit. cbn [String.length]. lia. Qed.

Lemma fits_cells (item : record) k :
  fits item -> field_fits (Json.dumps (get item k)).
Proof.
  intros Hfit. unfold get. destruct (item !! k) as [v|] eqn:E.
  - apply (Hfit k v E).
  - apply field_fits_null.
Qed.

Lemma dict_reader_batch (data_list : list record) :
  data_list <> [] ->
  (forall item, item ∈ data_list -> writable item) ->
  (forall item, item ∈ data_list -> fits item) ->
  let header := csv_header data_list in
  "id" ∈ header
  /\ dict_reader
       (Py.file_lines true
          (Csv.writerows (header :: map (row_dict header) data_list)))
     = (Some header,
        map (fun item => dict_row header (row_dict header item)) data_list,
        true).
Proof.
  intros Hne Hw Hfit header.
  assert (Hin : "id" ∈ header).
  { destruct data_list as [|item l]; [congruence|].
    apply csv_header_elem, all_keys_elem. exists item.
    split; [left|apply (Hw item); left]. }
  split; [exact Hin|].
  assert (Hclean : List.Forall
            (List.Forall (fun f => Py.all_chars not_newline f = true))
            (header :: map (row_dict header) data_list)).
  { constructor.
    - apply List.Forall_forall. intros k Hk.
      apply list_elem_of_In, csv_header_elem, all_keys_elem in Hk
        as (item & Hitem & Hk).
      apply (Hw item Hitem), Hk.
    - apply List.Forall_forall. intros row Hrow.
      apply List.in_map_iff in Hrow as (item & <- & _).
      apply List.Forall_forall. intros cell Hcell.
      apply List.in_map_iff in Hcell as (k & <- & _). apply dumps_no_newline. }
  assert (Hsize : List.Forall (List.Forall field_fits)
            (header :: map (row_dict header) data_list)).
  { constructor.
    - apply List.Forall_forall. intros k Hk.
      apply list_elem_of_In, csv_header_elem, all_keys_elem in Hk
        as (item & Hitem & [v Hv]).
      apply (Hfit item Hitem k v Hv).
    - apply List.Forall_forall. intros row Hrow.
      apply List.in_map_iff in Hrow as (item & <- & Hitem).
      apply List.Forall_forall. intros cell Hcell.
      apply List.in_map_iff in Hcell as (k & <- & _).
      apply fits_cells, Hfit, list_elem_of_In, Hitem. }
  unfold dict_reader. rewrite (reader_writerows _ Hclean Hsize).
  rewrite filter_all.
  - rewrite List.map_map. reflexivity.
  - intros row Hrow. apply List.in_map_iff in Hrow as (item & <- & _).
    apply negb_true_iff, bool_decide_eq_false_2.
    unfold row_dict. destruct header; [inversion Hin|discriminate].
Qed.

(** C6, as the code has it: a batch of records that all hold an [id],
    with keys free of line breaks (as every record of the extractor is,
    [get_issue_writable]) and with every key and every cell within the
    limit of the reader on the characters of a field, is written to a
    file that reads back, cell by cell through [json.loads], as one
    record per record of the batch, in order; each record read back
    holds every key of the original with the same value ([None],
    boolean, integer, text or list, nested lists included), and [None]
    under the header keys the original lacks. *)
Theorem batch_round_trip (data_list : list record) :
  data_list <> [] ->
  (forall item, item ∈ data_list -> writable item) ->
  (forall item, item ∈ data_list -> fits item) ->
  exists file records,
    save_to_csv data_list = Some file
    /\ read_back file = Some records
    /\ Forall2
         (fun (item r : record) =>
            (forall key v, item !! key = Some v -> r !! key = Some v)
            /\ (forall key, item !! key = None ->
                  r !! key = if bool_decide (key ∈ all_keys data_list)
                             then Some VNone else None))
         data_list records.
Proof.
  intros Hne Hw Hfit.
  set (header := csv_header data_list).
  exists (Csv.writerows (header :: map (row_dict header) data_list)),
         (map (read_back_record header) data_list).
  split; [apply save_to_csv_nonempty, Hne|].
  destruct (dict_reader_batch data_list Hne Hw Hfit) as [_ Hread].
  fold header in Hread.
  split.
  - unfold read_back. rewrite Hread. apply mapM_map_Some. intros item _.
    unfold decode_row, read_back_record. rewrite bool_decide_eq_true_2;
      [reflexivity|].
    intros k cell Hk. rewrite dict_row_lookup in Hk.
    destruct (bool_decide (k ∈ header)); [|discriminate].
    injection Hk as <-. rewrite loads_dumps. eexists; reflexivity.
  - apply Forall2_fmap_r, Forall_Forall2_diag, Forall_forall.
    intros item Hitem.
    assert (Hlook : forall k, read_back_record header item !! k
                      = if bool_decide (k ∈ all_keys data_list)
                        then Some (get item k) else None).
    { intros k. unfold read_back_record.
      rewrite lookup_omap, dict_row_lookup.
      rewrite (bool_decide_ext (k ∈ header) (k ∈ all_keys data_list))
        by apply csv_header_elem.
      destruct (bool_decide _); [|reflexivity].
      cbn [mbind option_bind]. apply loads_dumps. }
    split.
    + intros key v Hv. rewrite Hlook, bool_decide_eq_true_2.
      * unfold get. rewrite Hv. reflexivity.
      * apply all_keys_elem. exists item. split; [exact Hitem|].
        rewrite Hv. eexists; reflexivity.
    + intros key Hnone. rewrite Hlook. unfold get. rewrite Hnone. reflexivity.
Qed.

Lemma batch_round_trip_witness :
  exists file records,
    save_to_csv sample_batch = Some file
    /\ read_back file = Some records
    /\ length records = length sample_batch.
Proof.
  destruct (batch_round_trip sample_batch) as (file & records & Hs & Hr & Hf).
  - intros E. apply (f_equal length) in E. vm_compute in E. discriminate.
  - intros item Hitem. unfold sample_batch in Hitem.
    apply list_elem_of_omap in Hitem as (pg & _ & Hpg).
    apply (get_issue_writable _ _ desc_vocabulary (Permutation_refl _) _ _ _ Hpg).
  - assert (Hall : bool_decide (List.Forall fits sample_batch) = true)
      by (vm_compute; reflexivity).
    apply bool_decide_eq_true_1 in Hall.
    intros item Hitem.
    apply (proj1 (List.Forall_forall _ _) Hall), list_elem_of_In, Hitem.
  - exists file, records. split; [exact Hs|]. split; [exact Hr|].
    apply Forall2_length in Hf. symmetry. exact Hf.
Defined.

(** ** The processed IDs of a batch that was written *)

Lemma id_of_row_batch header (item : record) :
  "id" ∈ header ->
  id_of_row (dict_row header (row_dict header item))
  = id_of_value (get item "id").
Proof.
  intros Hin. unfold id_of_row.
  rewrite dict_row_lookup, bool_decide_eq_true_2 by exact Hin.
  destruct (dumps_head (get item "id")) as (c & s & E & _).
  rewrite E, <- E, loads_dumps. reflexivity.
Qed.

(** The IDs that [load_processed_ids_from_csvs] reads from a batch file
    are those of the [id] values of the records that were written. *)
Lemma ids_of_persisted_batch (data_list : list record) name file processed_ids :
  data_list <> [] ->
  (forall item, item ∈ data_list -> writable item) ->
  (forall item, item ∈ data_list -> fits item) ->
  Py.endswith ".csv" name = true ->
  save_to_csv data_list = Some file ->
  ids_of_file processed_ids (name, file) = ids_of_items data_list processed_ids.
Proof.
  intros Hne Hw Hfit Hname Hfile.
  rewrite save_to_csv_nonempty in Hfile by exact Hne. injection Hfile as <-.
  destruct (dict_reader_batch data_list Hne Hw Hfit) as [Hin Hread].
  unfold ids_of_file. rewrite Hname, Hread.
  assert (Hmem : Py.mem "id" (csv_header data_list) = true).
  { unfold Py.mem. apply existsb_exists. exists "id".
    split; [apply list_elem_of_In, Hin|reflexivity]. }
  rewrite Hmem. clear Hread Hne Hw Hfit Hmem.
  revert processed_ids. revert Hin. generalize (csv_header data_list).
  intros header Hh.
  induction data_list as [|item l IH]; intros acc; [reflexivity|].
  cbn [map ids_of_rows ids_of_items]. rewrite (id_of_row_batch header item Hh).
  destruct (id_of_value _); [apply IH|apply IH|reflexivity].
Qed.

(** ** Worker *)

Lemma collected_cons rp reports :
  collected (rp :: reports) = (collected [rp] ++ collected reports)%list.
Proof.
  unfold collected. destruct rp as [r|]; cbn; [|reflexivity].
  destruct (bool_decide (r = ∅)); reflexivity.
Qed.

Lemma collected_some (r : record) reports :
  is_Some (r !! "id") ->
  collected (Some r :: reports) = r :: collected reports.
Proof.
  intros Hid. unfold collected. cbn [omap list_omap id].
  cbn [List.filter]. rewrite bool_decide_eq_false_2; [reflexivity|].
  intros ->. rewrite lookup_empty in Hid. destruct Hid; discriminate.
Qed.

Lemma saved_save_batch w :
  (concat (map fst (saved (save_batch w))) ++ results_batch (save_batch w)
   = concat (map fst (saved w)) ++ results_batch w)%list.
Proof.
  cbn. rewrite List.map_app, concat_app. cbn. rewrite !app_nil_r. reflexivity.
Qed.

Lemma worker_step_flat save_interval w rp :
  let w' := worker_step save_interval w rp in
  (concat (map fst (saved w')) ++ results_batch w'
   = (concat (map fst (saved w)) ++ results_batch w) ++ collected [rp])%list.
Proof.
  cbn zeta. unfold worker_step.
  set (w1 := match rp with Some _ => _ | None => _ end).
  assert (H1 : (concat (map fst (saved w1)) ++ results_batch w1
                = (concat (map fst (saved w)) ++ results_batch w)
                  ++ collected [rp])%list);
    [|destruct (_ <=? _)%nat; [rewrite saved_save_batch|]; exact H1].
  subst w1. destruct rp as [r|].
  - unfold collected. cbn. destruct (bool_decide (r = ∅)); cbn.
    + rewrite app_nil_r. reflexivity.
    + rewrite app_assoc. reflexivity.
  - unfold collected. cbn. rewrite app_nil_r.
    destruct (results_batch w) eqn:E; cbn [saved results_batch].
    + rewrite E. reflexivity.
    + rewrite <- E. apply saved_save_batch.
Qed.

Lemma worker_fold_flat save_interval reports w :
  let w' := fold_left (worker_step save_interval) reports w in
  (concat (map fst (saved w')) ++ results_batch w'
   = (concat (map fst (saved w)) ++ results_batch w) ++ collected reports)%list.
Proof.
  revert w. induction reports as [|rp reports IH]; intros w; cbn zeta.
  - cbn. rewrite app_nil_r. reflexivity.
  - cbn [fold_left]. rewrite IH, worker_step_flat, (collected_cons rp reports), app_assoc.
    reflexivity.
Qed.

Lemma worker_loop_flat save_interval reports :
  concat (map fst (worker_loop save_interval reports)) = collected reports.
Proof.
  unfold worker_loop.
  pose proof (worker_fold_flat save_interval reports (Worker [] 1 [] 0)) as H.
  cbn zeta in H. cbn [saved results_batch map concat app] in H.
  destruct (results_batch _) eqn:E.
  - rewrite app_nil_r in H. exact H.
  - rewrite List.map_app, concat_app. cbn. rewrite app_nil_r. exact H.
Qed.

Lemma worker_ok_save save_interval w :
  results_batch w <> [] -> length (results_batch w) <= save_interval ->
  0 < save_interval ->
  file_counter w = S (length (saved w)) ->
  map snd (saved w) = seq 1 (length (saved w)) ->
  List.Forall (fun call => call.1 <> [] /\ length call.1 <= save_interval)
    (saved w) ->
  worker_ok save_interval (save_batch w).
Proof.
  intros Hne Hle Hpos Hc Hs Hf. unfold worker_ok, save_batch.
  cbn [results_batch file_counter saved].
  rewrite length_app, Nat.add_1_r, List.map_app, seq_S, Hs, Hc.
  split; [exact Hpos|]. split; [reflexivity|]. split; [reflexivity|].
  apply List.Forall_app. split; [exact Hf|].
  constructor; [|constructor]. split; assumption.
Qed.

Lemma worker_step_ok save_interval w rp :
  0 < save_interval ->
  worker_ok save_interval w -> worker_ok save_interval (worker_step save_interval w rp).
Proof.
  intros Hpos (Hlen & Hc & Hs & Hf). unfold worker_step.
  destruct rp as [r|].
  - destruct (bool_decide (r = ∅)).
    + destruct (Nat.leb_spec save_interval (length (results_batch w))); [lia|].
      repeat split; assumption.
    + cbn [results_batch].
      destruct (Nat.leb_spec save_interval (length (results_batch w ++ [r])%list))
        as [Hge|Hlt].
      * rewrite length_app in Hge; cbn [length] in Hge.
        apply worker_ok_save; cbn [results_batch file_counter saved];
          try assumption.
        -- destruct (results_batch w); discriminate.
        -- rewrite length_app; cbn [length]. lia.
      * repeat split; assumption.
  - destruct (results_batch w) as [|r0 l] eqn:E.
    + cbn [results_batch]. rewrite E.
      destruct (Nat.leb_spec save_interval (length (@nil record)));
        [cbn [length] in *; lia|].
      repeat split; cbn [results_batch file_counter saved];
        rewrite ?E; assumption.
    + assert (Hok : worker_ok save_interval (save_batch w)).
      { apply worker_ok_save; rewrite ?E; try assumption; [discriminate|lia]. }
      cbn [results_batch save_batch file_counter saved].
      destruct (Nat.leb_spec save_interval (length (@nil record)));
        [cbn [length] in *; lia|].
      exact Hok.
Qed.

Lemma worker_fold_ok save_interval reports w :
  0 < save_interval ->
  worker_ok save_interval w ->
  worker_ok save_interval (fold_left (worker_step save_interval) reports w).
Proof.
  intros Hpos. revert w. induction reports as [|rp reports IH]; intros w Hw;
    [exact Hw|].
  cbn [fold_left]. apply IH, worker_step_ok; assumption.
Qed.

Lemma worker_ok_start save_interval :
  0 < save_interval -> worker_ok save_interval (Worker [] 1 [] 0).
Proof. intros H. repeat split; [exact H|constructor]. Qed.

Lemma worker_loop_calls save_interval reports :
  0 < save_interval ->
  let calls := worker_loop save_interval reports in
  List.Forall (fun call => call.1 <> [] /\ length call.1 <= save_interval) calls
  /\ map snd calls = seq 1 (length calls).
Proof.
  intros Hpos calls. subst calls. unfold worker_loop.
  destruct (worker_fold_ok save_interval reports _ Hpos
              (worker_ok_start _ Hpos)) as (Hlen & Hc & Hs & Hf).
  destruct (results_batch _) as [|r l] eqn:E; [split; assumption|].
  split.
  - apply List.Forall_app. split; [exact Hf|]. constructor; [|constructor].
    cbn [fst]. split; [discriminate|]. lia.
  - rewrite List.map_app, length_app, Nat.add_1_r, seq_S, Hs, Hc. reflexivity.
Qed.

(** ** File names *)

Lemma int_acc_app acc a b v :
  Py.int_acc acc a = Some v -> Py.int_acc acc (a ++ b) = Py.int_acc v b.
Proof.
  revert acc. induction a as [|c a IH]; intros acc; push_append; cbn [Py.int_acc].
  - intros [= ->]. reflexivity.
  - destruct (Py.isdecimal c); [apply IH|discriminate].
Qed.

Lemma int_acc_zeros k : Py.int_acc 0 (zeros k) = Some 0%Z.
Proof. induction k as [|k IH]; [reflexivity|exact IH]. Qed.

Lemma int_acc_pretty_N (x : N) : Py.int_acc 0 (pretty x) = Some (Z.of_N x).
Proof.
  unfold pretty, pretty_N. destruct (decide (x = 0)%N) as [->|Hx]; [reflexivity|].
  apply int_acc_pretty.
Qed.

Lemma int_acc_format_03d n : Py.int_acc 0 (format_03d n) = Some (Z.of_nat n).
Proof.
  unfold format_03d. cbn zeta.
  rewrite (int_acc_app _ _ _ _ (int_acc_zeros _)).
  change (pretty n) with (pretty (N.of_nat n)).
  rewrite int_acc_pretty_N. f_equal. lia.
Qed.

Lemma append_inv_tail (a b t : string) : a ++ t = b ++ t -> a = b.
Proof.
  revert b. induction a as [|x a IH]; intros [|y b]; push_append; intros H.
  - reflexivity.
  - apply (f_equal String.length) in H. cbn [String.length] in H.
    rewrite length_append in H. lia.
  - apply (f_equal String.length) in H. cbn [String.length] in H.
    rewrite length_append in H. lia.
  - injection H as -> H. f_equal. apply IH, H.
Qed.

Lemma batch_file_name_inj a b : batch_file_name a = batch_file_name b -> a = b.
Proof.
  unfold batch_file_name. intros H. apply append_inv_tail in H.
  apply (f_equal (Py.int_acc 0)) in H. rewrite !int_acc_format_03d in H.
  injection H as H. lia.
Qed.

Lemma substring_append (a b : string) :
  String.substring (String.length a) (String.length b) (a ++ b) = b.
Proof.
  induction a as [|c a IH]; push_append.
  - cbn [String.length]. induction b as [|c b IHb]; [reflexivity|].
    cbn [String.length String.substring]. rewrite IHb. reflexivity.
  - cbn [String.length String.substring]. exact IH.
Qed.

Lemma endswith_append (a suffix : string) : Py.endswith suffix (a ++ suffix) = true.
Proof.
  unfold Py.endswith. rewrite length_append.
  replace (String.length a + String.length suffix - String.length suffix)
    with (String.length a) by lia.
  rewrite substring_append, String.eqb_refl.
  apply andb_true_iff. split; [apply Nat.leb_le; lia|reflexivity].
Qed.

Lemma written_files_all calls :
  List.Forall (fun call : list record * nat => call.1 <> []) calls ->
  written_files calls
  = map (fun call =>
           (batch_file_name call.2,
            Csv.writerows (csv_header call.1
                           :: map (row_dict (csv_header call.1)) call.1)))
      calls.
Proof.
  induction 1 as [|call calls Hne _ IH]; [reflexivity|].
  unfold written_files in *. cbn [omap list_omap].
  rewrite (save_to_csv_nonempty _ Hne). cbn [fmap option_fmap option_map].
  rewrite IH. reflexivity.
Qed.

(** X1: with a positive interval the worker writes one file for each call
    of [save_to_csv], under the names of the indices 1, 2, ...; the
    names are pairwise distinct, so that no file of the run is written
    over, and each ends in [.csv]. *)
Theorem worker_file_names save_interval reports :
  0 < save_interval ->
  let calls := worker_loop save_interval reports in
  let names := map fst (written_files calls) in
  names = map batch_file_name (seq 1 (length calls))
  /\ NoDup names
  /\ List.Forall (fun name => Py.endswith ".csv" name = true) names.
Proof.
  intros Hpos calls names.
  destruct (worker_loop_calls save_interval reports Hpos) as [Hf Hs].
  fold calls in Hf, Hs.
  assert (Hnames : names = map batch_file_name (seq 1 (length calls))).
  { subst names. rewrite written_files_all.
    - rewrite List.map_map. cbn [fst]. rewrite <- Hs, List.map_map. reflexivity.
    - eapply List.Forall_impl; [|exact Hf]. intros call [H _]. exact H. }
  split; [exact Hnames|]. rewrite Hnames. split.
  - apply (NoDup_fmap_2_strong batch_file_name).
    + intros a b _ _. apply batch_file_name_inj.
    + apply NoDup_ListNoDup, List.seq_NoDup.
  - apply List.Forall_forall. intros name Hin.
    apply List.in_map_iff in Hin as (k & <- & _). apply endswith_append.
Qed.

(** ** The processed IDs of a directory *)

Lemma ids_of_rows_union rows (acc : gset Z) :
  ids_of_rows rows acc = acc ∪ ids_of_rows rows ∅.
Proof.
  revert acc. induction rows as [|row rows IH]; intros acc; cbn [ids_of_rows].
  - set_solver.
  - destruct (id_of_row row).
    + rewrite (IH ({[n]} ∪ acc)), (IH ({[n]} ∪ ∅)). set_solver.
    + apply IH.
    + set_solver.
Qed.

Lemma ids_of_file_union (acc : gset Z) file :
  ids_of_file acc file = acc ∪ ids_of_file ∅ file.
Proof.
  unfold ids_of_file. destruct file as [filename text].
  destruct (Py.endswith ".csv" filename); [|set_solver].
  destruct (dict_reader _) as [[[fieldnames|] rows] ok]; [|set_solver].
  destruct (Py.mem "id" fieldnames); [apply ids_of_rows_union|set_solver].
Qed.

Lemma load_fold_union files (acc : gset Z) :
  fold_left ids_of_file files acc = acc ∪ fold_left ids_of_file files ∅.
Proof.
  revert acc. induction files as [|f files IH]; intros acc; cbn [fold_left].
  - set_solver.
  - rewrite (IH (ids_of_file acc f)), (IH (ids_of_file ∅ f)).
    rewrite (ids_of_file_union acc f). set_solver.
Qed.

Lemma load_processed_ids_app files1 files2 :
  load_processed_ids_from_csvs (Some (files1 ++ files2)%list)
  = load_processed_ids_from_csvs (Some files1)
    ∪ load_processed_ids_from_csvs (Some files2).
Proof.
  unfold load_processed_ids_from_csvs.
  rewrite fold_left_app. apply load_fold_union.
Qed.

(** X2: the processed IDs of a directory are the union of those of its
    files: the IDs of two groups of files taken together are the union
    of the IDs of each group, in whichever order the groups are
    walked, so that a file can only add IDs. *)
Theorem processed_ids_union files1 files2 :
  load_processed_ids_from_csvs (Some (files1 ++ files2)%list)
  = load_processed_ids_from_csvs (Some files1)
    ∪ load_processed_ids_from_csvs (Some files2)
  /\ load_processed_ids_from_csvs (Some (files2 ++ files1)%list)
     = load_processed_ids_from_csvs (Some (files1 ++ files2)%list).
Proof.
  assert (H : forall a b,
            load_processed_ids_from_csvs (Some (a ++ b)%list)
            = load_processed_ids_from_csvs (Some a)
              ∪ load_processed_ids_from_csvs (Some b)).
  { intros a b. unfold load_processed_ids_from_csvs.
    rewrite fold_left_app. apply load_fold_union. }
  split; [apply H|]. rewrite !H. set_solver.
Qed.

Lemma ids_of_items_elem items (acc : gset Z) n :
  (forall item, In item items -> id_of_value (get item "id") <> RaiseValueError) ->
  n ∈ ids_of_items items acc
  <-> n ∈ acc \/ exists item, In item items /\ id_of_value (get item "id") = AddId n.
Proof.
  revert acc. induction items as [|item items IH]; intros acc Hok;
    cbn [ids_of_items].
  - split; [auto|]. intros [H|(item & [] & _)]. exact H.
  - assert (Hok' : forall it, In it items ->
                     id_of_value (get it "id") <> RaiseValueError)
      by (intros it Hit; apply Hok; right; exact Hit).
    pose proof (Hok item (or_introl eq_refl)) as Hitem.
    destruct (id_of_value (get item "id")) as [m| |] eqn:E; [| |congruence].
    + rewrite (IH _ Hok'), elem_of_union, elem_of_singleton. split.
      * intros [[->|H]|(it & Hit & Hn)].
        -- right. exists item. split; [left; reflexivity|exact E].
        -- left. exact H.
        -- right. exists it. split; [right; exact Hit|exact Hn].
      * intros [H|(it & [<-|Hit] & Hn)].
        -- left. right. exact H.
        -- left. left. congruence.
        -- right. exists it. split; assumption.
    + rewrite (IH _ Hok'). split.
      * intros [H|(it & Hit & Hn)]; [left; exact H|].
        right. exists it. split; [right; exact Hit|exact Hn].
      * intros [H|(it & [<-|Hit] & Hn)]; [left; exact H|congruence|].
        right. exists it. split; assumption.
Qed.

Lemma batch_file_ids (data_list : list record) name file n :
  data_list <> [] ->
  (forall item, item ∈ data_list -> writable item) ->
  (forall item, item ∈ data_list -> fits item) ->
  (forall item, In item data_list ->
     id_of_value (get item "id") <> RaiseValueError) ->
  Py.endswith ".csv" name = true ->
  save_to_csv data_list = Some file ->
  n ∈ load_processed_ids_from_csvs (Some [(name, file)])
  <-> exists item, In item data_list /\ id_of_value (get item "id") = AddId n.
Proof.
  intros Hne Hw Hfit Hok Hname Hfile.
  unfold load_processed_ids_from_csvs. cbn [fold_left].
  rewrite (ids_of_persisted_batch data_list name file ∅ Hne Hw Hfit Hname Hfile).
  rewrite (ids_of_items_elem _ _ _ Hok). split.
  - intros [H|H]; [set_solver|exact H].
  - intros H. right. exact H.
Qed.

(** X3: when a batch is written by [save_to_csv] and its file is later
    scanned by [load_processed_ids_from_csvs], the IDs found are exactly
    the integers of the [id] values of the records of the batch that are
    texts of digits (or integers); this for records that hold an [id],
    have keys without line breaks, have every key and every cell within
    the limit of the reader on the characters of a field, and none of
    whose [id] is a text of digits that [int] rejects. *)
Theorem processed_ids_of_batch_file (data_list : list record) name file :
  data_list <> [] ->
  (forall item, item ∈ data_list -> writable item) ->
  (forall item, item ∈ data_list -> fits item) ->
  (forall item, In item data_list ->
     id_of_value (get item "id") <> RaiseValueError) ->
  Py.endswith ".csv" name = true ->
  save_to_csv data_list = Some file ->
  forall n,
    n ∈ load_processed_ids_from_csvs (Some [(name, file)])
    <-> exists item, In item data_list /\ id_of_value (get item "id") = AddId n.
Proof.
  intros Hne Hw Hfit Hok Hname Hfile n.
  unfold load_processed_ids_from_csvs. cbn [fold_left].
  rewrite (ids_of_persisted_batch data_list name file ∅ Hne Hw Hfit Hname Hfile).
  rewrite (ids_of_items_elem _ _ _ Hok). split.
  - intros [H|H]; [set_solver|exact H].
  - intros H. right. exact H.
Qed.

Lemma processed_ids_of_batch_file_witness :
  123%Z ∈ load_processed_ids_from_csvs
            (Some [("001.csv", default "" (save_to_csv prior_batch))]).
Proof.
  apply (processed_ids_of_batch_file prior_batch "001.csv").
  - discriminate.
  - intros item Hitem. apply list_elem_of_singleton in Hitem as ->.
    apply writable_inserts.
    + rewrite lookup_insert_eq. eexists; reflexivity.
    + repeat (apply keys_ok_insert; [reflexivity|]). apply keys_ok_empty.
  - assert (Hall : bool_decide (List.Forall fits prior_batch) = true)
      by (vm_compute; reflexivity).
    apply bool_decide_eq_true_1 in Hall.
    intros item Hitem.
    apply (proj1 (List.Forall_forall _ _) Hall), list_elem_of_In, Hitem.
  - intros item [<-|[]]. vm_compute. discriminate.
  - reflexivity.
  - reflexivity.
  - eexists. split; [left; reflexivity|]. vm_compute. reflexivity.
Defined.

(** ** The work list *)

Lemma target_ids_none lines (acc : gset Z) :
  target_ids lines acc = None
  <-> exists line, In line lines /\ Py.isdigit (Py.strip line) = true
                   /\ Py.int (Py.strip line) = None.
Proof.
  revert acc. induction lines as [|line lines IH]; intros acc; cbn [target_ids].
  - split; [discriminate|]. intros (l & [] & _).
  - destruct (Py.isdigit (Py.strip line)) eqn:Hd.
    + destruct (Py.int (Py.strip line)) as [m|] eqn:Hm.
      * rewrite IH. split.
        -- intros (l & Hl & H). exists l. split; [right; exact Hl|exact H].
        -- intros (l & [<-|Hl] & Hd' & Hi); [congruence|].
           exists l. split; [exact Hl|]. split; assumption.
      * split; [|reflexivity]. intros _. exists line.
        split; [left; reflexivity|]. split; assumption.
    + rewrite IH. split.
      * intros (l & Hl & H). exists l. split; [right; exact Hl|exact H].
      * intros (l & [<-|Hl] & Hd' & Hi); [congruence|].
        exists l. split; [exact Hl|]. split; assumption.
Qed.

Lemma target_ids_elem lines (acc ids : gset Z) :
  target_ids lines acc = Some ids ->
  forall n, n ∈ ids <-> n ∈ acc \/ exists line, In line lines /\ digit_line line n.
Proof.
  intros H. destruct (target_ids_spec lines acc) as (ids' & Hids & Hin).
  - intros line Hl Hd. destruct (Py.int (Py.strip line)) eqn:E;
      [eexists; reflexivity|].
    assert (Hn : target_ids lines acc = None).
    { apply target_ids_none. exists line. repeat split; assumption. }
    congruence.
  - assert (ids' = ids) by congruence. subst ids'. exact Hin.
Qed.

Lemma sorted_desc (l : list Z) :
  NoDup l -> Sorted (fun a b => Z.geb a b = true) l -> StronglySorted Z.gt l.
Proof.
  induction l as [|a l IH]; intros Hnd Hs; [constructor|].
  apply NoDup_cons in Hnd as [Ha Hnd].
  apply Sorted_inv in Hs as [Hs Hhd].
  specialize (IH Hnd Hs). constructor; [exact IH|].
  destruct l as [|b l]; [constructor|].
  apply HdRel_inv in Hhd. apply Z.geb_le in Hhd.
  assert (Hab : (a > b)%Z).
  { assert (a <> b) by (intros ->; apply Ha; left). lia. }
  constructor; [exact Hab|].
  apply StronglySorted_inv in IH as [_ Hall].
  eapply List.Forall_impl; [|exact Hall]. intros c Hc. cbv beta in Hc. lia.
Qed.

Lemma ids_to_process_spec select_ids text merged_exists filter_conditions
    base_dir ids :
  ids_to_process select_ids (Some text) merged_exists filter_conditions base_dir
  = Some ids ->
  (forall n, In n ids <->
     ((exists line, In line (Py.file_lines true text) /\ digit_line line n)
      /\ n ∉ load_processed_ids_from_csvs base_dir)
     \/ In n (rescrape_ids select_ids merged_exists filter_conditions))
  /\ StronglySorted Z.gt ids.
Proof.
  unfold ids_to_process.
  destruct (target_ids _ ∅) as [targets|] eqn:Ht; [|discriminate].
  intros [= <-].
  set (work := (targets ∖ _) ∪ list_to_set _).
  assert (Hperm : Permutation (Py.sorted Z.geb (elements work)) (elements work))
    by apply sorted_perm.
  split.
  - intros n. rewrite <- list_elem_of_In, Hperm, elem_of_elements.
    subst work. rewrite elem_of_union, elem_of_difference, elem_of_list_to_set.
    rewrite (target_ids_elem _ _ _ Ht n), <- list_elem_of_In.
    split.
    + intros [[[H|H] Hn]|H]; [set_solver|left; split; assumption|right; exact H].
    + intros [[H Hn]|H]; [left; split; [right; exact H|exact Hn]|right; exact H].
  - apply sorted_desc.
    + rewrite Hperm. apply NoDup_elements.
    + apply sorted_sorted. intros a b H.
      apply Z.geb_le. rewrite Z.geb_leb in H. apply Z.leb_gt in H. lia.
Qed.

(** X4: whatever the re-scrape filter, the work list holds exactly the
    integers of the digit lines of the target file that are not among
    the processed IDs, together with every ID that the filter selects:
    a selected ID is scheduled even when it is already processed or
    absent from the target file. The list is strictly descending, hence
    without duplicates. When the merged table is missing the filter
    selects nothing. *)
Theorem work_list_with_filter select_ids text merged_exists filter_conditions
    base_dir ids :
  ids_to_process select_ids (Some text) merged_exists filter_conditions base_dir
  = Some ids ->
  (forall n, In n ids <->
     ((exists line, In line (Py.file_lines true text) /\ digit_line line n)
      /\ n ∉ load_processed_ids_from_csvs base_dir)
     \/ (merged_exists = true /\ filter_conditions <> []
         /\ In n (select_ids filter_conditions)))
  /\ StronglySorted Z.gt ids.
Proof.
  intros H. destruct (ids_to_process_spec _ _ _ _ _ _ H) as [Hin Hs].
  split; [|exact Hs]. intros n. rewrite Hin.
  unfold rescrape_ids. destruct merged_exists; cbn [negb].
  - destruct filter_conditions as [|c cs].
    + split; (intros [?|?]; [left; assumption|]); [contradiction|].
      destruct H0 as (_ & Hne & _). congruence.
    + split; (intros [?|?]; [left; assumption|right]).
      * repeat split; [discriminate|assumption].
      * destruct H0 as (_ & _ & ?). assumption.
  - split; (intros [?|?]; [left; assumption|]); [contradiction|].
    destruct H0 as (? & _). discriminate.
Qed.

Lemma work_list_with_filter_witness :
  ids_to_process (fun _ => [7%Z; 123%Z]) (Some target_text) true
    [("Fuzzer", CondStr "Fuzzer binary:")] prior_dir
  = Some [456%Z; 123%Z; 7%Z]
  /\ StronglySorted Z.gt [456%Z; 123%Z; 7%Z].
Proof.
  assert (H : ids_to_process (fun _ => [7%Z; 123%Z]) (Some target_text) true
                [("Fuzzer", CondStr "Fuzzer binary:")] prior_dir
              = Some [456%Z; 123%Z; 7%Z]) by (vm_compute; reflexivity).
  split; [exact H|].
  exact (proj2 (work_list_with_filter _ _ _ _ _ _ H)).
Defined.

(** X5: [main] stops before it has a work list exactly when the target
    file is missing or one of its lines, stripped, passes [str.isdigit]
    and is rejected by [int] (a line with a superscript digit). *)
Theorem main_returns_early select_ids target_file merged_exists
    filter_conditions base_dir :
  ids_to_process select_ids target_file merged_exists filter_conditions base_dir
  = None
  <-> target_file = None
      \/ exists text line,
           target_file = Some text
           /\ In line (Py.file_lines true text)
           /\ Py.isdigit (Py.strip line) = true
           /\ Py.int (Py.strip line) = None.
Proof.
  unfold ids_to_process. destruct target_file as [text|].
  - destruct (target_ids _ ∅) as [targets|] eqn:Ht.
    + split; [discriminate|]. intros [H|(t & line & [= <-] & Hl & Hd & Hi)];
        [discriminate|].
      assert (Hn : target_ids (Py.file_lines true text) ∅ = None).
      { apply target_ids_none. exists line. repeat split; assumption. }
      congruence.
    + split; [|reflexivity]. intros _. right.
      apply target_ids_none in Ht as (line & Hl & Hd & Hi).
      exists text, line. repeat split; assumption.
  - split; [left; reflexivity|reflexivity].
Qed.

(** ** From one run to the next *)

Lemma isdigit_pretty_N (x : N) : Py.isdigit (pretty x) = true.
Proof.
  unfold pretty, pretty_N. destruct (decide (x = 0)%N) as [->|Hx]; [reflexivity|].
  unfold Py.isdigit. apply andb_true_iff. split.
  - destruct (pretty_head x) as (c & s & -> & _); [lia|reflexivity].
  - apply (all_chars_impl Py.isdecimal); [|apply all_decimal_pretty].
    intros c H. unfold Py.isdigit_char. rewrite H. reflexivity.
Qed.

Lemma int_pretty_N (x : N) : Py.int (pretty x) = Some (Z.of_N x).
Proof.
  pose proof (isdigit_pretty_N x) as Hd. pose proof (int_acc_pretty_N x) as Hi.
  unfold Py.int. destruct (pretty x); [discriminate|exact Hi].
Qed.

Lemma id_of_decimal_text (n : Z) :
  (0 <= n)%Z -> id_of_value (VStr (Py.str_of_int n)) = AddId n.
Proof.
  intros Hn. unfold id_of_value, Py.str_of_int.
  assert (E : pretty n = pretty (Z.to_N n)).
  { destruct n as [|p|p]; [reflexivity|reflexivity|lia]. }
  rewrite E, isdigit_pretty_N, int_pretty_N. f_equal. lia.
Qed.

Lemma load_processed_ids_file files file n :
  In file files ->
  n ∈ load_processed_ids_from_csvs (Some [file]) ->
  n ∈ load_processed_ids_from_csvs (Some files).
Proof.
  intros Hin Hn. apply List.in_split in Hin as (l1 & l2 & ->).
  rewrite load_processed_ids_app.
  change (file :: l2) with ([file] ++ l2)%list.
  rewrite load_processed_ids_app. set_solver.
Qed.

Lemma worker_files_hold save_interval reports (r : record) n :
  0 < save_interval ->
  (forall item, In item (collected reports) ->
     writable item /\ fits item
     /\ id_of_value (get item "id") <> RaiseValueError) ->
  In r (collected reports) ->
  id_of_value (get r "id") = AddId n ->
  n ∈ load_processed_ids_from_csvs
        (Some (written_files (worker_loop save_interval reports))).
Proof.
  intros Hpos Hok Hr Hn.
  destruct (worker_loop_calls save_interval reports Hpos) as [Hf _].
  cbn zeta in Hf.
  rewrite <- (worker_loop_flat save_interval reports) in Hr, Hok.
  set (calls := worker_loop save_interval reports) in *.
  apply in_concat in Hr as (batch & Hbatch & Hr).
  apply List.in_map_iff in Hbatch as (call & <- & Hcall).
  pose proof (proj1 (List.Forall_forall _ _) Hf call Hcall) as [Hne _].
  apply (load_processed_ids_file _
           (batch_file_name call.2,
            Csv.writerows (csv_header call.1
                           :: map (row_dict (csv_header call.1)) call.1))).
  - rewrite written_files_all.
    + apply List.in_map_iff. exists call. split; [reflexivity|exact Hcall].
    + eapply List.Forall_impl; [|exact Hf]. intros c [H _]. exact H.
  - assert (Hsub : forall item, In item call.1 ->
                     In item (concat (map fst calls))).
    { intros item Hitem. apply in_concat. exists call.1.
      split; [apply List.in_map, Hcall|exact Hitem]. }
    apply (batch_file_ids call.1); try assumption.
    + intros item Hitem. apply list_elem_of_In in Hitem.
      apply (Hok item (Hsub item Hitem)).
    + intros item Hitem. apply list_elem_of_In in Hitem.
      apply (Hok item (Hsub item Hitem)).
    + intros item Hitem. apply (Hok item (Hsub item Hitem)).
    + apply endswith_append.
    + apply save_to_csv_nonempty, Hne.
    + exists r. split; [exact Hr|exact Hn].
Qed.

(** X6: a record that the worker collected and whose [id] is the decimal
    text of an integer [n] makes [n] a processed ID of any directory
    that holds the files of the worker, and with an empty re-scrape
    filter a later run does not schedule [n]; this holds of the record
    of a page that never loaded, whose [id] is the text of the issue
    number. The records are taken to hold an [id] that [int] does not
    reject and keys without line breaks, as the records of the
    extractor do, and to have every key and every cell within the limit
    of the reader on the characters of a field: a file with a longer
    field is abandoned by the scan. *)
Theorem collected_id_not_rescheduled select_ids save_interval reports
    others (r : record) (n : Z) :
  0 < save_interval ->
  (forall item, In item (collected reports) ->
     writable item /\ fits item
     /\ id_of_value (get item "id") <> RaiseValueError) ->
  In r (collected reports) ->
  (0 <= n)%Z ->
  r !! "id" = Some (VStr (Py.str_of_int n)) ->
  let base_dir :=
    Some (others ++ written_files (worker_loop save_interval reports))%list in
  n ∈ load_processed_ids_from_csvs base_dir
  /\ (forall text merged_exists ids,
        ids_to_process select_ids (Some text) merged_exists [] base_dir = Some ids ->
        ~ In n ids)
  /\ failed_load_record n !! "id" = Some (VStr (Py.str_of_int n)).
Proof.
  intros Hpos Hok Hr Hn Hid base_dir.
  assert (Hin : n ∈ load_processed_ids_from_csvs base_dir).
  { subst base_dir. rewrite load_processed_ids_app.
    apply elem_of_union. right.
    apply (worker_files_hold save_interval reports r n Hpos Hok Hr).
    unfold get. rewrite Hid. apply id_of_decimal_text, Hn. }
  split; [exact Hin|]. split; [|reflexivity].
  intros text merged_exists ids Hids Hmem.
  apply (ids_to_process_spec _ _ _ _ _ _ Hids) in Hmem as [[_ Hnot]|Hre].
  - apply Hnot, Hin.
  - unfold rescrape_ids in Hre. destruct merged_exists; exact Hre.
Qed.

Lemma failed_load_record_writable n : writable (failed_load_record n).
Proof.
  unfold failed_load_record. apply writable_inserts.
  - rewrite lookup_insert_eq. eexists; reflexivity.
  - repeat (apply keys_ok_insert; [reflexivity|]). apply keys_ok_empty.
Qed.

Lemma collected_witness n :
  collected [Some (failed_load_record n)] = [failed_load_record n].
Proof.
  rewrite (collected_some (failed_load_record n) []); [reflexivity|].
  apply failed_load_record_writable.
Qed.

Lemma collected_id_not_rescheduled_witness :
  7%Z ∈ load_processed_ids_from_csvs
          (Some (written_files
                   (worker_loop save_interval_default
                      [Some (failed_load_record 7)]))).
Proof.
  apply (collected_id_not_rescheduled (fun _ => []) save_interval_default
           [Some (failed_load_record 7)] [] (failed_load_record 7) 7).
  - unfold save_interval_default. lia.
  - rewrite collected_witness. intros item [<-|[]]. split; [|split].
    + apply failed_load_record_writable.
    + assert (Hfit : bool_decide (fits (failed_load_record 7)) = true)
        by (vm_compute; reflexivity).
      apply bool_decide_eq_true_1 in Hfit. exact Hfit.
    + assert (E : get (failed_load_record 7) "id" = VStr (Py.str_of_int 7))
        by (unfold get, failed_load_record; rewrite lookup_insert_eq;
            reflexivity).
      rewrite E, id_of_decimal_text by lia. discriminate.
  - rewrite collected_witness. left. reflexivity.
  - lia.
  - unfold failed_load_record. apply lookup_insert_eq.
Defined.

(** ** A run in which no issue raises *)

Lemma length_concat_full {A} (i : nat) (calls : list (list A * nat)) :
  List.Forall (fun call => length call.1 = i) calls ->
  length (concat (map fst calls)) = i * length calls.
Proof.
  induction 1 as [|call calls Hc _ IH]; cbn [map concat length]; [lia|].
  rewrite length_app, IH, Hc. lia.
Qed.

Lemma worker_step_full save_interval w (r : record) :
  is_Some (r !! "id") ->
  worker_ok save_interval w ->
  List.Forall (fun call => length call.1 = save_interval) (saved w) ->
  List.Forall (fun call => length call.1 = save_interval)
    (saved (worker_step save_interval w (Some r))).
Proof.
  intros Hid (Hlen & _) Hfull. unfold worker_step.
  rewrite bool_decide_eq_false_2
    by (intros ->; rewrite lookup_empty in Hid; destruct Hid; discriminate).
  cbn [results_batch].
  destruct (Nat.leb_spec save_interval (length (results_batch w ++ [r])%list))
    as [Hge|Hlt]; [|exact Hfull].
  cbn [save_batch saved results_batch file_counter].
  apply List.Forall_app. split; [exact Hfull|].
  constructor; [|constructor]. cbn [fst].
  rewrite length_app in Hge |- *. cbn [length] in Hge |- *. lia.
Qed.

Lemma worker_fold_full save_interval (records : list record) w :
  0 < save_interval ->
  (forall r, In r records -> is_Some (r !! "id")) ->
  worker_ok save_interval w ->
  List.Forall (fun call => length call.1 = save_interval) (saved w) ->
  List.Forall (fun call => length call.1 = save_interval)
    (saved (fold_left (worker_step save_interval) (map Some records) w)).
Proof.
  intros Hpos. revert w. induction records as [|r records IH];
    intros w Hid Hok Hfull; [exact Hfull|].
  cbn [map fold_left]. apply IH.
  - intros r' Hr'. apply Hid. right. exact Hr'.
  - apply worker_step_ok; assumption.
  - apply worker_step_full; [apply Hid; left; reflexivity|exact Hok|exact Hfull].
Qed.

Lemma collected_records (records : list record) :
  (forall r, In r records -> is_Some (r !! "id")) ->
  collected (map Some records) = records.
Proof.
  induction records as [|r records IH]; intros Hid; [reflexivity|].
  cbn [map]. rewrite collected_some by (apply Hid; left; reflexivity).
  rewrite IH by (intros r' Hr'; apply Hid; right; exact Hr'). reflexivity.
Qed.

Lemma worker_loop_full save_interval (records : list record) :
  0 < save_interval ->
  (forall r, In r records -> is_Some (r !! "id")) ->
  let calls := worker_loop save_interval (map Some records) in
  List.Forall (fun call => length call.1 = save_interval) (removelast calls)
  /\ length calls = ceil_div (length records) save_interval.
Proof.
  intros Hpos Hid calls.
  pose proof (worker_loop_flat save_interval (map Some records)) as Hflat.
  rewrite (collected_records records Hid) in Hflat.
  apply (f_equal (@length record)) in Hflat.
  subst calls. unfold worker_loop in *.
  pose proof (worker_fold_full save_interval records _ Hpos Hid
                (worker_ok_start _ Hpos) (List.Forall_nil _)) as Hfull.
  destruct (worker_fold_ok save_interval (map Some records) _ Hpos
              (worker_ok_start _ Hpos)) as (Hlen & _).
  set (w := fold_left _ _ _) in *.
  pose proof (length_concat_full _ _ Hfull) as Hsum.
  destruct (results_batch w) as [|r l] eqn:E.
  - split.
    + clear -Hfull. induction Hfull as [|c cs Hc Hcs IH]; [constructor|].
      destruct cs; [constructor|]. constructor; [exact Hc|exact IH].
    + rewrite Hsum in Hflat. unfold ceil_div.
      apply (Nat.div_unique _ _ _ (save_interval - 1)); lia.
  - rewrite removelast_last. split; [exact Hfull|].
    rewrite List.map_app, concat_app, !length_app in Hflat.
    cbn [map concat length fst] in Hflat.
    rewrite app_nil_r, Hsum in Hflat. cbn [length] in Hlen, Hflat.
    rewrite length_app. cbn [length]. unfold ceil_div.
    apply (Nat.div_unique _ _ _ (length l)); lia.
Qed.

(** ** The extractor returns when the time formats are accepted *)

Lemma store_time_returns iso key attr (r : record) :
  (forall s, is_Some (iso s)) -> is_Some (store_time iso key attr r).
Proof.
  intros Hiso. unfold store_time, format_utc.
  destruct attr as [[|c s]|]; try (eexists; reflexivity).
  destruct (Hiso (Py.replace "Z" "+00:00" (String c s))) as [t ->].
  eexists; reflexivity.
Qed.

Lemma scan_events_returns iso events (r : record) :
  (forall s, is_Some (iso s)) -> is_Some (scan_events iso events r).
Proof.
  intros Hiso. revert r.
  induction events as [|ev events IH]; intros r; cbn [scan_events];
    [eexists; reflexivity|].
  destruct (ev_comment ev); [|apply IH].
  destruct (fixed_line _).
  - destruct (ev_time ev); [apply store_time_returns, Hiso|eexists; reflexivity].
  - destruct (Py.contains _ _); [|apply IH].
    destruct (ev_revisions_link ev); [|apply IH].
    destruct (ev_time ev); [apply store_time_returns, Hiso|eexists; reflexivity].
Qed.

Lemma get_issue_returns iso ymd keys issue_no pg :
  (forall s, is_Some (iso s)) -> is_Some (get_issue iso ymd keys issue_no pg).
Proof.
  intros Hiso. unfold get_issue.
  destruct (negb _); [eexists; reflexivity|].
  set (r0 := extract_hotlists pg (extract_title pg _)).
  assert (H1 : is_Some (extract_reported_time iso pg r0)).
  { unfold extract_reported_time. destruct (pg_reported pg);
      [apply store_time_returns, Hiso|eexists; reflexivity]. }
  destruct H1 as [r1 ->]. cbn [mbind option_bind].
  assert (H2 : is_Some (extract_fixed iso pg (extract_metadata ymd pg r1))).
  { unfold extract_fixed. destruct (pg_events pg);
      [apply scan_events_returns, Hiso|eexists; reflexivity]. }
  destruct H2 as [r2 ->]. cbn [mbind option_bind]. eexists; reflexivity.
Qed.

Lemma imap_reports {A} (f : nat -> A -> option record) (l : list A) :
  (forall k x, exists r : record, f k x = Some r /\ is_Some (r !! "id")) ->
  exists records,
    imap f l = map Some records
    /\ length records = length l
    /\ forall r, In r records -> is_Some (r !! "id").
Proof.
  revert f. induction l as [|x l IH]; intros f Hf.
  - exists []. repeat split. intros r [].
  - destruct (Hf 0 x) as (r & Hr & Hid).
    destruct (IH (f ∘ S)) as (records & Hrec & Hlen & Hids).
    { intros k y. apply Hf. }
    exists (r :: records). cbn [imap map length]. rewrite Hr, Hrec, Hlen.
    repeat split. intros r' [<-|Hr']; [exact Hid|apply Hids, Hr'].
Qed.

Section Run.

Variable iso_to_minute : string -> option string.
Variable strptime_ymd : string -> option string.
Variable keys : list string.
Hypothesis keys_order : Permutation keys desc_vocabulary.

(** X7: a worker whose session accepts every time format, so that no
    issue raises, collects one record per issue; with a positive
    interval it writes [ceil(n / save_interval)] files for [n] issues,
    and every call of [save_to_csv] but the last gets exactly
    [save_interval] records. *)
Theorem run_without_exception (issue_numbers : list Z) (session : nat -> page)
    (save_interval : nat) :
  (forall s, is_Some (iso_to_minute s)) ->
  0 < save_interval ->
  let reports :=
    imap (fun i issue_no =>
            get_issue iso_to_minute strptime_ymd keys issue_no (session i))
      issue_numbers in
  let calls := worker_loop save_interval reports in
  length (collected reports) = length issue_numbers
  /\ length (run_scraper_instance iso_to_minute strptime_ymd keys
               issue_numbers session save_interval)
     = ceil_div (length issue_numbers) save_interval
  /\ List.Forall (fun call => length call.1 = save_interval) (removelast calls).
Proof.
  intros Hiso Hpos reports calls.
  destruct (imap_reports
              (fun i issue_no =>
                 get_issue iso_to_minute strptime_ymd keys issue_no (session i))
              issue_numbers) as (records & Hrec & Hlen & Hids).
  { intros k issue_no.
    destruct (get_issue_returns iso_to_minute strptime_ymd keys issue_no
                (session k) Hiso) as [r Hr].
    exists r. split; [exact Hr|].
    apply (get_issue_writable _ _ keys keys_order _ _ _ Hr). }
  unfold run_scraper_instance. subst calls reports. rewrite Hrec.
  destruct (worker_loop_full save_interval records Hpos Hids) as [Hfull Hcount].
  destruct (worker_loop_calls save_interval (map Some records) Hpos) as [Hf _].
  cbn zeta in Hfull, Hcount, Hf.
  split; [rewrite collected_records by exact Hids; exact Hlen|].
  split; [|exact Hfull].
  rewrite written_files_all.
  - rewrite length_map, Hcount, Hlen. reflexivity.
  - eapply List.Forall_impl; [|exact Hf]. intros c [H _]. exact H.
Qed.

End Run.

Lemma run_without_exception_witness :
  length (run_scraper_instance (fun s => Some s) (fun s => Some s)
            desc_vocabulary [42535201%Z; 7%Z; 8%Z]
            (fun i => match i with O => untitled_page | _ => throttled_page end)
            2)
  = ceil_div 3 2.
Proof.
  apply (run_without_exception (fun s => Some s) (fun s => Some s)
           desc_vocabulary (Permutation_refl _) [42535201%Z; 7%Z; 8%Z]
           (fun i => match i with O => untitled_page | _ => throttled_page end)
           2).
  - intros s. eexists; reflexivity.
  - lia.
Defined.

(** ** The worker: statements *)

(** X8: whatever the interval and whichever issues raise, the batches
    handed to [save_to_csv], taken in order, hold every collected report
    once and in the order of the issues: an exception or a flush loses
    or repeats none. *)
Theorem worker_saves_every_report save_interval reports :
  concat (map fst (worker_loop save_interval reports)) = collected reports.
Proof.
  unfold worker_loop.
  pose proof (worker_fold_flat save_interval reports (Worker [] 1 [] 0)) as H.
  cbn zeta in H. cbn [saved results_batch map concat app] in H.
  destruct (results_batch _) as [|r l] eqn:E.
  - rewrite app_nil_r in H. exact H.
  - rewrite List.map_app, concat_app. cbn [map concat fst].
    rewrite app_nil_r. exact H.
Qed.

(** X9: with a positive interval, no call of [save_to_csv] gets an empty
    batch or one above the interval, and the calls carry the file
    indices 1, 2, ... in order, whichever issues raise. *)
Theorem worker_batches_bounded save_interval reports :
  0 < save_interval ->
  let calls := worker_loop save_interval reports in
  List.Forall (fun call => call.1 <> [] /\ length call.1 <= save_interval) calls
  /\ map snd calls = seq 1 (length calls).
Proof.
  intros Hpos calls. subst calls. unfold worker_loop.
  destruct (worker_fold_ok save_interval reports _ Hpos
              (worker_ok_start _ Hpos)) as (Hlen & Hc & Hs & Hf).
  destruct (results_batch _) as [|r l] eqn:E; [split; assumption|].
  split.
  - apply List.Forall_app. split; [exact Hf|]. constructor; [|constructor].
    cbn [fst]. split; [discriminate|]. lia.
  - rewrite List.map_app, length_app, Nat.add_1_r, seq_S, Hs, Hc. reflexivity.
Qed.

Lemma worker_batches_bounded_witness :
  map snd (worker_loop 1 [Some (failed_load_record 7); None;
                          Some (failed_load_record 8)])
  = seq 1 (length (worker_loop 1 [Some (failed_load_record 7); None;
                                  Some (failed_load_record 8)])).
Proof.
  apply (worker_batches_bounded 1
           [Some (failed_load_record 7); None; Some (failed_load_record 8)]).
  lia.
Defined.

Lemma worker_file_names_witness :
  NoDup (map fst (written_files
                    (worker_loop 1 [Some (failed_load_record 7); None;
                                    Some (failed_load_record 8)]))).
Proof.
  apply (worker_file_names 1
           [Some (failed_load_record 7); None; Some (failed_load_record 8)]).
  lia.
Defined.

(** ** More text lemmas *)

Lemma join_split sep s : Py.join (String sep "") (Py.split sep s) = s.
Proof.
  induction s as [|c s IH]; [reflexivity|].
  cbn [Py.split]. pose proof (split_nonempty sep s) as Hne.
  destruct (Ascii.eqb_spec c sep) as [->|_].
  - destruct (Py.split sep s) as [|h t] eqn:E; [congruence|].
    change (Py.join (String sep "") ("" :: h :: t))
      with ("" ++ String sep "" ++ Py.join (String sep "") (h :: t)).
    rewrite IH. push_append. reflexivity.
  - destruct (Py.split sep s) as [|h t] eqn:E; [congruence|].
    rewrite <- IH. destruct t as [|h' t]; [reflexivity|].
    change (Py.join (String sep "") (String c h :: h' :: t))
      with (String c h ++ String sep "" ++ Py.join (String sep "") (h' :: t)).
    change (Py.join (String sep "") (h :: h' :: t))
      with (h ++ String sep "" ++ Py.join (String sep "") (h' :: t)).
    push_append. reflexivity.
Qed.

Lemma lstrip_head s :
  match Py.lstrip s with
  | String c _ => Py.isspace c = false
  | EmptyString => True
  end.
Proof.
  induction s as [|c s IH]; [exact I|].
  cbn [Py.lstrip]. destruct (Py.isspace c) eqn:E; [exact IH|exact E].
Qed.

Lemma rstrip_head c s :
  Py.isspace c = false -> exists r, Py.rstrip (String c s) = String c r.
Proof.
  intros Hc. cbn [Py.rstrip]. destruct (Py.rstrip s).
  - rewrite Hc. eexists; reflexivity.
  - eexists; reflexivity.
Qed.

Lemma rstrip_idem s : Py.rstrip (Py.rstrip s) = Py.rstrip s.
Proof.
  induction s as [|c s IH]; [reflexivity|].
  cbn [Py.rstrip]. destruct (Py.rstrip s) as [|d r] eqn:E.
  - destruct (Py.isspace c) eqn:Hc; [reflexivity|].
    cbn [Py.rstrip]. rewrite Hc. reflexivity.
  - cbn [Py.rstrip] in IH |- *. cbn [Py.rstrip]. rewrite IH. reflexivity.
Qed.

Lemma strip_idem s : Py.strip (Py.strip s) = Py.strip s.
Proof.
  unfold Py.strip. pose proof (lstrip_head s) as Hh.
  destruct (Py.lstrip s) as [|c t] eqn:E; [reflexivity|].
  destruct (rstrip_head c t Hh) as [r Hr].
  rewrite Hr. cbn [Py.lstrip]. rewrite Hh, <- Hr. apply rstrip_idem.
Qed.

(** The text after the last occurrence of a separator. *)
Lemma last_split sep s :
  count_char sep (List.last (Py.split sep s) "") = 0
  /\ (0 < count_char sep s ->
      exists p, s = p ++ String sep (List.last (Py.split sep s) "")).
Proof.
  induction s as [|c s IH]; [split; [reflexivity|cbn; lia]|].
  destruct IH as [IH0 IH1].
  pose proof (split_nonempty sep s) as Hne.
  cbn [Py.split count_char]. destruct (Ascii.eqb_spec c sep) as [->|Hc].
  - destruct (Py.split sep s) as [|h t] eqn:E; [congruence|].
    change (List.last ("" :: h :: t) "") with (List.last (h :: t) "").
    split; [exact IH0|]. intros _.
    destruct (Nat.eq_dec (count_char sep s) 0) as [H0|H0].
    + rewrite (split_no_sep _ _ H0) in E. injection E as <- <-.
      exists "". reflexivity.
    + destruct IH1 as [p Hp]; [lia|]. exists (String sep p).
      rewrite Hp at 1. reflexivity.
  - destruct (Py.split sep s) as [|h t] eqn:E; [congruence|].
    destruct t as [|h' t].
    + cbn [List.last] in *. split.
      * cbn [count_char]. destruct (Ascii.eqb_spec c sep); [contradiction|].
        exact IH0.
      * intros H. pose proof (split_length sep s) as Hl. rewrite E in Hl.
        cbn [length] in Hl. cbn in H. lia.
    + change (List.last (String c h :: h' :: t) "")
        with (List.last (h' :: t) "").
      change (List.last (h :: h' :: t) "") with (List.last (h' :: t) "") in *.
      split; [exact IH0|]. intros H. destruct IH1 as [p Hp]; [cbn in H; lia|].
      exists (String c p). rewrite Hp at 1. reflexivity.
Qed.

Lemma contains_char sep s :
  Py.contains (String sep "") s = true <-> 0 < count_char sep s.
Proof.
  induction s as [|c s IH]; cbn [Py.contains Py.startswith count_char].
  - split; [discriminate|lia].
  - rewrite Ascii.eqb_sym. destruct (Ascii.eqb c sep); cbn [andb orb].
    + split; [lia|reflexivity].
    + rewrite IH. cbn. reflexivity.
Qed.

(** ** Revision sub-pages *)

Lemma split_revision_range_join t :
  Py.join ":" (split_revision_range t) = t
  /\ (length (split_revision_range t) = 1 \/ length (split_revision_range t) = 2).
Proof.
  unfold split_revision_range. pose proof (join_split ":" t) as Hj.
  destruct (Py.split ":" t) as [|p0 [|p1 [|p2 ps]]];
    try (split; [reflexivity|left; reflexivity]).
  destruct (_ && _).
  - split; [exact Hj|right; reflexivity].
  - split; [reflexivity|left; reflexivity].
Qed.

Lemma revision_row_shape row comp rev :
  revision_row row = Some (comp, rev) ->
  (comp <> "" /\ Py.strip comp = comp)
  /\ (length rev = 1 \/ length rev = 2)
  /\ Py.join ":" rev <> "" /\ Py.strip (Py.join ":" rev) = Py.join ":" rev.
Proof.
  unfold revision_row. destruct row as [[|c0 [|c1 cells]]|]; try discriminate.
  destruct (String.eqb_spec (Py.strip c0) "") as [|H0]; [discriminate|].
  destruct (String.eqb_spec (Py.strip c1) "") as [|H1]; [discriminate|].
  cbn [negb andb]. intros [= <- <-].
  destruct (split_revision_range_join (Py.strip c1)) as [Hj Hl].
  rewrite Hj. repeat split; try assumption; apply strip_idem.
Qed.

Lemma split_tokens sep s :
  List.Forall (fun t => count_char sep t = 0) (Py.split sep s).
Proof.
  induction s as [|c s IH]; [repeat constructor|].
  cbn [Py.split]. destruct (Ascii.eqb_spec c sep) as [->|Hc].
  - constructor; [reflexivity|exact IH].
  - destruct (Py.split sep s) as [|h t]; [repeat constructor|].
    + cbn [count_char]. destruct (Ascii.eqb_spec c sep); [contradiction|].
      reflexivity.
    + inversion IH as [|? ? Hh Ht]; subst. constructor; [|exact Ht].
      cbn [count_char]. destruct (Ascii.eqb_spec c sep); [contradiction|].
      exact Hh.
Qed.

(** The rows that the loop of [scrape_revision_details] keeps are the
    rows read without an exception that hold two cells or more whose
    first two texts, stripped, are not empty. *)
Lemma revision_rows_kept (rows : list (option (list string))) :
  omap revision_row rows
  = map (fun cells => (Py.strip (nth 0 cells ""),
                       split_revision_range (Py.strip (nth 1 cells ""))))
      (List.filter
         (fun cells => (2 <=? length cells)%nat
                       && negb (String.eqb (Py.strip (nth 0 cells "")) "")
                       && negb (String.eqb (Py.strip (nth 1 cells "")) ""))
         (omap id rows)).
Proof.
  induction rows as [|row rows IH]; [reflexivity|].
  destruct row as [[|c0 [|c1 cells]]|]; try exact IH.
  set (p := fun cells : list string =>
              (2 <=? length cells)%nat
              && negb (String.eqb (Py.strip (nth 0 cells "")) "")
              && negb (String.eqb (Py.strip (nth 1 cells "")) "")) in *.
  set (row := c0 :: c1 :: cells).
  assert (Ho : omap revision_row (Some row :: rows)
               = match revision_row (Some row) with
                 | Some y => y :: omap revision_row rows
                 | None => omap revision_row rows
                 end) by reflexivity.
  assert (Hrow : revision_row (Some row)
                 = if p row
                   then Some (Py.strip c0, split_revision_range (Py.strip c1))
                   else None) by reflexivity.
  assert (Hf : List.filter p (omap id (Some row :: rows))
               = if p row then row :: List.filter p (omap id rows)
                 else List.filter p (omap id rows)) by reflexivity.
  rewrite Ho, Hrow, Hf, IH. destruct (p row); reflexivity.
Qed.

(** X10: a revision page that is scraped gives the components and the
    revision ranges of the rows of its table, in the order of the table:
    of the rows read without an exception it keeps those with two cells
    or more whose first two texts, stripped, are not empty (none when
    the table does not appear); the component of a kept row is the
    stripped text of its first cell and its revision range is
    [split_revision_range] of the stripped text of its second cell. So
    there are as many revision ranges as components; every component is
    a non-empty text without surrounding white space; every revision
    range is a list of one or two tokens that, joined by a colon, give
    back the non-empty stripped text of the cell. The build time is
    absent exactly when the URL holds no equals sign, and otherwise is
    the non-empty list of the tokens, none holding a colon, that joined
    by colons give the text after the last equals sign of the URL. *)
Theorem scrape_revision_details_shape (sp : sub_page) (url_to_scrape : string)
    (rd : revision_data) :
  scrape_revision_details sp url_to_scrape = Some rd ->
  let kept :=
    List.filter
      (fun cells => (2 <=? length cells)%nat
                    && negb (String.eqb (Py.strip (nth 0 cells "")) "")
                    && negb (String.eqb (Py.strip (nth 1 cells "")) ""))
      (omap id (default [] (sp_rows sp))) in
  rd_components rd = map (fun cells => Py.strip (nth 0 cells "")) kept
  /\ rd_revisions rd
     = map (fun cells => split_revision_range (Py.strip (nth 1 cells ""))) kept
  /\ length (rd_components rd) = length (rd_revisions rd)
  /\ List.Forall (fun comp => comp <> "" /\ Py.strip comp = comp)
       (rd_components rd)
  /\ List.Forall
       (fun rev => (length rev = 1 \/ length rev = 2)
                   /\ Py.join ":" rev <> ""
                   /\ Py.strip (Py.join ":" rev) = Py.join ":" rev)
       (rd_revisions rd)
  /\ match rd_buildtime rd with
     | None => count_char "=" url_to_scrape = 0
     | Some tokens =>
         tokens <> []
         /\ List.Forall (fun t => count_char ":" t = 0) tokens
         /\ count_char "=" (Py.join ":" tokens) = 0
         /\ exists p, url_to_scrape = p ++ String "=" (Py.join ":" tokens)
     end.
Proof.
  intros Hrd kept. revert Hrd. unfold scrape_revision_details.
  destruct (negb _); [discriminate|].
  destruct (_ && _); [discriminate|].
  destruct (bool_decide _); [discriminate|].
  intros [= <-].
  cbn [rd_components rd_revisions rd_buildtime].
  set (pairs := match sp_rows sp with Some rows => omap revision_row rows
                                 | None => [] end).
  assert (Hk : pairs
               = map (fun cells => (Py.strip (nth 0 cells ""),
                                    split_revision_range
                                      (Py.strip (nth 1 cells "")))) kept).
  { subst pairs kept. destruct (sp_rows sp) as [rows|]; [|reflexivity].
    apply revision_rows_kept. }
  assert (Hp : List.Forall
            (fun p : string * list string =>
               (p.1 <> "" /\ Py.strip p.1 = p.1)
               /\ (length p.2 = 1 \/ length p.2 = 2)
               /\ Py.join ":" p.2 <> ""
               /\ Py.strip (Py.join ":" p.2) = Py.join ":" p.2) pairs).
  { subst pairs. destruct (sp_rows sp) as [rows|]; [|constructor].
    apply List.Forall_forall. intros [comp rev] Hin.
    apply list_elem_of_In, list_elem_of_omap in Hin as (row & _ & Hrow).
    apply (revision_row_shape _ _ _ Hrow). }
  split; [rewrite Hk, List.map_map; reflexivity|].
  split; [rewrite Hk, List.map_map; reflexivity|].
  split; [rewrite !length_map; reflexivity|].
  split; [|split].
  - apply List.Forall_map. eapply List.Forall_impl; [|exact Hp].
    intros p (H & _). exact H.
  - apply List.Forall_map. eapply List.Forall_impl; [|exact Hp].
    intros p (_ & H). exact H.
  - destruct (Py.contains "=" url_to_scrape) eqn:Hc.
    + split; [apply split_nonempty|].
      split; [apply split_tokens|].
      rewrite join_split.
      destruct (last_split "=" url_to_scrape) as [H0 H1].
      split; [exact H0|]. apply H1, contains_char, Hc.
    + destruct (count_char "=" url_to_scrape) eqn:E; [reflexivity|].
      assert (H : Py.contains "=" url_to_scrape = true)
        by (apply contains_char; lia).
      congruence.
Qed.

Lemma scrape_revision_details_shape_witness :
  exists rd,
    scrape_revision_details (pg_sub_page untitled_page regressed_url)
      regressed_url = Some rd
    /\ rd_components rd = ["libfoo"]
    /\ length (rd_components rd) = length (rd_revisions rd).
Proof.
  assert (H : scrape_revision_details
                (pg_sub_page untitled_page regressed_url) regressed_url
              = Some (RevisionData ["libfoo"]
                        [["aaaaaaaaaaaa"; "bbbbbbbbbbbb"]]
                        (Some ["202301010000"; "202301020000"])))
    by (vm_compute; reflexivity).
  eexists. split; [exact H|].
  destruct (scrape_revision_details_shape _ _ _ H) as (Hc & _ & Hl & _).
  split; [|exact Hl]. rewrite Hc. vm_compute. reflexivity.
Defined.

(** ** The keys that the extractor writes *)

Lemma In_mem x l : In x l -> Py.mem x l = true.
Proof.
  intros H. unfold Py.mem. apply existsb_exists. exists x.
  split; [exact H|apply String.eqb_refl].
Qed.

Section Frame.

Variable iso_to_minute : string -> option string.
Variable strptime_ymd : string -> option string.
Variable keys : list string.
Hypothesis keys_order : Permutation keys desc_vocabulary.

(** The key that is looked at. *)
Variable k0 : string.

Lemma store_time_frame key attr (r r' : record) :
  key <> k0 ->
  store_time iso_to_minute key attr r = Some r' -> r' !! k0 = r !! k0.
Proof.
  intros Hk. unfold store_time.
  destruct attr as [[|c s]|]; try (intros [= <-]; reflexivity).
  destruct (format_utc _ _); [|discriminate].
  intros [= <-]. apply lookup_insert_ne. exact Hk.
Qed.

Lemma extract_title_frame pg (r : record) :
  k0 <> "title" -> k0 <> "error" -> extract_title pg r !! k0 = r !! k0.
Proof.
  intros H1 H2. unfold extract_title.
  destruct (pg_title pg), (pg_header_title pg);
    apply lookup_insert_ne; congruence.
Qed.

Lemma extract_hotlists_frame pg (r : record) :
  k0 <> "hotlists" -> extract_hotlists pg r !! k0 = r !! k0.
Proof.
  intros H. unfold extract_hotlists. destruct (pg_hotlists pg); [|reflexivity].
  destruct (List.filter _ _); [reflexivity|].
  apply lookup_insert_ne. congruence.
Qed.

Lemma metadata_field_frame (r : record) field :
  ~ In k0 (map meta_output_key target_keys_meta) ->
  metadata_field strptime_ymd r field !! k0 = r !! k0.
Proof.
  intros Hk. unfold metadata_field.
  destruct (mf_label field) as [text|]; [|reflexivity].
  destruct (Py.mem (Py.strip text) target_keys_meta) eqn:Hmem; [|reflexivity].
  cbn [negb]. fold (meta_output_key (Py.strip text)).
  assert (Hkey : meta_output_key (Py.strip text) <> k0).
  { intros <-. apply Hk, List.in_map, mem_In, Hmem. }
  destruct (Py.mem _ user_data_keys).
  - apply lookup_insert_ne. exact Hkey.
  - destruct (mf_value field); [|reflexivity].
    apply lookup_insert_ne. exact Hkey.
Qed.

Lemma extract_metadata_frame pg (r : record) :
  ~ In k0 (map meta_output_key target_keys_meta) ->
  extract_metadata strptime_ymd pg r !! k0 = r !! k0.
Proof.
  intros Hk. unfold extract_metadata.
  destruct (pg_metadata pg) as [fields|]; [|reflexivity].
  revert r. induction fields as [|f fields IH]; intros r; [reflexivity|].
  cbn [fold_left]. rewrite IH. apply metadata_field_frame, Hk.
Qed.

Lemma scan_events_frame events (r r' : record) :
  k0 <> "Fixed" -> k0 <> "fixed_time" ->
  scan_events iso_to_minute events r = Some r' -> r' !! k0 = r !! k0.
Proof.
  intros H1 H2. induction events as [|ev events IH]; cbn [scan_events].
  - intros [= <-]. reflexivity.
  - assert (Hfound : forall infos : record,
      infos !! k0 = r !! k0 ->
      match ev_time ev with
      | Some attr => store_time iso_to_minute "fixed_time" attr infos
      | None => Some infos
      end = Some r' -> r' !! k0 = r !! k0).
    { intros infos Hi. destruct (ev_time ev).
      - intros H. rewrite <- Hi.
        apply (store_time_frame "fixed_time" _ _ _ ltac:(congruence) H).
      - intros [= <-]. exact Hi. }
    destruct (ev_comment ev) as [text|]; [|exact IH].
    destruct (fixed_line _).
    + apply Hfound. apply lookup_insert_ne. congruence.
    + destruct (Py.contains _ text); [|exact IH].
      destruct (ev_revisions_link ev); [|exact IH].
      apply Hfound. apply lookup_insert_ne. congruence.
Qed.

Lemma extract_fixed_frame pg (r r' : record) :
  k0 <> "Fixed" -> k0 <> "fixed_time" ->
  extract_fixed iso_to_minute pg r = Some r' -> r' !! k0 = r !! k0.
Proof.
  intros H1 H2. unfold extract_fixed. destruct (pg_events pg).
  - apply scan_events_frame; assumption.
  - intros [= <-]. reflexivity.
Qed.

Lemma description_line_frame (st : record * option string) line :
  ~ In k0 desc_vocabulary ->
  cursor_ok st.2 ->
  (description_line keys st line).1 !! k0 = st.1 !! k0
  /\ cursor_ok (description_line keys st line).2.
Proof.
  intros Hk. destruct st as [r cur]. cbn [fst snd]. intros Hcur.
  unfold description_line.
  destruct (String.eqb (strip_line line) ""); [split; [reflexivity|exact I]|].
  destruct (match_label keys (strip_line line)) as [[K v]|] eqn:Hm.
  { apply (match_label_in keys keys_order) in Hm. split; [|exact Hm].
    apply lookup_insert_ne. intros ->. contradiction. }
  destruct cur as [K|]; [|split; [reflexivity|exact I]].
  destruct (_ || _); [split; [reflexivity|exact I]|].
  assert (HK : K <> k0) by (intros ->; contradiction).
  destruct (r !! K) as [[| | |e|l]|]; try (split; [reflexivity|exact Hcur]).
  - destruct (String.eqb e ""); (split; [|exact Hcur]);
      apply lookup_insert_ne; exact HK.
  - split; [|exact Hcur]. apply lookup_insert_ne; exact HK.
Qed.

Lemma description_lines_frame lines (st : record * option string) :
  ~ In k0 desc_vocabulary ->
  cursor_ok st.2 ->
  (fold_left (description_line keys) lines st).1 !! k0 = st.1 !! k0.
Proof.
  intros Hk. revert st. induction lines as [|line lines IH]; intros st Hst;
    [reflexivity|].
  cbn [fold_left]. destruct (description_line_frame st line Hk Hst) as [He Hc].
  rewrite IH by exact Hc. exact He.
Qed.

Lemma extract_description_frame pg (r : record) :
  ~ In k0 desc_vocabulary ->
  extract_description keys pg r !! k0 = r !! k0.
Proof.
  intros Hk. unfold extract_description.
  destruct (pg_description pg) as [text|]; [|reflexivity].
  unfold parse_description, description_lines.
  rewrite description_lines_frame by (exact Hk || exact I). reflexivity.
Qed.

Lemma scrape_key_frame pg (r : record) (entry : string * string) :
  ~ In k0 (derived_keys entry.2) ->
  scrape_key pg r entry !! k0 = r !! k0.
Proof.
  intros Hk. unfold scrape_key. destruct entry as [info_key prefix].
  destruct (r !! info_key) as [[| | |sub_url|]|]; try reflexivity.
  destruct (_ && _); [|reflexivity].
  destruct (scrape_revision_details _ _); [|reflexivity].
  cbn [snd derived_keys] in Hk.
  rewrite !lookup_insert_ne; [reflexivity| | |];
    intros E; apply Hk; rewrite <- E; unfold derived_keys; cbn [In]; auto.
Qed.

Lemma extract_revisions_frame pg (r : record) :
  ~ In k0 (flat_map (fun entry : string * string => derived_keys entry.2)
             url_keys_to_scrape) ->
  extract_revisions pg r !! k0 = r !! k0.
Proof.
  unfold extract_revisions. generalize url_keys_to_scrape.
  intros entries. revert r. induction entries as [|e entries IH]; intros r Hk;
    [reflexivity|].
  cbn [fold_left flat_map] in Hk |- *.
  rewrite IH by (intros H; apply Hk, in_or_app; right; exact H).
  apply scrape_key_frame. intros H. apply Hk, in_or_app. left. exact H.
Qed.

Lemma get_issue_frame issue_no pg (r : record) :
  fst (load_issue_page (pg_loads pg) (initial_url issue_no)) = true ->
  get_issue iso_to_minute strptime_ymd keys issue_no pg = Some r ->
  ~ In k0 written_keys ->
  k0 <> "error" ->
  r !! k0 = loaded_record pg !! k0.
Proof.
  intros Hload. unfold get_issue. rewrite Hload. cbn [negb].
  fold (loaded_record pg).
  destruct (extract_reported_time _ _ _) as [r1|] eqn:E1; [|discriminate].
  cbn [mbind option_bind].
  destruct (extract_fixed _ _ _) as [r2|] eqn:E2; [|discriminate].
  cbn [mbind option_bind]. intros [= <-] Hk Herr.
  unfold written_keys in Hk. cbn [app In] in Hk. rewrite !in_app_iff in Hk.
  rewrite extract_revisions_frame by tauto.
  rewrite extract_description_frame by tauto.
  rewrite (extract_fixed_frame _ _ _ ltac:(intros ->; apply Hk; right; right;
             right; right; right; right; left; apply mem_In; reflexivity)
             ltac:(intros ->; tauto) E2).
  rewrite extract_metadata_frame by tauto.
  unfold extract_reported_time in E1. destruct (pg_reported pg).
  - rewrite (store_time_frame "reported_time" _ _ _
               ltac:(intros <-; tauto) E1).
    rewrite extract_hotlists_frame by (intros ->; tauto).
    apply extract_title_frame; [intros ->; tauto|exact Herr].
  - injection E1 as <-.
    rewrite extract_hotlists_frame by (intros ->; tauto).
    apply extract_title_frame; [intros ->; tauto|exact Herr].
Qed.

End Frame.

(** ** The keys of a record *)

Ltac not_in_keys :=
  let H := fresh in
  intros H; apply In_mem in H; vm_compute in H; discriminate.

Lemma loaded_record_other pg k :
  k <> "id" -> k <> "url" -> k <> "error" -> loaded_record pg !! k = None.
Proof.
  intros H1 H2 H3. unfold loaded_record.
  rewrite !lookup_insert_ne by congruence. apply lookup_empty.
Qed.

Lemma failed_load_record_keys issue_no k :
  is_Some (failed_load_record issue_no !! k) ->
  In k ["id"; "url"; "error"; "title"].
Proof.
  unfold failed_load_record. intros H.
  repeat (apply lookup_insert_is_Some' in H as [<-|H]; [cbn [In]; auto|]).
  rewrite lookup_empty in H. destruct H; discriminate.
Qed.

Section Keys.

Variable iso_to_minute : string -> option string.
Variable strptime_ymd : string -> option string.
Variable keys : list string.
Hypothesis keys_order : Permutation keys desc_vocabulary.

(** X11: every key of a record that the extractor returns is one of the
    keys that the program names: [id], [url], [error], [title],
    [hotlists], the two times, the keys of the metadata labels (with
    [Metadata_Reported_Date] for [Reported]), the labels of the
    description and the nine keys of the revision pages. No text of a
    page can add a column to a batch file. *)
Theorem record_keys_bounded issue_no pg (r : record) k :
  get_issue iso_to_minute strptime_ymd keys issue_no pg = Some r ->
  is_Some (r !! k) -> In k record_keys.
Proof.
  intros Hr Hk.
  destruct (fst (load_issue_page (pg_loads pg) (initial_url issue_no)))
    eqn:Hload.
  - destruct (In_dec string_dec k record_keys) as [Hin|Hout]; [exact Hin|].
    exfalso. unfold record_keys in Hout. cbn [In] in Hout.
    assert (Herr : k <> "error").
    { intros ->. apply Hout. right. right. left. reflexivity. }
    rewrite (get_issue_frame _ _ keys keys_order k _ _ _ Hload Hr) in Hk;
      [|tauto|exact Herr].
    rewrite loaded_record_other in Hk by (try exact Herr; intros ->; tauto).
    destruct Hk; discriminate.
  - unfold get_issue in Hr. rewrite Hload in Hr. cbn [negb] in Hr.
    injection Hr as <-. apply failed_load_record_keys in Hk.
    unfold record_keys, written_keys. cbn [In app] in Hk |- *.
    destruct Hk as [<-|[<-|[<-|[<-|[]]]]]; auto 6.
Qed.

(** X12: the [id] and the [url] of a record are fixed by the navigation:
    for a page that loaded they are the last segment of the final URL
    and that URL, whatever the page shows in its metadata, its events,
    its description or its revision pages; for a page that never loaded
    they are the text of the issue number and the URL that was tried. *)
Theorem record_identity issue_no pg (r : record) :
  get_issue iso_to_minute strptime_ymd keys issue_no pg = Some r ->
  if fst (load_issue_page (pg_loads pg) (initial_url issue_no))
  then r !! "id" = Some (VStr (List.last (Py.split "/" (pg_url pg)) ""))
       /\ r !! "url" = Some (VStr (pg_url pg))
  else r !! "id" = Some (VStr (Py.str_of_int issue_no))
       /\ r !! "url" = Some (VStr (initial_url issue_no)).
Proof.
  intros Hr.
  destruct (fst (load_issue_page (pg_loads pg) (initial_url issue_no)))
    eqn:Hload.
  - split.
    + rewrite (get_issue_frame _ _ keys keys_order "id" _ _ _ Hload Hr);
        [|not_in_keys|discriminate].
      reflexivity.
    + rewrite (get_issue_frame _ _ keys keys_order "url" _ _ _ Hload Hr);
        [|not_in_keys|discriminate].
      reflexivity.
  - unfold get_issue in Hr. rewrite Hload in Hr. cbn [negb] in Hr.
    injection Hr as <-. split; reflexivity.
Qed.

End Keys.

Lemma record_keys_bounded_witness :
  In "regressed_components" record_keys.
Proof.
  destruct (untitled_page_record (fun s => Some s) (fun s => Some s)
              desc_vocabulary (Permutation_refl _))
    as (r & Hr & _ & _ & _ & _ & Hc & _).
  apply (record_keys_bounded (fun s => Some s) (fun s => Some s)
           desc_vocabulary (Permutation_refl _) 42535201 untitled_page r).
  - exact Hr.
  - rewrite Hc. eexists; reflexivity.
Defined.

Lemma record_identity_witness :
  exists r,
    get_issue (fun s => Some s) (fun s => Some s) desc_vocabulary 42535201
      untitled_page = Some r
    /\ r !! "id" = Some (VStr "42535201").
Proof.
  destruct (untitled_page_record (fun s => Some s) (fun s => Some s)
              desc_vocabulary (Permutation_refl _)) as (r & Hr & _).
  exists r. split; [exact Hr|].
  exact (proj1 (record_identity (fun s => Some s) (fun s => Some s)
                  desc_vocabulary (Permutation_refl _) 42535201
                  untitled_page r Hr)).
Defined.

(** ** The keys of the revision pages *)

Lemma startswith_http_nonempty s :
  (negb (String.eqb s "") && Py.startswith "http" s) = Py.startswith "http" s.
Proof. destruct s; reflexivity. Qed.

Lemma scrape_key_own pg (r : record) info_key prefix :
  In (info_key, prefix) url_keys_to_scrape ->
  holds_revision_page r prefix None ->
  holds_revision_page (scrape_key pg r (info_key, prefix)) prefix
    (revision_page_of pg r info_key).
Proof.
  intros Hin (Hc & Hv & Hb). unfold scrape_key, revision_page_of.
  destruct (r !! info_key) as [[| | |sub_url|]|];
    try (repeat split; assumption).
  rewrite startswith_http_nonempty.
  destruct (Py.startswith "http" sub_url); [|repeat split; assumption].
  destruct (scrape_revision_details _ _) as [rd|]; [|repeat split; assumption].
  cbn [In url_keys_to_scrape] in Hin.
  destruct Hin as [[= <- <-]|[[= <- <-]|[[= <- <-]|[]]]];
    (split; [|split]);
    rewrite ?lookup_insert_eq;
    rewrite ?lookup_insert_ne by (vm_compute; discriminate);
    rewrite ?lookup_insert_eq;
    rewrite ?lookup_insert_ne by (vm_compute; discriminate);
    rewrite ?lookup_insert_eq; reflexivity.
Qed.

Lemma holds_revision_page_ext (r r' : record) prefix page_data :
  (forall k, In k (derived_keys prefix) -> r' !! k = r !! k) ->
  holds_revision_page r prefix page_data ->
  holds_revision_page r' prefix page_data.
Proof.
  intros Hext. unfold holds_revision_page.
  rewrite !Hext by (unfold derived_keys; cbn [In]; auto). exact id.
Qed.

Lemma revision_page_of_ext pg (r r' : record) info_key :
  r' !! info_key = r !! info_key ->
  revision_page_of pg r' info_key = revision_page_of pg r info_key.
Proof. intros H. unfold revision_page_of. rewrite H. reflexivity. Qed.

Section Derived.

Variable iso_to_minute : string -> option string.
Variable strptime_ymd : string -> option string.
Variable keys : list string.
Hypothesis keys_order : Permutation keys desc_vocabulary.

Lemma get_issue_stages issue_no pg (r : record) :
  fst (load_issue_page (pg_loads pg) (initial_url issue_no)) = true ->
  get_issue iso_to_minute strptime_ymd keys issue_no pg = Some r ->
  exists r1 r2 : record,
    extract_reported_time iso_to_minute pg
      (extract_hotlists pg (extract_title pg (loaded_record pg))) = Some r1
    /\ extract_fixed iso_to_minute pg (extract_metadata strptime_ymd pg r1)
       = Some r2
    /\ r = extract_revisions pg (extract_description keys pg r2).
Proof.
  intros Hload. unfold get_issue. rewrite Hload. cbn [negb].
  fold (loaded_record pg).
  destruct (extract_reported_time _ _ _) as [r1|] eqn:E1; [|discriminate].
  cbn [mbind option_bind].
  destruct (extract_fixed _ _ _) as [r2|] eqn:E2; [|discriminate].
  cbn [mbind option_bind]. intros [= <-].
  exists r1, r2. repeat split; assumption.
Qed.

Lemma before_revisions_frame pg (r1 r2 : record) k0 :
  extract_reported_time iso_to_minute pg
    (extract_hotlists pg (extract_title pg (loaded_record pg))) = Some r1 ->
  extract_fixed iso_to_minute pg (extract_metadata strptime_ymd pg r1)
  = Some r2 ->
  In k0 (flat_map (fun entry : string * string => derived_keys entry.2)
           url_keys_to_scrape) ->
  extract_description keys pg r2 !! k0 = None.
Proof.
  intros E1 E2 Hk.
  assert (Hkeys : forallb
            (fun k => negb (Py.mem k
               (["id"; "url"; "error"; "title"; "hotlists"; "reported_time";
                 "fixed_time"; "Fixed"]
                ++ map meta_output_key target_keys_meta ++ desc_vocabulary)))
            (flat_map (fun entry : string * string => derived_keys entry.2)
               url_keys_to_scrape) = true) by (vm_compute; reflexivity).
  rewrite forallb_forall in Hkeys. specialize (Hkeys k0 Hk).
  apply negb_true_iff in Hkeys.
  assert (Hout : forall k, In k
            (["id"; "url"; "error"; "title"; "hotlists"; "reported_time";
              "fixed_time"; "Fixed"]
             ++ map meta_output_key target_keys_meta ++ desc_vocabulary) ->
            k <> k0).
  { intros k Hin <-. apply In_mem in Hin. congruence. }
  assert (Hne : forall k, Py.mem k
            (["id"; "url"; "error"; "title"; "hotlists"; "reported_time";
              "fixed_time"; "Fixed"]
             ++ map meta_output_key target_keys_meta ++ desc_vocabulary) = true ->
            k0 <> k).
  { intros k Hin E. apply (Hout k); [apply mem_In, Hin|congruence]. }
  rewrite (extract_description_frame keys keys_order k0)
    by (intros H; apply (Hout k0); [rewrite !in_app_iff; auto|reflexivity]).
  rewrite (extract_fixed_frame iso_to_minute k0 _ _ _
             (Hne "Fixed" eq_refl) (Hne "fixed_time" eq_refl) E2).
  rewrite (extract_metadata_frame strptime_ymd k0)
    by (intros H; apply (Hout k0); [rewrite !in_app_iff; auto|reflexivity]).
  assert (H0 : extract_hotlists pg (extract_title pg (loaded_record pg)) !! k0
               = None).
  { rewrite extract_hotlists_frame by (apply Hne; reflexivity).
    rewrite extract_title_frame by (apply Hne; reflexivity).
    apply loaded_record_other; apply Hne; reflexivity. }
  unfold extract_reported_time in E1. destruct (pg_reported pg).
  - rewrite (store_time_frame iso_to_minute k0 "reported_time" _ _ _
               (fun E => Hne "reported_time" eq_refl (eq_sym E)) E1).
    exact H0.
  - injection E1 as <-. exact H0.
Qed.

(** X13: in a record that the extractor returns, the three keys of a
    revision page ([_components], [_revisions], [_buildtime] after the
    prefix) are present together or absent together, for each of
    [Regressed], [Fixed] and [Crash Revision]: they are present exactly
    when the record holds under that field a text that starts with
    [http] and the scrape of the page behind it gave a result, and they
    then hold the components, the revision ranges and the build time of
    that result. *)
Theorem revision_keys_together issue_no pg (r : record) info_key prefix :
  get_issue iso_to_minute strptime_ymd keys issue_no pg = Some r ->
  In (info_key, prefix) url_keys_to_scrape ->
  holds_revision_page r prefix
    (if fst (load_issue_page (pg_loads pg) (initial_url issue_no))
     then revision_page_of pg r info_key else None).
Proof.
  intros Hr Hin.
  destruct (fst (load_issue_page (pg_loads pg) (initial_url issue_no)))
    eqn:Hload.
  - destruct (get_issue_stages _ _ _ Hload Hr) as (r1 & r2 & E1 & E2 & ->).
    set (r3 := extract_description keys pg r2).
    assert (Hnone : forall k,
              In k (flat_map (fun entry : string * string =>
                                derived_keys entry.2) url_keys_to_scrape) ->
              r3 !! k = None)
      by (intros k Hk; apply (before_revisions_frame pg r1 r2 k E1 E2 Hk)).
    unfold extract_revisions, url_keys_to_scrape. cbn [fold_left].
    set (e1 := ("Regressed", "regressed")).
    set (e2 := ("Fixed", "fixed")).
    set (e3 := ("Crash Revision", "crash")).
    set (ra := scrape_key pg r3 e1).
    set (rb := scrape_key pg ra e2).
    set (rc := scrape_key pg rb e3).
    assert (F1 : forall k, ~ In k (derived_keys "regressed") ->
                   ra !! k = r3 !! k)
      by (intros k Hk; apply (scrape_key_frame k pg r3 e1 Hk)).
    assert (F2 : forall k, ~ In k (derived_keys "fixed") -> rb !! k = ra !! k)
      by (intros k Hk; apply (scrape_key_frame k pg ra e2 Hk)).
    assert (F3 : forall k, ~ In k (derived_keys "crash") -> rc !! k = rb !! k)
      by (intros k Hk; apply (scrape_key_frame k pg rb e3 Hk)).
    cbn [In url_keys_to_scrape] in Hin.
    destruct Hin as [[= <- <-]|[[= <- <-]|[[= <- <-]|[]]]].
    + rewrite (revision_page_of_ext pg ra rc)
        by (rewrite F3, F2 by not_in_keys; reflexivity).
      rewrite (revision_page_of_ext pg r3 ra) by (apply F1; not_in_keys).
      apply (holds_revision_page_ext ra).
      * intros k Hk. rewrite F3, F2; [reflexivity| |];
          intros H; revert Hk; unfold derived_keys in *; cbn [In] in *;
          intros Hk; intuition (subst; discriminate).
      * apply (scrape_key_own pg r3 "Regressed" "regressed");
          [left; reflexivity|].
        repeat split; apply Hnone; apply mem_In; reflexivity.
    + rewrite (revision_page_of_ext pg rb rc) by (apply F3; not_in_keys).
      rewrite (revision_page_of_ext pg ra rb) by (apply F2; not_in_keys).
      apply (holds_revision_page_ext rb).
      * intros k Hk. rewrite F3; [reflexivity|].
        intros H; revert Hk; unfold derived_keys in *; cbn [In] in *;
          intros Hk; intuition (subst; discriminate).
      * apply (scrape_key_own pg ra "Fixed" "fixed");
          [right; left; reflexivity|].
        repeat split; (rewrite F1 by not_in_keys);
          apply Hnone; apply mem_In; reflexivity.
    + rewrite (revision_page_of_ext pg rb rc) by (apply F3; not_in_keys).
      apply (scrape_key_own pg rb "Crash Revision" "crash");
        [right; right; left; reflexivity|].
      repeat split; (rewrite F2, F1 by not_in_keys);
        apply Hnone; apply mem_In; reflexivity.
  - unfold get_issue in Hr. rewrite Hload in Hr. cbn [negb] in Hr.
    injection Hr as <-. unfold holds_revision_page, failed_load_record.
    cbn [In url_keys_to_scrape] in Hin.
    destruct Hin as [[= <- <-]|[[= <- <-]|[[= <- <-]|[]]]];
      repeat split;
      rewrite !lookup_insert_ne by (vm_compute; discriminate);
      apply lookup_empty.
Qed.

End Derived.

Lemma revision_keys_together_witness :
  exists r,
    get_issue (fun s => Some s) (fun s => Some s) desc_vocabulary 42535201
      untitled_page = Some r
    /\ holds_revision_page r "regressed"
         (revision_page_of untitled_page r "Regressed").
Proof.
  destruct (untitled_page_record (fun s => Some s) (fun s => Some s)
              desc_vocabulary (Permutation_refl _)) as (r & Hr & _).
  exists r. split; [exact Hr|].
  exact (revision_keys_together (fun s => Some s) (fun s => Some s)
           desc_vocabulary (Permutation_refl _) 42535201 untitled_page r
           "Regressed" "regressed" Hr (or_introl eq_refl)).
Defined.

(** ** The description block: what it leaves alone *)

Lemma description_line_keeps keys (st : record * option string) line k :
  is_Some (st.1 !! k) -> is_Some ((description_line keys st line).1 !! k).
Proof.
  destruct st as [r cur]. cbn [fst]. intros Hk. unfold description_line.
  destruct (String.eqb (strip_line line) ""); [exact Hk|].
  destruct (match_label keys (strip_line line)) as [[K v]|].
  { cbn [fst]. apply lookup_insert_is_Some'. right. exact Hk. }
  destruct cur as [K|]; [|exact Hk].
  destruct (_ || _); [exact Hk|].
  destruct (r !! K) as [[| | |e|l]|]; try exact Hk.
  - destruct (String.eqb e ""); cbn [fst];
      apply lookup_insert_is_Some'; right; exact Hk.
  - cbn [fst]. apply lookup_insert_is_Some'. right. exact Hk.
Qed.

Lemma description_lines_keeps keys lines (st : record * option string) k :
  is_Some (st.1 !! k) ->
  is_Some ((fold_left (description_line keys) lines st).1 !! k).
Proof.
  revert st. induction lines as [|line lines IH]; intros st Hk; [exact Hk|].
  cbn [fold_left]. apply IH, description_line_keeps, Hk.
Qed.

(** X14: the pass over the description changes only keys that are labels
    of its vocabulary and removes none: a key outside the vocabulary
    ([id], [url], [error], [title], the metadata keys other than
    [Project], the times) keeps its value whatever the text of the
    description, and a key that was present stays present. *)
Theorem description_leaves_other_keys keys (r : record) text k :
  Permutation keys desc_vocabulary ->
  (~ In k desc_vocabulary -> parse_description keys r text !! k = r !! k)
  /\ (is_Some (r !! k) -> is_Some (parse_description keys r text !! k)).
Proof.
  intros Hperm. unfold parse_description, description_lines. split.
  - intros Hk. rewrite (description_lines_frame keys Hperm k) by (exact Hk || exact I).
    reflexivity.
  - intros Hk. apply description_lines_keeps. exact Hk.
Qed.

Lemma description_leaves_other_keys_witness :
  parse_description desc_vocabulary (failed_load_record 7)
    "id: 8" !! "id"
  = failed_load_record 7 !! "id".
Proof.
  apply (description_leaves_other_keys desc_vocabulary (failed_load_record 7)
           "id: 8" "id" (Permutation_refl _)).
  not_in_keys.
Defined.

(** ** The description block: where a field ends *)

Lemma unlabelled_lines keys lines (r : record) :
  forallb (unlabelled keys) lines = true ->
  fold_left (description_line keys) lines (r, None) = (r, None).
Proof.
  induction lines as [|line lines IH]; [reflexivity|].
  cbn [forallb fold_left]. intros H. apply andb_true_iff in H as [Hl Hr].
  unfold unlabelled in Hl. apply bool_decide_eq_true_1 in Hl.
  assert (E : description_line keys (r, None) line = (r, None)).
  { unfold description_line. destruct (String.eqb _ ""); [reflexivity|].
    rewrite Hl. reflexivity. }
  rewrite E. apply IH, Hr.
Qed.

Lemma ends_field_line keys (st : record * option string) line :
  ends_field keys line = true ->
  description_line keys st line = (st.1, None).
Proof.
  destruct st as [r cur]. unfold ends_field, description_line. cbn zeta.
  destruct (String.eqb (strip_line line) ""); [reflexivity|].
  cbn [orb]. intros H. apply andb_true_iff in H as [Hl Hs].
  apply bool_decide_eq_true_1 in Hl. rewrite Hl, Hs.
  destruct cur; reflexivity.
Qed.

(** X15: a line that is empty once stripped, or a line without a label
    that holds [Issue filed automatically] or [See ], ends the field
    being read: the lines without a label that follow it add nothing to
    the record, whatever was read before. In particular a description
    without any labelled line leaves the record as it was. *)
Theorem field_ends_at_blank_or_sentinel keys (r : record) before stop after :
  ends_field keys stop = true ->
  forallb (unlabelled keys) after = true ->
  description_lines keys r (before ++ stop :: after)%list
  = ((description_lines keys r before).1, None).
Proof.
  intros Hstop Hafter. unfold description_lines.
  rewrite fold_left_app. cbn [fold_left].
  rewrite (ends_field_line keys _ stop Hstop).
  apply unlabelled_lines, Hafter.
Qed.

Lemma field_ends_at_blank_or_sentinel_witness :
  description_lines desc_vocabulary ∅
    (["Crash State:"; "  foo"; ""; "  bar"; "See https://example.org"])
  = ((description_lines desc_vocabulary ∅ ["Crash State:"; "  foo"]).1, None).
Proof.
  apply (field_ends_at_blank_or_sentinel desc_vocabulary ∅
           ["Crash State:"; "  foo"] ""
           ["  bar"; "See https://example.org"]).
  - vm_compute. reflexivity.
  - vm_compute. reflexivity.
Defined.

(** ** The fix disclosed by the events *)





(** ** The values of the metadata block *)

Lemma user_values_clean_text people :
  List.Forall clean_text (user_values people).
Proof.
  unfold user_values. apply List.Forall_forall. intros t Ht.
  apply List.filter_In in Ht as [Hin Ht].
  apply andb_true_iff in Ht as [H1 H2].
  apply negb_true_iff in H1, H2. apply String.eqb_neq in H1, H2.
  apply List.in_map_iff in Hin as (p & <- & _).
  repeat split; try assumption. apply strip_idem.
Qed.

Lemma VStrs_clean l :
  List.Forall clean_text l ->
  List.Forall (fun x => exists t, x = VStr t /\ clean_text t) (map VStr l).
Proof.
  intros H. apply List.Forall_map. eapply List.Forall_impl; [|exact H].
  intros t Ht. exists t. split; [reflexivity|exact Ht].
Qed.

Lemma user_field_value_clean label people :
  clean_value (user_field_value label people).
Proof.
  unfold user_field_value. pose proof (user_values_clean_text people) as H.
  destruct (user_values people) as [|v0 rest]; [exact I|].
  assert (Hl : clean_value (VStrs (v0 :: rest))).
  { split; [discriminate|apply VStrs_clean, H]. }
  destruct (Py.mem label _); [exact Hl|].
  destruct rest; [|exact Hl]. apply List.Forall_inv in H. exact H.
Qed.

Lemma other_field_value_clean ymd label text :
  Py.strip text = text ->
  clean_value (other_field_value ymd label text)
  \/ exists d, ymd text = Some d /\ other_field_value ymd label text = VStr d.
Proof.
  intros Hs. unfold other_field_value.
  destruct (String.eqb_spec text "--") as [|H1]; [left; exact I|].
  destruct (String.eqb_spec text "") as [|H2]; [left; exact I|].
  cbn [orb].
  assert (Hc : clean_value (VStr text)) by (repeat split; assumption).
  destruct (Py.mem label date_keys); [|left; exact Hc].
  destruct (ymd text) as [d|]; [|left; exact Hc].
  right. exists d. split; reflexivity.
Qed.

(** X17: whatever the fields of the metadata block show, a value that the
    block stores is [None], a text, or a list of texts that is not
    empty; every such text is stripped, not empty and not the
    placeholder [--]; the one exception is a date that [strptime]
    accepted, stored as [strftime] gives it. A key that the block does
    not store keeps the value it had. *)
Theorem metadata_values_clean strptime_ymd pg (r : record) k v :
  extract_metadata strptime_ymd pg r !! k = Some v ->
  r !! k = Some v
  \/ clean_value v
  \/ exists t d, strptime_ymd t = Some d /\ v = VStr d.
Proof.
  unfold extract_metadata. destruct (pg_metadata pg) as [fields|]; [|auto].
  revert r. induction fields as [|f fields IH]; intros r; cbn [fold_left];
    [auto|].
  intros H. destruct (IH _ H) as [Hprev|Hdone]; [|right; exact Hdone].
  clear IH H. unfold metadata_field in Hprev.
  destruct (mf_label f) as [text|]; [|left; exact Hprev].
  destruct (negb _); [left; exact Hprev|].
  destruct (Py.mem _ user_data_keys).
  - apply lookup_insert_Some in Hprev as [[_ <-]|[_ Hprev]];
      [|left; exact Hprev].
    right. left. apply user_field_value_clean.
  - destruct (mf_value f) as [val|]; [|left; exact Hprev].
    apply lookup_insert_Some in Hprev as [[_ <-]|[_ Hprev]];
      [|left; exact Hprev].
    right.
    destruct (other_field_value_clean strptime_ymd (Py.strip text)
                (Py.strip val) (strip_idem val)) as [Hc|(d & Hd & ->)].
    + left. exact Hc.
    + right. exists (Py.strip val), d. split; [exact Hd|reflexivity].
Qed.

Lemma metadata_values_clean_witness :
  clean_value (VStr "dev@example.org").
Proof.
  destruct (metadata_values_clean (fun s => None) untitled_page ∅ "Reporter"
              (VStr "dev@example.org")) as [H|[H|(t & d & H & _)]].
  - vm_compute. reflexivity.
  - rewrite lookup_empty in H. discriminate.
  - exact H.
  - discriminate.
Defined.

(** ** The header of a batch file *)

(** X18: the header that [save_to_csv] writes lists exactly the keys that
    some record of the batch holds, each once and in ascending order of
    their characters, whatever the order of the records; every row
    written has one cell for each key of the header; and a batch that is
    not empty is written as the header followed by one row per
    record. *)
Theorem batch_header_sorted (data_list : list record) :
  let header := csv_header data_list in
  Sorted (fun a b => String.leb a b = true) header
  /\ NoDup header
  /\ (forall k, In k header <->
        exists item : record, In item data_list /\ is_Some (item !! k))
  /\ List.Forall (fun item => length (row_dict header item) = length header)
       data_list
  /\ (data_list <> [] ->
      save_to_csv data_list
      = Some (Csv.writerows (header :: map (row_dict header) data_list))).
Proof.
  intros header. split; [|split; [|split; [|split]]].
  - apply sorted_sorted. intros a b H.
    destruct (String.leb_total a b) as [E|E]; [congruence|exact E].
  - subst header. unfold csv_header. rewrite sorted_perm.
    apply NoDup_elements.
  - intros k. rewrite <- list_elem_of_In. subst header.
    rewrite csv_header_elem, all_keys_elem. split.
    + intros (item & Hi & Hk). exists item.
      split; [apply list_elem_of_In, Hi|exact Hk].
    + intros (item & Hi & Hk). exists item.
      split; [apply list_elem_of_In, Hi|exact Hk].
  - apply List.Forall_forall. intros item _. unfold row_dict.
    apply length_map.
  - apply save_to_csv_nonempty.
Qed.

(** ** The order of the labels *)

(** X19: the record does not depend on the order in which the set of the
    labels of the description is iterated: two orders of the vocabulary
    give the same result of [get_issue] on every page, since no line is
    matched by two labels. *)
Theorem label_order_irrelevant iso ymd keys1 keys2 issue_no pg :
  Permutation keys1 desc_vocabulary ->
  Permutation keys2 desc_vocabulary ->
  get_issue iso ymd keys1 issue_no pg = get_issue iso ymd keys2 issue_no pg
  /\ forall line K1 K2,
       In K1 desc_vocabulary -> In K2 desc_vocabulary ->
       Label.matches K1 line = true -> Label.matches K2 line = true ->
       K1 = K2.
Proof.
  intros H1 H2. split.
  - rewrite (get_issue_order keys1 H1), (get_issue_order keys2 H2). reflexivity.
  - intros line K1 K2. apply vocabulary_one_match.
Qed.

Lemma label_order_irrelevant_witness :
  get_issue (fun s => Some s) (fun s => Some s) (rev desc_vocabulary)
    42535201 untitled_page
  = get_issue (fun s => Some s) (fun s => Some s) desc_vocabulary
      42535201 untitled_page.
Proof.
  apply (label_order_irrelevant (fun s => Some s) (fun s => Some s)
           (rev desc_vocabulary) desc_vocabulary 42535201 untitled_page).
  - symmetry. apply Permutation_rev.
  - reflexivity.
Defined.

(** ** The URL of an issue and the ID read from it *)

Lemma append_inv_head (p a b : string) : p ++ a = p ++ b -> a = b.
Proof.
  induction p as [|c p IH]; push_append; [exact id|].
  intros [= H]. apply IH, H.
Qed.

Lemma count_char_all (p : ascii -> bool) sep s :
  p sep = false -> Py.all_chars p s = true -> count_char sep s = 0.
Proof.
  intros Hsep. induction s as [|c s IH]; [reflexivity|].
  cbn [Py.all_chars count_char]. intros H. apply andb_true_iff in H as [Hc Hs].
  destruct (Ascii.eqb_spec c sep) as [->|_]; [congruence|]. apply IH, Hs.
Qed.

Lemma last_split_app sep (p s : string) :
  count_char sep s = 0 ->
  List.last (Py.split sep (p ++ String sep s)) "" = s.
Proof.
  intros Hs. induction p as [|c p IH]; push_append.
  - cbn [Py.split]. rewrite Ascii.eqb_refl, (split_no_sep _ _ Hs). reflexivity.
  - cbn [Py.split]. pose proof (split_nonempty sep (p ++ String sep s)) as Hne.
    destruct (Ascii.eqb c sep).
    + destruct (Py.split sep (p ++ String sep s)) as [|h t] eqn:E; [congruence|].
      exact IH.
    + destruct (Py.split sep (p ++ String sep s)) as [|h t] eqn:E; [congruence|].
      destruct t as [|h' t].
      * pose proof (split_length sep (p ++ String sep s)) as Hl.
        rewrite E in Hl. cbn [length] in Hl.
        assert (Hc : 0 < count_char sep (p ++ String sep s)).
        { clear. induction p as [|x p IHp]; push_append; cbn [count_char].
          - rewrite Ascii.eqb_refl. lia.
          - lia. }
        lia.
      * exact IH.
Qed.

Lemma pretty_nonneg_decimal (n : Z) :
  (0 <= n)%Z -> Py.all_chars Py.isdecimal (Py.str_of_int n) = true.
Proof.
  intros Hn. unfold Py.str_of_int.
  assert (E : pretty n = pretty (Z.to_N n)).
  { destruct n as [|p|p]; [reflexivity|reflexivity|lia]. }
  rewrite E. unfold pretty, pretty_N.
  destruct (decide (Z.to_N n = 0)%N); [reflexivity|apply all_decimal_pretty].
Qed.

(** X20: the URL that is tried for an issue determines the issue: two
    issue numbers have the same URL only when they are equal; numbers
    below 10,000,000 go to the former tracker and the others to the
    present one. *)
Theorem initial_url_of_issue (a b : Z) :
  (initial_url a = initial_url b <-> a = b)
  /\ Py.startswith "https://issues.oss-fuzz.com/issues/" (initial_url a)
     = negb (a <? 10000000)%Z
  /\ Py.startswith "https://bugs.chromium.org/p/oss-fuzz/issues/detail?id="
       (initial_url a)
     = (a <? 10000000)%Z.
Proof.
  split; [split; [|intros ->; reflexivity]|].
  - unfold initial_url, Py.str_of_int.
    destruct (a <? 10000000)%Z, (b <? 10000000)%Z; intros H.
    + apply append_inv_head in H. apply (inj pretty) in H. exact H.
    + cbv [String.append] in H. discriminate.
    + cbv [String.append] in H. discriminate.
    + apply append_inv_head in H. apply (inj pretty) in H. exact H.
  - unfold initial_url. destruct (a <? 10000000)%Z; split;
      cbv [String.append Py.startswith Ascii.eqb Bool.eqb andb];
      reflexivity.
Qed.

Section Unredirected.

Variable iso_to_minute : string -> option string.
Variable strptime_ymd : string -> option string.
Variable keys : list string.
Hypothesis keys_order : Permutation keys desc_vocabulary.

(** X21: when the page of an issue loads and the session stays on the URL
    that was tried, the [id] of the record counts as a processed ID
    exactly for the present tracker: for a number from 10,000,000 on the
    [id] is the decimal text of the number, which a later run reads as
    that number; for a smaller number the [id] is the last segment
    [detail?id=...] of the URL of the former tracker, which a later run
    skips. *)
Theorem unredirected_page_id issue_no pg (r : record) :
  (0 <= issue_no)%Z ->
  fst (load_issue_page (pg_loads pg) (initial_url issue_no)) = true ->
  pg_url pg = initial_url issue_no ->
  get_issue iso_to_minute strptime_ymd keys issue_no pg = Some r ->
  id_of_value (get r "id")
  = if (issue_no <? 10000000)%Z then SkipCell else AddId issue_no.
Proof.
  intros Hn Hload Hurl Hr.
  assert (Hid : r !! "id"
                = Some (VStr (List.last (Py.split "/" (pg_url pg)) ""))).
  { rewrite (get_issue_frame _ _ keys keys_order "id" _ _ _ Hload Hr);
      [reflexivity|not_in_keys|discriminate]. }
  unfold get. rewrite Hid, Hurl. cbn [default from_option id].
  assert (Hslash : count_char "/" (Py.str_of_int issue_no) = 0).
  { apply (count_char_all Py.isdecimal); [reflexivity|].
    apply pretty_nonneg_decimal, Hn. }
  unfold initial_url. destruct (issue_no <? 10000000)%Z.
  - change ("https://bugs.chromium.org/p/oss-fuzz/issues/detail?id="
            ++ Py.str_of_int issue_no)
      with ("https://bugs.chromium.org/p/oss-fuzz/issues"
            ++ String "/" ("detail?id=" ++ Py.str_of_int issue_no)).
    rewrite last_split_app.
    + reflexivity.
    + push_append. cbn [count_char Ascii.eqb Bool.eqb]. exact Hslash.
  - change ("https://issues.oss-fuzz.com/issues/" ++ Py.str_of_int issue_no)
      with ("https://issues.oss-fuzz.com/issues"
            ++ String "/" (Py.str_of_int issue_no)).
    rewrite (last_split_app _ _ _ Hslash).
    apply id_of_decimal_text, Hn.
Qed.

End Unredirected.

Lemma unredirected_page_id_witness :
  exists r,
    get_issue (fun s => Some s) (fun s => Some s) desc_vocabulary 42535201
      untitled_page = Some r
    /\ id_of_value (get r "id") = AddId 42535201.
Proof.
  destruct (untitled_page_record (fun s => Some s) (fun s => Some s)
              desc_vocabulary (Permutation_refl _)) as (r & Hr & _).
  exists r. split; [exact Hr|].
  apply (unredirected_page_id (fun s => Some s) (fun s => Some s)
           desc_vocabulary (Permutation_refl _) 42535201 untitled_page r).
  - lia.
  - reflexivity.
  - reflexivity.
  - exact Hr.
Defined.

(** ** The value of a field that holds a URL *)

Lemma first_token sep s :
  count_char sep (hd "" (Py.split sep s)) = 0
  /\ exists rest, s = hd "" (Py.split sep s) ++ rest.
Proof.
  induction s as [|c s IH]; [split; [reflexivity|exists ""; reflexivity]|].
  cbn [Py.split]. destruct (Ascii.eqb_spec c sep) as [->|Hc].
  - cbn [hd]. split; [reflexivity|]. exists (String sep s). reflexivity.
  - pose proof (split_nonempty sep s) as Hne.
    destruct (Py.split sep s) as [|h t]; [congruence|].
    cbn [hd] in *. destruct IH as [H0 [rest Hrest]]. split.
    + cbn [count_char]. destruct (Ascii.eqb_spec c sep); [contradiction|].
      exact H0.
    + exists rest. rewrite Hrest at 1. reflexivity.
Qed.

Lemma first_token_rest sep s :
  s = hd "" (Py.split sep s)
  \/ exists rest, s = hd "" (Py.split sep s) ++ String sep rest.
Proof.
  induction s as [|c s IH]; [left; reflexivity|].
  cbn [Py.split]. destruct (Ascii.eqb_spec c sep) as [->|Hc].
  - cbn [hd]. right. exists s. reflexivity.
  - pose proof (split_nonempty sep s) as Hne.
    destruct (Py.split sep s) as [|h t]; [congruence|].
    cbn [hd] in *. destruct IH as [IH|[rest IH]].
    + left. rewrite IH at 1. reflexivity.
    + right. exists rest. rewrite IH at 1. reflexivity.
Qed.

Lemma strip_no_leading_space s :
  match Py.strip s with
  | String c _ => Py.isspace c = false
  | EmptyString => True
  end.
Proof.
  unfold Py.strip. pose proof (lstrip_head s) as Hh.
  destruct (Py.lstrip s) as [|c t]; [exact I|].
  destruct (rstrip_head c t Hh) as [r ->]. exact Hh.
Qed.

(** X22: under a label that may hold a URL ([Regressed], [Fixed],
    [Crash Revision], [Build log], [Reproducer Testcase],
    [Minimized Testcase]) the text stored for a labelled line is a
    prefix of the text after the first colon, stripped; it is that whole
    text when it holds no [http], and otherwise its first token: the
    text stored is not empty, holds no space, and the stripped text is
    either the text stored or the text stored, a space and a rest; so
    what is stored never holds both [http] and a space. Under the other
    labels the whole stripped text is stored. *)
Theorem url_value_is_first_token key line :
  let value := Py.strip (nth 1 (Py.split1 ":" line) "") in
  (exists rest, value = label_value key line ++ rest)
  /\ (Py.mem key url_keys_with_possible_extra_text = true ->
      Py.contains "http" (label_value key line) = true ->
      count_char " " (label_value key line) = 0)
  /\ (Py.mem key url_keys_with_possible_extra_text = true ->
      Py.contains "http" value = true ->
      label_value key line <> ""
      /\ count_char " " (label_value key line) = 0
      /\ (value = label_value key line
          \/ exists rest, value = label_value key line ++ String " " rest))
  /\ (Py.mem key url_keys_with_possible_extra_text = false
      \/ Py.contains "http" value = false ->
      label_value key line = value).
Proof.
  intros value. unfold label_value. fold value.
  destruct (first_token " " value) as [H0 Hrest].
  destruct (Py.mem key url_keys_with_possible_extra_text);
    destruct (Py.contains "http" value) eqn:Hc; cbn [andb].
  - split; [exact Hrest|]. split; [intros _ _; exact H0|].
    split; [|intros [H|H]; discriminate].
    intros _ _. split; [|split; [exact H0|apply first_token_rest]].
    pose proof (strip_no_leading_space (nth 1 (Py.split1 ":" line) "")) as Hs.
    fold value in Hs. destruct value as [|c v]; [discriminate Hc|].
    cbn [Py.split]. destruct (Ascii.eqb_spec c " ") as [->|_];
      [discriminate Hs|].
    pose proof (split_nonempty " " v) as Hne.
    destruct (Py.split " " v); [congruence|]. discriminate.
  - split; [exists ""; symmetry; apply append_nil_r|].
    split; [intros _ H; congruence|].
    split; [discriminate|reflexivity].
  - split; [exists ""; symmetry; apply append_nil_r|].
    split; [discriminate|]. split; [discriminate|reflexivity].
  - split; [exists ""; symmetry; apply append_nil_r|].
    split; [discriminate|]. split; [discriminate|reflexivity].
Qed.

(** ** The title and the hotlists of a record *)

Section Head.

Variable iso_to_minute : string -> option string.
Variable strptime_ymd : string -> option string.
Variable keys : list string.
Hypothesis keys_order : Permutation keys desc_vocabulary.

Lemma head_field_frame issue_no pg (r : record) k0 :
  fst (load_issue_page (pg_loads pg) (initial_url issue_no)) = true ->
  get_issue iso_to_minute strptime_ymd keys issue_no pg = Some r ->
  In k0 ["title"; "hotlists"] ->
  r !! k0 = extract_hotlists pg (extract_title pg (loaded_record pg)) !! k0.
Proof.
  intros Hload Hr Hk.
  assert (Hne : forall k, Py.mem k ["title"; "hotlists"] = false -> k <> k0).
  { intros k Hm <-. apply In_mem in Hk. congruence. }
  assert (Hout : forall l, forallb (fun k => negb (Py.mem k ["title"; "hotlists"])) l
                           = true -> ~ In k0 l).
  { intros l Hl Hin. rewrite forallb_forall in Hl.
    specialize (Hl k0 Hin). apply negb_true_iff in Hl.
    apply In_mem in Hk. congruence. }
  destruct (get_issue_stages _ _ keys _ _ _ Hload Hr)
    as (r1 & r2 & E1 & E2 & ->).
  rewrite (extract_revisions_frame k0) by (apply Hout; reflexivity).
  rewrite (extract_description_frame keys keys_order k0)
    by (apply Hout; reflexivity).
  rewrite (extract_fixed_frame iso_to_minute k0 _ _ _
             (fun E => Hne "Fixed" eq_refl (eq_sym E))
             (fun E => Hne "fixed_time" eq_refl (eq_sym E)) E2).
  rewrite (extract_metadata_frame strptime_ymd k0) by (apply Hout; reflexivity).
  unfold extract_reported_time in E1. destruct (pg_reported pg).
  - apply (store_time_frame iso_to_minute k0 "reported_time" _ _ _
             (Hne "reported_time" eq_refl) E1).
  - injection E1 as <-. reflexivity.
Qed.

(** X23: the [title] and the [hotlists] of a record are those of the head
    of the page, and no later block of the page changes them. For a page
    that loaded, the title is the text of the first heading when it is
    found, else that of the heading of the issue header, and the key is
    absent when neither is found; [hotlists] is present exactly when
    some chip has a text that is not empty, and then holds these texts
    in the order of the page. For a page that never loaded the title is
    [Failed to load page] and there are no hotlists. *)
Theorem title_and_hotlists_of_record issue_no pg (r : record) :
  get_issue iso_to_minute strptime_ymd keys issue_no pg = Some r ->
  if fst (load_issue_page (pg_loads pg) (initial_url issue_no))
  then r !! "title"
       = match pg_title pg, pg_header_title pg with
         | Some t, _ => Some (VStr t)
         | None, Some t => Some (VStr t)
         | None, None => None
         end
       /\ r !! "hotlists"
          = match List.filter (fun t => negb (String.eqb t ""))
                    (default [] (pg_hotlists pg)) with
            | [] => None
            | hotlists => Some (VStrs hotlists)
            end
  else r !! "title" = Some (VStr "Failed to load page")
       /\ r !! "hotlists" = None.
Proof.
  intros Hr.
  destruct (fst (load_issue_page (pg_loads pg) (initial_url issue_no)))
    eqn:Hload.
  - assert (Ht : extract_title pg (loaded_record pg) !! "title"
                 = match pg_title pg, pg_header_title pg with
                   | Some t, _ => Some (VStr t)
                   | None, Some t => Some (VStr t)
                   | None, None => None
                   end).
    { unfold extract_title.
      destruct (pg_title pg), (pg_header_title pg);
        rewrite ?lookup_insert_eq; try reflexivity. }
    assert (H0 : extract_title pg (loaded_record pg) !! "hotlists" = None).
    { rewrite (extract_title_frame "hotlists") by discriminate.
      apply loaded_record_other; discriminate. }
    split.
    + rewrite (head_field_frame _ _ _ "title" Hload Hr) by (left; reflexivity).
      rewrite (extract_hotlists_frame "title") by discriminate. exact Ht.
    + rewrite (head_field_frame _ _ _ "hotlists" Hload Hr)
        by (right; left; reflexivity).
      unfold extract_hotlists.
      destruct (pg_hotlists pg) as [texts|]; cbn [default from_option id];
        [|exact H0].
      destruct (List.filter _ texts); [exact H0|]. apply lookup_insert_eq.
  - unfold get_issue in Hr. rewrite Hload in Hr. cbn [negb] in Hr.
    injection Hr as <-. split; reflexivity.
Qed.

End Head.

Lemma title_and_hotlists_of_record_witness :
  exists r,
    get_issue (fun s => Some s) (fun s => Some s) desc_vocabulary 42535201
      untitled_page = Some r
    /\ r !! "hotlists" = None.
Proof.
  destruct (untitled_page_record (fun s => Some s) (fun s => Some s)
              desc_vocabulary (Permutation_refl _)) as (r & Hr & _).
  exists r. split; [exact Hr|].
  exact (proj2 (title_and_hotlists_of_record (fun s => Some s)
                  (fun s => Some s) desc_vocabulary (Permutation_refl _)
                  42535201 untitled_page r Hr)).
Defined.

(** ** A cell above the limit of the reader *)

Lemma escape_zeros n : Json.escape (zeros n) = zeros n.
Proof.
  induction n as [|n IH]; [reflexivity|].
  cbn [zeros Json.escape]. rewrite IH. reflexivity.
Qed.

Lemma double_quotes_zeros n s :
  Csv.double_quotes (zeros n ++ s) = zeros n ++ Csv.double_quotes s.
Proof.
  induction n as [|n IH]; [reflexivity|].
  cbn [zeros]. push_append. cbn [Csv.double_quotes].
  change (Ascii.eqb "0" Csv.dquote) with false. cbv iota.
  rewrite IH. reflexivity.
Qed.

Lemma process_quoted_overflow n acc fs tail :
  (N.of_nat (length acc) <= Csv.field_limit)%N ->
  (Csv.field_limit < N.of_nat (length acc + n))%N ->
  Csv.process_line (Csv.Parser Csv.InQuotedField acc fs) (zeros n ++ tail)
  = None.
Proof.
  revert acc. induction n as [|n IH]; intros acc Ha Hn; [lia|].
  cbn [zeros]. push_append. cbn [Csv.process_line].
  unfold Csv.process_char. cbn [Csv.p_state].
  change (Ascii.eqb "0" Csv.dquote) with false. cbv iota.
  unfold Csv.add_char. cbn [Csv.p_field Csv.p_fields].
  destruct (N.leb_spec Csv.field_limit (N.of_nat (length acc))) as [H|H];
    [reflexivity|].
  apply IH; cbn [length]; lia.
Qed.

Lemma open_quoted_cell fs rest :
  Csv.process_line (Csv.Parser Csv.StartField [] fs)
    (String Csv.dquote (String Csv.dquote (String Csv.dquote rest)))
  = Csv.process_line (Csv.Parser Csv.InQuotedField [Csv.dquote] fs) rest.
Proof. reflexivity. Qed.

Lemma long_record_not_read_back n :
  (Csv.field_limit <= N.of_nat n)%N ->
  writable (long_record_of n)
  /\ exists file,
       save_to_csv [long_record_of n] = Some file
       /\ read_back file = None
       /\ load_processed_ids_from_csvs (Some [("001.csv", file)]) = ∅.
Proof.
  intros Hn.
  assert (Hw : writable (long_record_of n)).
  { unfold long_record_of. apply writable_inserts.
    - rewrite lookup_insert_eq. eexists; reflexivity.
    - repeat (apply keys_ok_insert; [reflexivity|]). apply keys_ok_empty. }
  split; [exact Hw|].
  assert (Hh : csv_header [long_record_of n] = ["id"; "title"])
    by (vm_compute; reflexivity).
  assert (Hrow : row_dict ["id"; "title"] (long_record_of n)
                 = [Json.dumps (VStr "1"); Json.dumps (VStr (zeros n))]).
  { unfold row_dict, get, long_record_of. cbn [map].
    rewrite lookup_insert_eq, lookup_insert_ne, lookup_insert_eq by discriminate.
    reflexivity. }
  eexists. split; [apply save_to_csv_nonempty; discriminate|].
  rewrite Hh. cbn [map]. rewrite Hrow.
  set (cell := Json.dumps (VStr (zeros n))).
  assert (Hlines : Py.file_lines true
            (Csv.writerows [["id"; "title"]; [Json.dumps (VStr "1"); cell]])
          = [row_text ["id"; "title"] ++ String Csv.lf "";
             row_text [Json.dumps (VStr "1"); cell] ++ String Csv.lf ""]).
  { apply (file_lines_rows [["id"; "title"]; [Json.dumps (VStr "1"); cell]]).
    repeat constructor; apply dumps_no_newline. }
  assert (Hover : Csv.process_line Csv.fresh
            (row_text [Json.dumps (VStr "1"); cell] ++ String Csv.lf "") = None).
  { assert (Hrt : row_text [Json.dumps (VStr "1"); cell]
                  = Csv.write_field (Json.dumps (VStr "1"))
                    ++ String Csv.comma (Csv.write_field cell))
      by reflexivity.
    rewrite Hrt, append_assoc. push_append. unfold Csv.fresh.
    rewrite (process_field Csv.StartRecord (Json.dumps (VStr "1")) Csv.comma
               _ [] (or_introl eq_refl) (or_introl eq_refl)).
    - change (Ascii.eqb Csv.comma Csv.comma) with true. cbv iota.
      subst cell. cbn [Json.dumps]. unfold Json.dumps_str.
      rewrite escape_zeros. unfold Csv.write_field.
      change (Csv.has_special (String Json.dquote (zeros n ++ String Json.dquote "")))
        with true. cbv iota.
      cbn [Csv.double_quotes].
      change (Ascii.eqb Json.dquote Csv.dquote) with true. cbv iota.
      rewrite double_quotes_zeros. push_append.
      rewrite open_quoted_cell, ?append_assoc.
      apply process_quoted_overflow; cbn [length]; unfold Csv.field_limit in *.
      + clear. lia.
      + clear -Hn. lia.
    - intros (_ & H & _). discriminate.
    - unfold field_fits. vm_compute. discriminate. }
  assert (Hhead : Csv.process_line Csv.fresh
            (row_text ["id"; "title"] ++ String Csv.lf "")
          = Some (Csv.Parser Csv.StartRecord [] (rev ["id"; "title"])))
    by reflexivity.
  assert (Hread : dict_reader
            (Py.file_lines true
               (Csv.writerows [["id"; "title"]; [Json.dumps (VStr "1"); cell]]))
          = (Some ["id"; "title"], [], false)).
  { rewrite Hlines. unfold dict_reader, Csv.reader. cbn [Csv.read].
    rewrite Hhead. cbn [Csv.p_state Csv.p_fields]. rewrite Hover.
    reflexivity. }
  split.
  - unfold read_back. rewrite Hread. reflexivity.
  - unfold load_processed_ids_from_csvs, ids_of_file. cbn [fold_left].
    change (Py.endswith ".csv" "001.csv") with true. cbv iota.
    rewrite Hread. reflexivity.
Qed.

(** C6, as the claim words it, fails for a batch with a cell above the
    limit of the reader: the record with the [id] [1] and a title of
    131072 zeros holds an [id] and keys without line breaks and is
    written to a file; the JSON text of the title has 131074 characters,
    the reader raises on it, the file does not read back, and the scan
    of the processed IDs finds no ID in it. *)
Lemma long_cell_not_read_back :
  writable long_record
  /\ exists file,
       save_to_csv [long_record] = Some file
       /\ read_back file = None
       /\ load_processed_ids_from_csvs (Some [("001.csv", file)]) = ∅.
Proof.
  apply long_record_not_read_back. rewrite N2Nat.id. apply N.le_refl.
Qed.
